(** * Bookeo MCP server: a shallow embedding of [bookeo_client.py] and
    [server.py], and the properties of its paginated fetch core and of its
    tool layer.

    Layout: the Python values the program manipulates ([Py]), calendar
    arithmetic ([DateTime]), the HTTP world the client talks to ([Net]), the
    client ([BookeoClient]), the tools ([Server]), then the theorems. *)

From Stdlib Require Import ZArith List String Ascii Bool Floats Lia.
Import ListNotations.
Open Scope string_scope.
Open Scope Z_scope.
Set Warnings "-register-all".

(** ** Python values and exceptions *)

Module Py.

(** Documents decoded by [response.json()], and the values the tools build
    from them.  A [dict] keeps its insertion order, so it is an association
    list whose keys are distinct. *)
Inductive json : Type :=
| JNull
| JBool (b : bool)
| JInt (z : Z)
| JFloat (f : float)
| JStr (s : string)
| JList (l : list json)
| JDict (kvs : list (string * json)).

(** The exceptions that can travel through the program. *)
Inductive exn : Type :=
| ValueError (msg : string)
| TypeError
| AttributeError
| KeyError
| IndexError
| OverflowError
| JSONDecodeError
| HTTPStatusError (status : Z)
| TransportError (msg : string).

(** Result of running a piece of the program: a value, a raised exception,
    or [OutOfFuel] when a [while True] loop was still running after the
    number of iterations the caller allowed. *)
Inductive res (A : Type) : Type :=
| Ret (a : A)
| Raise (e : exn)
| OutOfFuel.
Arguments Ret {A} a.
Arguments Raise {A} e.
Arguments OutOfFuel {A}.

Definition bind {A B} (m : res A) (k : A -> res B) : res B :=
  match m with
  | Ret a => k a
  | Raise e => Raise e
  | OutOfFuel => OutOfFuel
  end.

Definition raises {A} (m : res A) : bool :=
  match m with Raise _ => true | _ => false end.

(** What the interpreter supplies and the repository does not define: the
    text of [str(v)] for a value that is not already a string, the parser
    behind [float(s)], and the text of [str(e)] for an exception. *)
Class Runtime : Type := {
  py_repr : json -> string;
  float_of_str : string -> option float;
  exn_message : exn -> string
}.

(** *** Strings.  A text is held as its UTF-8 bytes, so a character of the
    text is one to four elements of the [string].  [strip] removes the
    white space [str.strip()] removes, whatever its length in bytes.
    [lower] changes the letters A to Z only, which is [str.lower()] on
    ASCII text ([is_ascii], Python's [str.isascii()]); on other text
    [str.lower()] also folds the cased characters beyond ASCII, and the
    theorems that depend on [lower] say which texts are ASCII. *)

Fixpoint is_ascii (s : string) : bool :=
  match s with
  | EmptyString => true
  | String c r => (nat_of_ascii c <? 128)%nat && is_ascii r
  end.

Definition lower_ascii (c : ascii) : ascii :=
  let n := nat_of_ascii c in
  if ((65 <=? n) && (n <=? 90))%nat then ascii_of_nat (n + 32) else c.

Fixpoint lower (s : string) : string :=
  match s with
  | EmptyString => EmptyString
  | String c r => String (lower_ascii c) (lower r)
  end.

(** The white space of one byte: tab to carriage return, the four
    separators 1C to 1F, and the space. *)
Definition is_space (c : ascii) : bool :=
  let n := nat_of_ascii c in
  (((9 <=? n) && (n <=? 13)) || ((28 <=? n) && (n <=? 32)))%nat.

Fixpoint lstrip_by (space : ascii -> bool) (s : string) : string :=
  match s with
  | EmptyString => EmptyString
  | String c r => if space c then lstrip_by space r else s
  end.

Fixpoint rstrip_by (space : ascii -> bool) (s : string) : string :=
  match s with
  | EmptyString => EmptyString
  | String c r =>
      match rstrip_by space r with
      | EmptyString => if space c then EmptyString else String c EmptyString
      | r' => String c r'
      end
  end.

(** The white space of more than one byte: U+0085 and U+00A0 (C2 85 and
    C2 A0), U+1680 (E1 9A 80), U+2000 to U+200A, U+2028, U+2029 and U+202F
    (E2 80 80 to 8A, A8, A9 and AF), U+205F (E2 81 9F) and U+3000
    (E3 80 80).  With [is_space] these are the characters for which
    [str.isspace()] holds. *)
Definition is_space2 (a b : ascii) : bool :=
  let y := nat_of_ascii b in
  ((nat_of_ascii a =? 194) && ((y =? 133) || (y =? 160)))%nat.

Definition is_space3 (a b c : ascii) : bool :=
  let x := nat_of_ascii a in
  let y := nat_of_ascii b in
  let z := nat_of_ascii c in
  (((x =? 225) && (y =? 154) && (z =? 128))
   || ((x =? 226) && (y =? 128)
       && (((128 <=? z) && (z <=? 138)) || (z =? 168) || (z =? 169) || (z =? 175)))
   || ((x =? 226) && (y =? 129) && (z =? 159))
   || ((x =? 227) && (y =? 128) && (z =? 128)))%nat.

(** The bytes left when the white space at the head of [l] is dropped.
    With [front] the list is a text from its start; without, it is a text
    read from its end, so the bytes of a character come last byte first.
    (A last byte 85 or A0 after C2, or the three bytes of a wide space,
    are that character in any UTF-8 text: C2, E1, E2 and E3 only start a
    character.) *)
Fixpoint drop_spaces (front : bool) (l : list ascii) : list ascii :=
  match l with
  | [] => []
  | a :: r1 =>
      if is_space a then drop_spaces front r1
      else
        match r1 with
        | [] => l
        | b :: r2 =>
            if (if front then is_space2 a b else is_space2 b a)
            then drop_spaces front r2
            else
              match r2 with
              | [] => l
              | c :: r3 =>
                  if (if front then is_space3 a b c else is_space3 c b a)
                  then drop_spaces front r3
                  else l
              end
        end
  end.

Definition lstrip (s : string) : string :=
  string_of_list_ascii (drop_spaces true (list_ascii_of_string s)).

Definition rstrip (s : string) : string :=
  string_of_list_ascii
    (rev (drop_spaces false (rev (list_ascii_of_string s)))).

(** [s.strip()]. *)
Definition strip (s : string) : string := rstrip (lstrip s).

(** [needle in hay] on two strings. *)
Fixpoint contains (needle hay : string) : bool :=
  String.prefix needle hay ||
  match hay with
  | EmptyString => false
  | String _ r => contains needle r
  end.

Definition is_empty (s : string) : bool :=
  match s with EmptyString => true | _ => false end.

Definition is_digit (c : ascii) : bool :=
  let n := nat_of_ascii c in ((48 <=? n) && (n <=? 57))%nat.

Definition digit_val (c : ascii) : Z := Z.of_nat (nat_of_ascii c) - 48.

Definition digit_char (d : Z) : ascii := ascii_of_nat (Z.to_nat (48 + d)).

(** [int(s)] for a text [s], base ten: surrounding white space (for [int],
    tab to carriage return and the space), one optional sign, then digits
    in which single underscores may separate digits. *)
Definition is_c_space (c : ascii) : bool :=
  let n := nat_of_ascii c in
  (((9 <=? n) && (n <=? 13)) || (n =? 32))%nat.

Fixpoint int_digits (s : string) (acc : Z) (after_digit : bool) : option Z :=
  match s with
  | EmptyString => if after_digit then Some acc else None
  | String c r =>
      if is_digit c then int_digits r (10 * acc + digit_val c) true
      else if Ascii.eqb c "_" then
        if after_digit then int_digits r acc false else None
      else None
  end.

Definition int_of_str (s : string) : option Z :=
  match rstrip_by is_c_space (lstrip_by is_c_space s) with
  | String "-" r => option_map Z.opp (int_digits r 0 false)
  | String "+" r => int_digits r 0 false
  | t => int_digits t 0 false
  end.

(** Decimal text of a natural number, left-padded with zeros to [width]
    characters. *)
Fixpoint digits_of (fuel : nat) (n : Z) (acc : string) : string :=
  match fuel with
  | O => acc
  | S f =>
      let acc' := String (digit_char (n mod 10)) acc in
      if n / 10 =? 0 then acc' else digits_of f (n / 10) acc'
  end.

Definition decimal (n : Z) : string := digits_of (S (Z.to_nat (Z.log2 n))) n "".

Fixpoint zeros (k : nat) : string :=
  match k with O => "" | S k' => String "0" (zeros k') end.

Definition zfill (width : nat) (n : Z) : string :=
  let d := decimal n in (zeros (width - String.length d) ++ d)%string.

(** *** Truth value, [dict.get], subscripting, iteration, [+], [float()] *)

Definition truthy (v : json) : bool :=
  match v with
  | JNull => false
  | JBool b => b
  | JInt z => negb (z =? 0)
  | JFloat f => negb (PrimFloat.eqb f 0%float)
  | JStr s => negb (is_empty s)
  | JList l => match l with [] => false | _ => true end
  | JDict kvs => match kvs with [] => false | _ => true end
  end.

Fixpoint assoc (k : string) (kvs : list (string * json)) : option json :=
  match kvs with
  | [] => None
  | (k', v) :: r => if String.eqb k k' then Some v else assoc k r
  end.

(** [d[k] = v] on a dict: the value is replaced in place when the key is
    there, appended otherwise. *)
Fixpoint dict_set (k : string) (v : json) (kvs : list (string * json))
  : list (string * json) :=
  match kvs with
  | [] => [(k, v)]
  | (k', v') :: r =>
      if String.eqb k k' then (k, v) :: r else (k', v') :: dict_set k v r
  end.

(** [d.get(k, default)]: only a dict has the method. *)
Definition get (d : json) (k : string) (default : json) : res json :=
  match d with
  | JDict kvs => Ret (match assoc k kvs with Some v => v | None => default end)
  | _ => Raise AttributeError
  end.

(** [v[0]]. *)
Definition first_item (v : json) : res json :=
  match v with
  | JList (x :: _) => Ret x
  | JList [] => Raise IndexError
  | JStr (String c _) => Ret (JStr (String c EmptyString))
  | JStr EmptyString => Raise IndexError
  | JDict _ => Raise KeyError
  | _ => Raise TypeError
  end.

Fixpoint chars (s : string) : list json :=
  match s with
  | EmptyString => []
  | String c r => JStr (String c EmptyString) :: chars r
  end.

(** The items a [for] loop visits. *)
Definition iter (v : json) : res (list json) :=
  match v with
  | JList l => Ret l
  | JDict kvs => Ret (map (fun kv => JStr (fst kv)) kvs)
  | JStr s => Ret (chars s)
  | _ => Raise TypeError
  end.

(** [float(n)] for an integer: the nearest binary64 value, [OverflowError]
    beyond the largest one. *)
Definition float_of_Z (z : Z) : res float :=
  match SpecFloat.binary_normalize prec emax z 0 false with
  | SpecFloat.S754_infinity _ => Raise OverflowError
  | sf => Ret (SF2Prim sf)
  end.

Definition to_float `{Runtime} (v : json) : res float :=
  match v with
  | JBool b => Ret (if b then 1%float else 0%float)
  | JInt z => float_of_Z z
  | JFloat f => Ret f
  | JStr s =>
      match float_of_str s with
      | Some f => Ret f
      | None => Raise (ValueError "could not convert string to float")
      end
  | _ => Raise TypeError
  end.

(** The number behind a value that Python treats as a number. *)
Inductive number : Type := NInt (z : Z) | NFloat (f : float).

Definition as_number (v : json) : option number :=
  match v with
  | JBool b => Some (NInt (if b then 1 else 0))
  | JInt z => Some (NInt z)
  | JFloat f => Some (NFloat f)
  | _ => None
  end.

(** [a + b]. *)
Definition add (a b : json) : res json :=
  match as_number a, as_number b with
  | Some (NInt x), Some (NInt y) => Ret (JInt (x + y))
  | Some (NInt x), Some (NFloat g) =>
      bind (float_of_Z x) (fun f => Ret (JFloat (PrimFloat.add f g)))
  | Some (NFloat f), Some (NInt y) =>
      bind (float_of_Z y) (fun g => Ret (JFloat (PrimFloat.add f g)))
  | Some (NFloat f), Some (NFloat g) => Ret (JFloat (PrimFloat.add f g))
  | _, _ =>
      match a, b with
      | JStr s, JStr t => Ret (JStr (s ++ t)%string)
      | JList l, JList m => Ret (JList (l ++ m)%list)
      | _, _ => Raise TypeError
      end
  end.

(** [sum(xs)], which starts from the integer 0. *)
Definition sum (xs : list json) : res json :=
  fold_left (fun acc x => bind acc (fun a => add a x)) xs (Ret (JInt 0)).

(** [str(v)] as an f-string interpolates it. *)
Definition to_str `{Runtime} (v : json) : string :=
  match v with
  | JStr s => s
  | _ => py_repr v
  end.

(** [s.lower()]: a method of [str] only. *)
Definition lower_of (v : json) : res string :=
  match v with
  | JStr s => Ret (lower s)
  | _ => Raise AttributeError
  end.

End Py.

(** ** Calendar arithmetic: the parts of [datetime] the program uses *)

Module DateTime.
Import Py.

(** A naive [datetime].  Its date is held as the proleptic Gregorian ordinal
    ([date.toordinal()]: 1 is 0001-01-01), which is how [datetime] itself
    adds a [timedelta] and compares; [ymd2ord] and [ord2ymd] are the
    interpreter's conversions from and to year, month and day.  A record
    stands for a [datetime] when its date is [in_calendar], in the years 1
    to 9999.  The sums below are written with [add_days], which is the sum
    wherever Python has one; [plus_days] is the sum as Python computes it,
    with its [OverflowError], and the theorems that depend on a sum say
    that it stays in the calendar. *)
Record datetime : Type := {
  ordinal : Z;
  hour : Z;
  minute : Z;
  second : Z;
  microsecond : Z
}.

Definition is_leap (year : Z) : bool :=
  (year mod 4 =? 0) && (negb (year mod 100 =? 0) || (year mod 400 =? 0)).

Definition days_before_year (year : Z) : Z :=
  let y := year - 1 in y * 365 + y / 4 - y / 100 + y / 400.

Definition DAYS_IN_MONTH : list Z := [31; 28; 31; 30; 31; 30; 31; 31; 30; 31; 30; 31].

Definition days_in_month (year month : Z) : Z :=
  if (month =? 2) && is_leap year then 29
  else nth (Z.to_nat (month - 1)) DAYS_IN_MONTH 0.

Definition DAYS_BEFORE_MONTH : list Z :=
  [0; 31; 59; 90; 120; 151; 181; 212; 243; 273; 304; 334].

Definition days_before_month (year month : Z) : Z :=
  nth (Z.to_nat (month - 1)) DAYS_BEFORE_MONTH 0
  + (if (2 <? month) && is_leap year then 1 else 0).

Definition ymd2ord (year month day : Z) : Z :=
  days_before_year year + days_before_month year month + day.

Definition DI400Y : Z := 146097.
Definition DI100Y : Z := 36524.
Definition DI4Y : Z := 1461.

Definition ord2ymd (n0 : Z) : Z * Z * Z :=
  let n := n0 - 1 in
  let n400 := n / DI400Y in
  let n := n mod DI400Y in
  let year := n400 * 400 + 1 in
  let n100 := n / DI100Y in
  let n := n mod DI100Y in
  let n4 := n / DI4Y in
  let n := n mod DI4Y in
  let n1 := n / 365 in
  let n := n mod 365 in
  let year := year + n100 * 100 + n4 * 4 + n1 in
  if (n1 =? 4) || (n100 =? 4) then (year - 1, 12, 31)
  else
    let leapyear := (n1 =? 3) && (negb (n4 =? 24) || (n100 =? 3)) in
    let month := Z.shiftr (n + 50) 5 in
    let preceding :=
      nth (Z.to_nat (month - 1)) DAYS_BEFORE_MONTH 0
      + (if (2 <? month) && leapyear then 1 else 0) in
    if n <? preceding then
      let month := month - 1 in
      let preceding :=
        preceding - (nth (Z.to_nat (month - 1)) DAYS_IN_MONTH 0
                     + (if (month =? 2) && leapyear then 1 else 0)) in
      (year, month, n - preceding + 1)
    else (year, month, n - preceding + 1).

Definition year_of (d : datetime) : Z := fst (fst (ord2ymd (ordinal d))).

(** [datetime(year, month, day)]: midnight of that day. *)
Definition midnight (year month day : Z) : datetime :=
  {| ordinal := ymd2ord year month day;
     hour := 0; minute := 0; second := 0; microsecond := 0 |}.

(** [a < b]: field by field, the date first. *)
Definition time_key (d : datetime) : list Z :=
  [ordinal d; hour d; minute d; second d; microsecond d].

Fixpoint lex_ltb (a b : list Z) : bool :=
  match a, b with
  | x :: a', y :: b' => (x <? y) || ((x =? y) && lex_ltb a' b')
  | [], _ :: _ => true
  | _, [] => false
  end.

Definition ltb (a b : datetime) : bool := lex_ltb (time_key a) (time_key b).

Definition lt (a b : datetime) : Prop := ltb a b = true.

(** [a <= b]. *)
Definition le (a b : datetime) : Prop := ltb b a = false.

(** [min(a, b)] keeps [a] unless [b] is smaller. *)
Definition min (a b : datetime) : datetime := if ltb b a then b else a.

(** [d + timedelta(days=n)], where that is a [datetime]. *)
Definition add_days (d : datetime) (n : Z) : datetime :=
  {| ordinal := ordinal d + n;
     hour := hour d; minute := minute d; second := second d;
     microsecond := microsecond d |}.

(** [datetime.max.toordinal()], the ordinal of 9999-12-31, and the most
    days a [timedelta] holds. *)
Definition MAXORDINAL : Z := 3652059.

Definition MAX_DELTA_DAYS : Z := 999999999.

Definition in_calendar (d : datetime) : Prop := 1 <= ordinal d <= MAXORDINAL.

(** [d + timedelta(days=n)] as the interpreter computes it:
    [timedelta(days=n)] raises [OverflowError] beyond [MAX_DELTA_DAYS], and
    the sum raises it when the date leaves the years 1 to 9999.
    [d - timedelta(days=n)] is [plus_days d (- n)]. *)
Definition plus_days (d : datetime) (n : Z) : res datetime :=
  if (Z.abs n <=? MAX_DELTA_DAYS) && (1 <=? ordinal d + n)
     && (ordinal d + n <=? MAXORDINAL)
  then Ret (add_days d n)
  else Raise OverflowError.

(** Microseconds since the midnight that starts ordinal 0. *)
Definition total_us (d : datetime) : Z :=
  (((ordinal d * 24 + hour d) * 60 + minute d) * 60 + second d) * 1000000
  + microsecond d.

Definition US_PER_DAY : Z := 86400000000.

(** [(a - b).days]: a [timedelta] is normalised with a non-negative
    remainder, so its days are the floor of the difference. *)
Definition days_between (a b : datetime) : Z :=
  (total_us a - total_us b) / US_PER_DAY.

(** [d.replace(hour=h, minute=m, second=s)]: date and microsecond stay. *)
Definition replace_hms (d : datetime) (h m s : Z) : datetime :=
  {| ordinal := ordinal d; hour := h; minute := m; second := s;
     microsecond := microsecond d |}.

(** A time zone, as the offset from UTC, in seconds, of a wall-clock time. *)
Definition tzinfo : Type := datetime -> Z.

(** [d.replace(tzinfo=tz).astimezone(ZoneInfo("UTC"))], as a naive UTC time. *)
Definition astimezone_utc (tz : tzinfo) (d : datetime) : datetime :=
  let t := ((ordinal d * 24 + hour d) * 60 + minute d) * 60 + second d - tz d in
  {| ordinal := t / 86400;
     hour := (t mod 86400) / 3600;
     minute := (t mod 3600) / 60;
     second := t mod 60;
     microsecond := microsecond d |}.

(** [d.strftime("%Y-%m-%dT%H:%M:%SZ")].  (Before the year 1000 it is left
    to the C library whether the year is padded; here it is.) *)
Definition strftime_iso_z (d : datetime) : string :=
  let '(y, m, dd) := ord2ymd (ordinal d) in
  (zfill 4 y ++ "-" ++ zfill 2 m ++ "-" ++ zfill 2 dd ++ "T"
   ++ zfill 2 (hour d) ++ ":" ++ zfill 2 (minute d) ++ ":"
   ++ zfill 2 (second d) ++ "Z")%string.

(** [datetime.strptime(s, "%Y-%m-%d")].  The year is four digits; month and
    day are the first alternative that fits of [1[0-2]|0[1-9]|[1-9]] and of
    [3[01]|[12]\d|0[1-9]|[1-9]| [1-9]]; nothing may follow the day, and the
    date has to exist.  Every failure is a [ValueError].  The digits read
    are 0 to 9: a date that parses here parses there to the same day, and
    an ASCII text that fails here fails there; beyond ASCII, [\d] also
    takes the other decimal digits of Unicode. *)
Definition in_range (lo hi : nat) (c : ascii) : bool :=
  let n := nat_of_ascii c in ((lo <=? n) && (n <=? hi))%nat.

Definition parse_year (s : string) : option (Z * string) :=
  match s with
  | String a (String b (String c (String d r))) =>
      if is_digit a && is_digit b && is_digit c && is_digit d
      then Some (((digit_val a * 10 + digit_val b) * 10 + digit_val c) * 10
                 + digit_val d, r)
      else None
  | _ => None
  end.

Definition parse_month (s : string) : option (Z * string) :=
  match s with
  | String a r =>
      match r with
      | String b r' =>
          if Ascii.eqb a "1" && in_range 48 50 b then Some (10 + digit_val b, r')
          else if Ascii.eqb a "0" && in_range 49 57 b then Some (digit_val b, r')
          else if in_range 49 57 a then Some (digit_val a, r)
          else None
      | EmptyString => if in_range 49 57 a then Some (digit_val a, r) else None
      end
  | EmptyString => None
  end.

Definition parse_day (s : string) : option (Z * string) :=
  match s with
  | String a r =>
      match r with
      | String b r' =>
          if Ascii.eqb a "3" && in_range 48 49 b then Some (30 + digit_val b, r')
          else if in_range 49 50 a && is_digit b
               then Some (digit_val a * 10 + digit_val b, r')
          else if Ascii.eqb a "0" && in_range 49 57 b then Some (digit_val b, r')
          else if in_range 49 57 a then Some (digit_val a, r)
          else if Ascii.eqb a " " && in_range 49 57 b then Some (digit_val b, r')
          else None
      | EmptyString => if in_range 49 57 a then Some (digit_val a, r) else None
      end
  | EmptyString => None
  end.

Definition expect_dash (s : string) : option string :=
  match s with
  | String "-" r => Some r
  | _ => None
  end.

Definition strptime_ymd (s : string) : res datetime :=
  match parse_year s with
  | Some (y, s1) =>
    match expect_dash s1 with
    | Some s2 =>
      match parse_month s2 with
      | Some (m, s3) =>
        match expect_dash s3 with
        | Some s4 =>
          match parse_day s4 with
          | Some (d, EmptyString) =>
              if y <? 1 then Raise (ValueError "year is out of range")
              else if days_in_month y m <? d
                   then Raise (ValueError "day is out of range for month")
              else Ret (midnight y m d)
          | Some (_, String _ _) => Raise (ValueError "unconverted data remains")
          | None => Raise (ValueError "does not match format")
          end
        | None => Raise (ValueError "does not match format")
        end
      | None => Raise (ValueError "does not match format")
      end
    | None => Raise (ValueError "does not match format")
    end
  | None => Raise (ValueError "does not match format")
  end.

(** The zone the client names, [ZoneInfo("America/Los_Angeles")], by the
    rule the tz database gives it from 2007 on: daylight time (UTC-7) from
    03:00 on the second Sunday of March until 02:00 on the first Sunday of
    November, standard time (UTC-8) otherwise.  A Sunday is an ordinal that
    is a multiple of 7. *)
Definition first_sunday_from (ord : Z) : Z := ord + (- ord) mod 7.

Definition Los_Angeles : tzinfo := fun d =>
  let y := year_of d in
  let starts := first_sunday_from (ymd2ord y 3 1) + 7 in
  let ends := first_sunday_from (ymd2ord y 11 1) in
  let wall := (ordinal d * 24 + hour d) * 60 + minute d in
  if ((starts * 24 + 3) * 60 <=? wall) && (wall <? (ends * 24 + 2) * 60)
  then -7 * 3600 else -8 * 3600.

End DateTime.

(** ** The world outside the process: HTTP transport, environment, clock *)

Module Net.
Import Py DateTime.

(** What [client.get(url, params=params)] sends. *)
Record request : Type := { url : string; params : list (string * json) }.

(** What comes back: a status, the headers, and the body, [None] when it is
    not a JSON document. *)
Record response : Type := {
  status_code : Z;
  headers : list (string * string);
  body : option json
}.

(** [client.get] returns a response or raises (time-out, refused
    connection). *)
Inductive wire : Type :=
| Answer (r : response)
| Broken (e : exn).

(** What the process does that can be seen from outside, oldest first. *)
Inductive event : Type :=
| Get (q : request)
| Sleep (seconds : json).

(** Everything the process reads and does not control: the upstream
    service, which may answer according to all that happened before; the
    environment variables ([load_dotenv] has run); the clock behind
    [datetime.now()]; the zone [ZoneInfo("America/Los_Angeles")]. *)
Record world : Type := {
  net : list event -> request -> wire;
  environ : string -> option string;
  now : datetime;
  local_zone : tzinfo
}.

(** The client object: its two credentials.  (Its lazily created
    connection handle carries nothing that is sent.) *)
Record BookeoClient : Type := { api_key : string; api_secret : string }.

(** What the process changes: the events so far and the module-level
    [_client] of [server.py]. *)
Record state : Type := {
  trace : list event;
  the_client : option BookeoClient
}.

Definition M (A : Type) : Type := state -> res A * state.

Definition ret {A} (a : A) : M A := fun s => (Ret a, s).

Definition lift {A} (r : res A) : M A := fun s => (r, s).

Definition bindM {A B} (m : M A) (k : A -> M B) : M B :=
  fun s =>
    match m s with
    | (Ret a, s') => k a s'
    | (Raise e, s') => (Raise e, s')
    | (OutOfFuel, s') => (OutOfFuel, s')
    end.

(** [try: m except Exception as e: h e]. *)
Definition try_except {A} (m : M A) (h : exn -> M A) : M A :=
  fun s =>
    match m s with
    | (Raise e, s') => h e s'
    | other => other
    end.

Definition log (e : event) (s : state) : state :=
  {| trace := trace s ++ [e]; the_client := the_client s |}.

(** [await asyncio.sleep(d)]. *)
Definition sleep (d : json) : M unit := fun s => (Ret tt, log (Sleep d) s).

(** [await client.get(url, params=params)]. *)
Definition http_get (W : world) (q : request) : M response :=
  fun s =>
    match net W (trace s) q with
    | Answer r => (Ret r, log (Get q) s)
    | Broken e => (Raise e, log (Get q) s)
    end.

Definition gets (t : list event) : list request :=
  flat_map (fun e => match e with Get q => [q] | Sleep _ => [] end) t.

End Net.

Declare Scope py_scope.
Delimit Scope py_scope with py.
Notation "x <- m ;; k" := (Net.bindM m (fun x => k))
  (at level 61, m at next level, right associativity) : py_scope.
Notation "'let*' x := m 'in' k" := (Py.bind m (fun x => k))
  (at level 61, x name, m at next level, right associativity) : py_scope.

(** ** [bookeo_client.py] *)

Module BookeoClient.
Import Py DateTime Net.
Open Scope py_scope.

Definition BASE_URL : string := "https://api.bookeo.com/v2".

Section Client.
Context `{Runtime} (W : world).

(** [BookeoClient()]. *)
Definition init : res BookeoClient :=
  match environ W "API_KEY", environ W "API_SECRET" with
  | Some k, Some s =>
      if is_empty k || is_empty s
      then Raise (ValueError "API_KEY and API_SECRET must be set in .env")
      else Ret {| api_key := k; api_secret := s |}
  | _, _ => Raise (ValueError "API_KEY and API_SECRET must be set in .env")
  end.

(** [response.headers.get(name)]: header names compare without case, and
    the values of a repeated header are joined by a comma and a space. *)
Definition header (name : string) (hs : list (string * string)) : option string :=
  match filter (fun kv => String.eqb (lower (fst kv)) (lower name)) hs with
  | [] => None
  | kv :: more =>
      Some (fold_left (fun acc kv' => (acc ++ ", " ++ snd kv')%string) more (snd kv))
  end.

(** [int(response.headers.get("Retry-After", 60))]. *)
Definition retry_after (r : response) : res Z :=
  match header "Retry-After" (headers r) with
  | None => Ret 60
  | Some v =>
      match int_of_str v with
      | Some n => Ret n
      | None => Raise (ValueError "invalid literal for int() with base 10")
      end
  end.

(** [response.raise_for_status()] followed by [response.json()]. *)
Definition is_success (r : response) : bool :=
  (200 <=? status_code r) && (status_code r <=? 299).

Definition json_or_raise (r : response) : res json :=
  if is_success r then
    match body r with
    | Some j => Ret j
    | None => Raise JSONDecodeError
    end
  else Raise (HTTPStatusError (status_code r)).

(** The [while True] of [_request]. *)
Fixpoint request_loop (fuel : nat) (q : request) : M json :=
  match fuel with
  | O => lift OutOfFuel
  | S fuel' =>
      response <- http_get W q ;;
      if status_code response =? 429 then
        retry <- lift (retry_after response) ;;
        _ <- sleep (JInt retry) ;;
        request_loop fuel' q
      else lift (json_or_raise response)
  end.

(** [_request(endpoint, params)]: [params or {}], then the credentials. *)
Definition authenticated (self : BookeoClient) (endpoint : string)
    (params : option (list (string * json))) : request :=
  let params := match params with Some (kv :: r) => kv :: r | _ => [] end in
  let params := dict_set "apiKey" (JStr (api_key self)) params in
  let params := dict_set "secretKey" (JStr (api_secret self)) params in
  {| url := (BASE_URL ++ endpoint)%string; params := params |}.

Definition _request (fuel : nat) (self : BookeoClient) (endpoint : string)
    (params : option (list (string * json))) : M json :=
  request_loop fuel (authenticated self endpoint params).

Definition get_booking (fuel : nat) (self : BookeoClient) (booking_number : string)
  : M json :=
  _request fuel self ("/bookings/" ++ booking_number)%string
           (Some [("expandCustomer", JStr "true")]).

Definition get_booking_payments (fuel : nat) (self : BookeoClient)
    (booking_number : string) : M json :=
  data <- _request fuel self ("/bookings/" ++ booking_number ++ "/payments")%string None ;;
  lift (get data "data" (JList [])).

(** [str(flag).lower()]. *)
Definition flag_text (b : bool) : string := lower (if b then "True" else "False").

(** A consumer of the generator: what the body of the caller's [async for]
    does with each booking. *)
Fixpoint for_each {A} (body : A -> json -> res A) (items : list json) (acc : A)
  : res A :=
  match items with
  | [] => Ret acc
  | x :: r => let* acc' := body acc x in for_each body r acc'
  end.

Section Search.
Context {A : Type} (body : A -> json -> res A).
Variables (self : BookeoClient) (expand_customer include_canceled : bool).

Definition search_params (start_utc end_utc : datetime)
    (page_token page_number : json) : list (string * json) :=
  let params :=
    [ ("startTime", JStr (strftime_iso_z start_utc));
      ("endTime", JStr (strftime_iso_z end_utc));
      ("itemsPerPage", JInt 100);
      ("expandCustomer", JStr (flag_text expand_customer));
      ("includeCanceled", JStr (flag_text include_canceled)) ] in
  if truthy page_token
  then dict_set "pageNumber" page_number
         (dict_set "pageNavigationToken" page_token params)
  else params.

(** The inner [while True] of [search_bookings]: the pages of one chunk. *)
Fixpoint pages (fuel : nat) (start_utc end_utc : datetime)
    (page_token page_number : json) (acc : A) : M A :=
  match fuel with
  | O => lift OutOfFuel
  | S fuel' =>
      let params := search_params start_utc end_utc page_token page_number in
      data <- _request fuel self "/bookings" (Some params) ;;
      bookings <- lift (let* d := get data "data" (JList []) in iter d) ;;
      acc <- lift (for_each body bookings acc) ;;
      paging <- lift (let* info := get data "info" (JDict []) in
                      get info "paging" (JDict [])) ;;
      next <- lift (get paging "nextPageURL" JNull) ;;
      if truthy next then
        page_token <- lift (get paging "pageNavigationToken" JNull) ;;
        page_number <- lift (let* current := get paging "currentPage" (JInt 1) in
                             add current (JInt 1)) ;;
        pages fuel' start_utc end_utc page_token page_number acc
      else ret acc
  end.

(** One turn of the outer [while]: the request window of a chunk, its
    pages, then the courtesy pause. *)
Definition window_start (current_start : datetime) : datetime :=
  astimezone_utc (local_zone W) (replace_hms current_start 0 0 0).

Definition window_end (chunk_end : datetime) : datetime :=
  astimezone_utc (local_zone W) (replace_hms chunk_end 23 59 59).

Definition one_chunk (fuel : nat) (current_start chunk_end : datetime) (acc : A)
  : M A :=
  acc <- pages fuel (window_start current_start) (window_end chunk_end)
               JNull JNull acc ;;
  _ <- sleep (JFloat 0.5%float) ;;
  ret acc.

(** The outer [while current_start < end_time].  [turns] bounds the number
    of tests of its condition.  [current_start + timedelta(days=30)] is
    [add_days]: the sum wherever [plus_days] has one, which is every turn
    of a window that ends 30 days or more before the last day of the
    calendar. *)
Fixpoint chunk_loop (turns fuel : nat) (current_start end_time : datetime)
    (acc : A) : M A :=
  match turns with
  | O => lift OutOfFuel
  | S turns' =>
      if ltb current_start end_time then
        let chunk_end := DateTime.min (add_days current_start 30) end_time in
        acc <- one_chunk fuel current_start chunk_end acc ;;
        chunk_loop turns' fuel chunk_end end_time acc
      else ret acc
  end.

(** Each turn but the last moves [current_start] 30 days on, so the
    condition is tested at most this many times. *)
Definition turns_for (start_time end_time : datetime) : nat :=
  Z.to_nat (ordinal end_time - ordinal start_time) + 2.

Definition search_bookings (fuel : nat) (start_time end_time : datetime)
    (acc : A) : M A :=
  chunk_loop (turns_for start_time end_time) fuel start_time end_time acc.

End Search.

(** The chunks the outer loop goes through: the pairs
    [(current_start, chunk_end)] of its turns. *)
Fixpoint chunks_from (turns : nat) (current_start end_time : datetime)
  : list (datetime * datetime) :=
  match turns with
  | O => []
  | S turns' =>
      if ltb current_start end_time then
        let chunk_end := DateTime.min (add_days current_start 30) end_time in
        (current_start, chunk_end) :: chunks_from turns' chunk_end end_time
      else []
  end.

Definition chunks (start_time end_time : datetime) : list (datetime * datetime) :=
  chunks_from (turns_for start_time end_time) start_time end_time.

(** Running the body of the outer loop on a given list of chunks. *)
Fixpoint over_chunks {A} (body : A -> json -> res A) (self : BookeoClient)
    (expand_customer include_canceled : bool) (fuel : nat)
    (cs : list (datetime * datetime)) (acc : A) : M A :=
  match cs with
  | [] => ret acc
  | (current_start, chunk_end) :: rest =>
      acc <- one_chunk body self expand_customer include_canceled fuel
                       current_start chunk_end acc ;;
      over_chunks body self expand_customer include_canceled fuel rest acc
  end.

End Client.
End BookeoClient.

(** ** [server.py] *)

Module Server.
Import Py DateTime Net.
Open Scope py_scope.

(** The dict [format_customer] returns, by its three keys. *)
Record customer_info : Type := {
  name : string;
  email : json;
  phone : json
}.

Definition customer_json (c : customer_info) : json :=
  JDict [("name", JStr (name c)); ("email", email c); ("phone", phone c)].

(** The dict [analyze_payment] returns, by its seven keys. *)
Record payment_info : Type := {
  amount : json;
  method : json;
  gateway : json;
  is_manual : bool;
  reason : json;
  agent : json;
  received_time : json
}.

Definition payment_json (p : payment_info) : json :=
  JDict [("amount", amount p); ("method", method p); ("gateway", gateway p);
         ("is_manual", JBool (is_manual p)); ("reason", reason p);
         ("agent", agent p); ("received_time", received_time p)].

(** Equality as a [set] sees it: numbers by value, whatever their type. *)
Definition float_is_Z (f : float) (z : Z) : bool :=
  match Prim2SF f with
  | SpecFloat.S754_zero _ => z =? 0
  | SpecFloat.S754_finite s m e =>
      let v := if s then Z.neg m else Z.pos m in
      if 0 <=? e then z =? v * 2 ^ e else z * 2 ^ (- e) =? v
  | _ => false
  end.

Definition same_key (a b : json) : bool :=
  match as_number a, as_number b with
  | Some (NInt x), Some (NInt y) => x =? y
  | Some (NInt x), Some (NFloat g) => float_is_Z g x
  | Some (NFloat f), Some (NInt y) => float_is_Z f y
  | Some (NFloat f), Some (NFloat g) => PrimFloat.eqb f g
  | _, _ =>
      match a, b with
      | JNull, JNull => true
      | JStr s, JStr t => String.eqb s t
      | _, _ => false
      end
  end.

Definition hashable (v : json) : bool :=
  match v with
  | JList _ | JDict _ => false
  | _ => true
  end.

(** [list(set(xs))].  The order in which a [set] is listed is not fixed by
    the language; here it is the order of first occurrence. *)
Fixpoint set_list (xs seen : list json) : res (list json) :=
  match xs with
  | [] => Ret seen
  | x :: r =>
      if hashable x then
        if existsb (same_key x) seen then set_list r seen
        else set_list r (seen ++ [x])%list
      else Raise TypeError
  end.

Section Tools.
Context `{Runtime} (W : world).

(** [get_client()]: the shared client, built at the first call. *)
Definition get_client : M BookeoClient :=
  fun s =>
    match the_client s with
    | Some c => (Ret c, s)
    | None =>
        match BookeoClient.init W with
        | Ret c => (Ret c, {| trace := trace s; the_client := Some c |})
        | Raise e => (Raise e, s)
        | OutOfFuel => (OutOfFuel, s)
        end
    end.

Definition format_customer (booking : json) : res customer_info :=
  let* customer := get booking "customer" (JDict []) in
  let* phone_numbers := get customer "phoneNumbers" (JList []) in
  let* first := get customer "firstName" (JStr "") in
  let* last := get customer "lastName" (JStr "") in
  let* email := get customer "emailAddress" (JStr "") in
  let* phone :=
    if truthy phone_numbers
    then let* p := first_item phone_numbers in get p "number" (JStr "")
    else Ret (JStr "") in
  Ret {| name := strip (to_str first ++ " " ++ to_str last)%string;
         email := email;
         phone := phone |}.

Definition format_price (booking : json) : res json :=
  let* price := get booking "price" (JDict []) in
  let* total_gross := get price "totalGross" (JDict []) in
  let* total_paid := get price "totalPaid" (JDict []) in
  let* balance_due := get price "balanceDue" (JDict []) in
  Ret (JDict [("total_gross", total_gross); ("total_paid", total_paid);
              ("balance_due", balance_due)]).

(** [sum(p.get("number", 0) for p in numbers)]: the generator is consumed
    one category at a time. *)
Fixpoint sum_numbers (ps : list json) (acc : json) : res json :=
  match ps with
  | [] => Ret acc
  | p :: r =>
      let* n := get p "number" (JInt 0) in
      let* acc' := add acc n in
      sum_numbers r acc'
  end.

Definition format_participants (booking : json) : res json :=
  let* participants := get booking "participants" (JDict []) in
  let* numbers := get participants "numbers" (JList []) in
  let* ps := iter numbers in
  sum_numbers ps (JInt 0).

Definition analyze_payment (payment : json) : res payment_info :=
  let* gateway := get payment "gatewayName" (JStr "") in
  let* amount := get payment "amount" (JDict []) in
  let* method := get payment "paymentMethod" (JStr "unknown") in
  let* reason := get payment "reason" (JStr "") in
  let* agent := get payment "agent" (JStr "") in
  let* received_time := get payment "receivedTime" (JStr "") in
  Ret {| amount := amount;
         method := method;
         gateway := if truthy gateway then gateway else JStr "manual";
         is_manual := negb (truthy gateway);
         reason := reason;
         agent := agent;
         received_time := received_time |}.

(** The summary dict the two searches build for a booking. *)
Definition summary (booking : json) (customer : customer_info) : res json :=
  let* booking_number := get booking "bookingNumber" JNull in
  let* start_time := get booking "startTime" JNull in
  let* product_name := get booking "productName" JNull in
  let* participants := format_participants booking in
  let* price := format_price booking in
  Ret (JDict [("booking_number", booking_number); ("start_time", start_time);
              ("product_name", product_name);
              ("customer", customer_json customer);
              ("participants", participants); ("price", price)]).

Definition error_payload (msg : string) : json := JDict [("error", JStr msg)].

(** [name_lower and name_lower in text.lower()]. *)
Definition fragment_match (fragment : string) (text : json) : res bool :=
  if is_empty fragment then Ret false
  else let* t := lower_of text in Ret (contains fragment t).

(** Body of the [async for] of [search_bookings_by_customer]. *)
Definition keep_if_match (name_lower email_lower : string)
    (results : list json) (booking : json) : res (list json) :=
  let* customer := format_customer booking in
  let* name_match := fragment_match name_lower (JStr (name customer)) in
  let* email_match := fragment_match email_lower (email customer) in
  if name_match || email_match then
    let* item := summary booking customer in Ret (results ++ [item])%list
  else Ret results.

Definition search_bookings_by_customer (fuel : nat)
    (customer_name customer_email : string) (days_back : Z) : M json :=
  if is_empty customer_name && is_empty customer_email then
    ret (JList [error_payload "Must provide either customer_name or customer_email"])
  else
    let days_back := Z.min days_back 365 in
    client <- get_client ;;
    let end_time := now W in
    let start_time := add_days end_time (- days_back) in
    let name_lower := if is_empty customer_name then "" else lower customer_name in
    let email_lower := if is_empty customer_email then "" else lower customer_email in
    results <- BookeoClient.search_bookings W (keep_if_match name_lower email_lower)
                 client true false fuel start_time end_time [] ;;
    ret (JList results).

Definition get_booking (fuel : nat) (booking_number : string) : M json :=
  client <- get_client ;;
  try_except
    (booking <- BookeoClient.get_booking W fuel client booking_number ;;
     lift (let* number := get booking "bookingNumber" JNull in
           let* start_time := get booking "startTime" JNull in
           let* end_time := get booking "endTime" JNull in
           let* product_name := get booking "productName" JNull in
           let* product_id := get booking "productId" JNull in
           let* customer := format_customer booking in
           let* participants := format_participants booking in
           let* price := format_price booking in
           let* adjustments := get booking "priceAdjustments" (JList []) in
           let* creation_time := get booking "creationTime" JNull in
           let* source := get booking "source" (JDict []) in
           Ret (JDict [("booking_number", number); ("start_time", start_time);
                       ("end_time", end_time); ("product_name", product_name);
                       ("product_id", product_id);
                       ("customer", customer_json customer);
                       ("participants", participants); ("price", price);
                       ("price_adjustments", adjustments);
                       ("creation_time", creation_time); ("source", source)])))
    (fun e => ret (error_payload
                     ("Booking not found or API error: " ++ exn_message e)%string)).

(** Body of the [async for] of [search_bookings_by_date]. *)
Definition keep (results : list json) (booking : json) : res (list json) :=
  let* customer := format_customer booking in
  let* item := summary booking customer in
  Ret (results ++ [item])%list.

(** The two [strptime] calls inside the [try] of [search_bookings_by_date];
    only a [ValueError] is caught there.  The day added to the end date is
    [add_days]: the sum where [plus_days] has one, which is every end date
    but 9999-12-31. *)
Definition parse_window (start_date end_date : string) : res (datetime * datetime) :=
  let* start_time := strptime_ymd start_date in
  let* end_day := strptime_ymd end_date in
  Ret (start_time, add_days end_day 1).

Definition search_bookings_by_date (fuel : nat) (start_date end_date : string)
    (include_canceled : bool) : M json :=
  match parse_window start_date end_date with
  | Raise (ValueError _) =>
      ret (JList [error_payload "Invalid date format. Use YYYY-MM-DD"])
  | Raise e => lift (Raise e)
  | OutOfFuel => lift OutOfFuel
  | Ret (start_time, end_time) =>
      if 366 <? days_between end_time start_time then
        ret (JList [error_payload "Date range cannot exceed 365 days"])
      else
        client <- get_client ;;
        results <- BookeoClient.search_bookings W keep client true include_canceled
                     fuel start_time end_time [] ;;
        ret (JList results)
  end.

(** [sum(float(p["amount"].get("amount", 0) or 0) for p in analyzed)]. *)
Fixpoint sum_amounts (ps : list payment_info) (acc : json) : res json :=
  match ps with
  | [] => Ret acc
  | p :: r =>
      let* a := get (amount p) "amount" (JInt 0) in
      let* f := to_float (if truthy a then a else JInt 0) in
      let* acc' := add acc (JFloat f) in
      sum_amounts r acc'
  end.

(** [any("stripe" in p["gateway"].lower() for p in analyzed if p["gateway"])]:
    [any] stops at the first hit. *)
Fixpoint any_stripe (ps : list payment_info) : res bool :=
  match ps with
  | [] => Ret false
  | p :: r =>
      if truthy (gateway p) then
        let* g := lower_of (gateway p) in
        if contains "stripe" g then Ret true else any_stripe r
      else any_stripe r
  end.

Fixpoint analyze_all (payments : list json) : res (list payment_info) :=
  match payments with
  | [] => Ret []
  | p :: r =>
      let* a := analyze_payment p in
      let* rest := analyze_all r in
      Ret (a :: rest)
  end.

Definition currency_of (analyzed : list payment_info) : res json :=
  match analyzed with
  | p :: _ => get (amount p) "currency" (JStr "CAD")
  | [] => Ret (JStr "CAD")
  end.

(** The body of the [try] of [get_booking_payments], after the fetch. *)
Definition payment_report (booking_number : string) (payments : json) : res json :=
  let* items := iter payments in
  let* analyzed := analyze_all items in
  let* total_paid := sum_amounts analyzed (JInt 0) in
  let has_manual := existsb is_manual analyzed in
  let* has_stripe := any_stripe analyzed in
  let* payment_methods := set_list (map method analyzed) [] in
  let* currency := currency_of analyzed in
  Ret (JDict [("booking_number", JStr booking_number);
              ("payment_count", JInt (Z.of_nat (List.length items)));
              ("total_paid", total_paid);
              ("currency", currency);
              ("has_manual_payment", JBool has_manual);
              ("has_stripe_payment", JBool has_stripe);
              ("payment_methods", JList payment_methods);
              ("payments", JList (map payment_json analyzed))]).

Definition get_booking_payments (fuel : nat) (booking_number : string) : M json :=
  client <- get_client ;;
  try_except
    (payments <- BookeoClient.get_booking_payments W fuel client booking_number ;;
     lift (payment_report booking_number payments))
    (fun e => ret (error_payload ("Could not fetch payments: " ++ exn_message e)%string)).

End Tools.
End Server.

(** ** Vocabulary of the statements *)

Module Props.
Import Py DateTime Net.

(** A window around which the chunk loop can add its 30 days: the start is
    a [datetime] and 30 days after the end is still one. *)
Definition roomy (start_time end_time : datetime) : Prop :=
  in_calendar start_time /\ in_calendar (add_days end_time 30).

(** [t] lies in the half-open interval [c]. *)
Definition within (c : datetime * datetime) (t : datetime) : Prop :=
  le (fst c) t /\ lt t (snd c).

(** [tiles a b l]: the intervals of [l] follow one another from [a] to [b],
    each starts where the one before ends, none is empty and none is longer
    than 30 days. *)
Inductive tiles : datetime -> datetime -> list (datetime * datetime) -> Prop :=
| tiles_last a b : lt a b -> le b (add_days a 30) -> tiles a b [(a, b)]
| tiles_step a m b l :
    lt a m -> le m (add_days a 30) -> tiles m b l -> tiles a b ((a, m) :: l).

(** The events of a request that is turned away with status 429 once for
    each delay of [waits]: the request, the pause, and so on. *)
Definition rounds (q : request) (waits : list Z) : list event :=
  flat_map (fun d => [Get q; Sleep (JInt d)]) waits.

(** A response that asks the client to come back after [d] seconds: status
    429 and a [Retry-After] header that is the integer [d], or no such
    header and [d = 60]. *)
Definition turned_away (r : response) (d : Z) : Prop :=
  status_code r = 429 /\
  ((BookeoClient.header "Retry-After" (headers r) = None /\ d = 60) \/
   (exists v, BookeoClient.header "Retry-After" (headers r) = Some v /\
              int_of_str v = Some d)).

Definition with_trace (s : state) (t : list event) : state :=
  {| trace := t; the_client := the_client s |}.

(** The consumer that keeps every booking the generator yields, in order. *)
Definition collect (acc : list json) (booking : json) : res (list json) :=
  Ret (acc ++ [booking])%list.

(** The bookings of a result page, and its paging block. *)
Definition records_of (doc : json) : res (list json) :=
  Py.bind (get doc "data" (JList [])) iter.

Definition paging_of (doc : json) : res json :=
  Py.bind (get doc "info" (JDict [])) (fun info => get info "paging" (JDict [])).




(** The document carries no next-page indicator, or an empty one. *)
Definition ends_listing (d : json) : Prop :=
  exists paging next,
    paging_of d = Ret paging /\
    get paging "nextPageURL" JNull = Ret next /\ truthy next = false.

(** The request for the first page of a window, and the request that
    follows a page, as they go out. *)
Definition first_request (self : BookeoClient) (expand_customer include_canceled : bool)
    (start_utc end_utc : datetime) : request :=
  {| url := "https://api.bookeo.com/v2/bookings";
     params :=
       [ ("startTime", JStr (strftime_iso_z start_utc));
         ("endTime", JStr (strftime_iso_z end_utc));
         ("itemsPerPage", JInt 100);
         ("expandCustomer", JStr (if expand_customer then "true" else "false"));
         ("includeCanceled", JStr (if include_canceled then "true" else "false"));
         ("apiKey", JStr (api_key self));
         ("secretKey", JStr (api_secret self)) ] |}.



(** The window a request names in its [startTime] and [endTime]. *)
Definition carries (start_text end_text : string) (e : event) : Prop :=
  match e with
  | Get q =>
      assoc "startTime" (params q) = Some (JStr start_text) /\
      assoc "endTime" (params q) = Some (JStr end_text)
  | Sleep _ => True
  end.

(** Whatever the state, [m] only adds events to the trace, and each one it
    adds satisfies [Q]. *)
Definition appends {A} (Q : event -> Prop) (m : M A) : Prop :=
  forall s, exists t, trace (snd (m s)) = (trace s ++ t)%list /\ Forall Q t.

(** What a payment record says, for a record whose fields have the types
    the service gives them: the gateway name ([""] when there is none), the
    amount as [float()] reads it, the currency, the payment method. *)
Record payment_facts : Type := {
  gateway_name : string;
  paid : float;
  currency_code : string;
  method_name : string
}.

Definition describes `{Runtime} (p : json) (f : payment_facts) : Prop :=
  get p "gatewayName" (JStr "") = Ret (JStr (gateway_name f)) /\
  get p "paymentMethod" (JStr "unknown") = Ret (JStr (method_name f)) /\
  exists amount_doc a,
    get p "amount" (JDict []) = Ret amount_doc /\
    get amount_doc "amount" (JInt 0) = Ret a /\
    to_float (if truthy a then a else JInt 0) = Ret (paid f) /\
    get amount_doc "currency" (JStr "CAD") = Ret (JStr (currency_code f)).

(** What [analyze_payment] makes of such a record: the gateway is the name
    or ["manual"], and the payment is manual exactly when the name is
    empty. *)
Definition analysis_of `{Runtime} (a : Server.payment_info) (f : payment_facts)
  : Prop :=
  Server.gateway a
  = JStr (if is_empty (gateway_name f) then "manual" else gateway_name f)
  /\ Server.is_manual a = is_empty (gateway_name f)
  /\ Server.method a = JStr (method_name f)
  /\ (exists v, get (Server.amount a) "amount" (JInt 0) = Ret v
                /\ to_float (if truthy v then v else JInt 0) = Ret (paid f))
  /\ get (Server.amount a) "currency" (JStr "CAD") = Ret (JStr (currency_code f)).

(** The sum of binary64 numbers as [sum] forms it, from left to right. *)
Definition float_sum (xs : list float) : float :=
  fold_left PrimFloat.add xs 0%float.

End Props.

(** ** Concrete worlds and documents, for the instances of the theorems *)

Module Examples.
Import Py DateTime Net Props.

(** An interpreter for the examples.  Its three functions matter only where
    a value that is not a text is interpolated, where an amount is a text,
    and where an exception is turned into a message. *)
Definition runtime : Runtime :=
  {| py_repr := fun _ => "";
     float_of_str := fun _ => None;
     exn_message := fun _ => "request failed" |}.

(** A text given by its bytes. *)
Definition bytes (codes : list Z) : string :=
  string_of_list_ascii (map (fun z => ascii_of_nat (Z.to_nat z)) codes).

Definition credentials (k : string) : option string :=
  if String.eqb k "API_KEY" then Some "key"
  else if String.eqb k "API_SECRET" then Some "secret"
  else None.

Definition noon : datetime := replace_hms (midnight 2025 1 15) 12 0 0.

(** A world around a given service. *)
Definition world_of (service : list event -> request -> wire) : world :=
  {| net := service; environ := credentials; now := noon;
     local_zone := Los_Angeles |}.

Definition fresh : state := {| trace := []; the_client := None |}.

Definition client : BookeoClient := {| api_key := "key"; api_secret := "secret" |}.

Definition ready : state := {| trace := []; the_client := Some client |}.

Definition ok (d : json) : wire :=
  Answer {| status_code := 200; headers := []; body := Some d |}.

Definition failure (status : Z) : response :=
  {| status_code := status; headers := []; body := None |}.

(** A service with no booking at all. *)
Definition quiet : world := world_of (fun _ _ => ok (JDict [("data", JList [])])).

(** A service that is down. *)
Definition down : world := world_of (fun _ _ => Answer (failure 500)).


(** Three pages of bookings. *)
Definition booking (number : string) : json := JDict [("bookingNumber", JStr number)].




Definition page3 : json := JDict [("data", JList [booking "4"]); ("info", JDict [])].


(** Two payments: cash taken by hand, and a card payment through Stripe. *)
Definition cash : json :=
  JDict [("amount", JDict [("amount", JFloat 25.5%float); ("currency", JStr "CAD")]);
         ("paymentMethod", JStr "cash")].

Definition card : json :=
  JDict [("amount", JDict [("amount", JInt 10); ("currency", JStr "CAD")]);
         ("paymentMethod", JStr "creditCard");
         ("gatewayName", JStr "Stripe")].

Definition cash_facts : payment_facts :=
  {| gateway_name := ""; paid := 25.5%float; currency_code := "CAD";
     method_name := "cash" |}.

Definition card_facts : payment_facts :=
  {| gateway_name := "Stripe"; paid := 10%float; currency_code := "CAD";
     method_name := "creditCard" |}.

Definition paying : world :=
  world_of (fun _ _ => ok (JDict [("data", JList [cash; card])])).

(** A booking by a customer with no first name. *)
Definition smith : json :=
  JDict [("firstName", JStr ""); ("lastName", JStr "Smith ");
         ("phoneNumbers", JList [JDict [("number", JStr "6045550123")]])].

Definition family : json :=
  JDict [("numbers", JList [JDict [("peopleCategoryId", JStr "Cadults");
                                   ("number", JInt 2)];
                            JDict [("peopleCategoryId", JStr "Cchildren");
                                   ("number", JInt 3)]])].

Definition smith_booking : json :=
  JDict [("bookingNumber", JStr "42"); ("customer", smith);
         ("participants", family)].

End Examples.

(** ** The connection handle of the client *)

Module Connection.

(** [BookeoClient._client]: the [httpx.AsyncClient] the client keeps, or
    [None].  Connections are told apart by the order in which they were
    created; [released] lists those on which [aclose()] has been awaited. *)
Record handle_state : Type := {
  held : option nat;
  created : nat;
  released : list nat
}.

(** The state [__init__] leaves. *)
Definition initial : handle_state :=
  {| held := None; created := O; released := [] |}.

(** [_get_client()]: the connection held, a new one (created with a
    time-out of 30 seconds, which plays no part here) when there is none. *)
Definition _get_client (st : handle_state) : nat * handle_state :=
  match held st with
  | Some h => (h, st)
  | None =>
      (created st,
       {| held := Some (created st); created := S (created st);
          released := released st |})
  end.

(** [close()]. *)
Definition close (st : handle_state) : handle_state :=
  match held st with
  | Some h => {| held := None; created := created st; released := h :: released st |}
  | None => st
  end.

(** What a caller can do with the client as far as the connection goes:
    any method that sends ([_request] starts with [_get_client()]), or
    [close()]. *)
Inductive call : Type := Send | Close.

Definition step (st : handle_state) (c : call) : handle_state :=
  match c with
  | Send => snd (_get_client st)
  | Close => close st
  end.

Definition run (calls : list call) : handle_state := fold_left step calls initial.

(** What holds of the handle at any time: the connection held was created
    and not released, released connections were created, none was released
    twice, and every connection created is released or held. *)
Definition sound (st : handle_state) : Prop :=
  (forall h, held st = Some h -> (h < created st)%nat /\ ~ In h (released st))
  /\ (forall h, In h (released st) -> (h < created st)%nat)
  /\ NoDup (released st)
  /\ created st
     = (List.length (released st) + match held st with Some _ => 1 | None => 0 end)%nat.

End Connection.

(** ** More vocabulary *)

Module Facts.
Import Py DateTime Net Props.

(** What [_request] is asked to send, before the credentials are added. *)
Definition given (params : option (list (string * json))) : list (string * json) :=
  match params with Some p => p | None => [] end.

(** A request of [self] to [endpoint] that carries the credentials of
    [self] and otherwise the parameters the caller gave. *)
Definition signed (self : BookeoClient) (endpoint : string)
    (params : option (list (string * json))) (e : event) : Prop :=
  match e with
  | Get q =>
      url q = (BookeoClient.BASE_URL ++ endpoint)%string
      /\ assoc "apiKey" (Net.params q) = Some (JStr (api_key self))
      /\ assoc "secretKey" (Net.params q) = Some (JStr (api_secret self))
      /\ forall k, k <> "apiKey" -> k <> "secretKey" ->
                   assoc k (Net.params q) = assoc k (given params)
  | Sleep _ => True
  end.


(** A service whose answers do not depend on what happened before. *)
Definition stateless (W : world) : Prop :=
  forall t t' q, net W t q = net W t' q.

(** The events of a chunk whose only page is its first: the request, then
    the courtesy pause. *)
Definition chunk_events (W : world) (self : BookeoClient)
    (expand_customer include_canceled : bool) (c : datetime * datetime)
  : list event :=
  [Get (first_request self expand_customer include_canceled
          (BookeoClient.window_start W (fst c)) (BookeoClient.window_end W (snd c)));
   Sleep (JFloat 0.5%float)].

(** A page that announces a next page and returns no cursor token. *)
Definition announces_without_token (d : json) : Prop :=
  exists paging next tok current number,
    paging_of d = Ret paging /\
    get paging "nextPageURL" JNull = Ret next /\ truthy next = true /\
    get paging "pageNavigationToken" JNull = Ret tok /\ truthy tok = false /\
    get paging "currentPage" (JInt 1) = Ret current /\
    add current (JInt 1) = Ret number.

(** The fixed parameters of a search request. *)
Definition search_flags (expand_customer include_canceled : bool) (e : event) : Prop :=
  match e with
  | Get q =>
      url q = "https://api.bookeo.com/v2/bookings"
      /\ assoc "itemsPerPage" (Net.params q) = Some (JInt 100)
      /\ assoc "expandCustomer" (Net.params q)
         = Some (JStr (if expand_customer then "true" else "false"))
      /\ assoc "includeCanceled" (Net.params q)
         = Some (JStr (if include_canceled then "true" else "false"))
  | Sleep _ => True
  end.

(** The report on a booking without payments. *)
Definition empty_report (booking_number : string) : json :=
  JDict [("booking_number", JStr booking_number);
         ("payment_count", JInt 0);
         ("total_paid", JInt 0);
         ("currency", JStr "CAD");
         ("has_manual_payment", JBool false);
         ("has_stripe_payment", JBool false);
         ("payment_methods", JList []);
         ("payments", JList [])].

(** Whatever the state, a value that [m] returns satisfies [P]. *)
Definition returns_only {A} (P : A -> Prop) (m : M A) : Prop :=
  forall s a, fst (m s) = Ret a -> P a.

(** The summary of a booking, as the two searches list it. *)
Definition is_summary (j : json) : Prop :=
  exists number start product customer participants price,
    j = JDict [("booking_number", number); ("start_time", start);
               ("product_name", product);
               ("customer", Server.customer_json customer);
               ("participants", participants); ("price", price)].

(** What the customer search reads of a booking: the projected customer,
    the text of the email address, and the summary it would list. *)
Record match_view : Type := {
  customer_of : Server.customer_info;
  mail_of : string;
  item_of : json
}.

(** [fragment and fragment in text.lower()], for the name or the email. *)
Definition fragment_in (fragment text : string) : bool :=
  negb (is_empty fragment) && contains fragment (lower text).

Definition is_match (name_lower email_lower : string) (v : match_view) : bool :=
  fragment_in name_lower (Server.name (customer_of v))
  || fragment_in email_lower (mail_of v).

End Facts.

(** ** More services and bookings for the examples *)

Module Cases.
Import Py DateTime Net Props Examples Facts.

(** A process started without credentials in its environment. *)
Definition unconfigured : world :=
  {| net := fun _ _ => ok (JDict []); environ := fun _ => None; now := noon;
     local_zone := Los_Angeles |}.


(** A transport that cannot connect, and a service that answers 200 with a
    body that is not JSON. *)
Definition unreachable : world :=
  world_of (fun _ _ => Broken (TransportError "connection refused")).

Definition garbled : world :=
  world_of (fun _ _ => Answer {| status_code := 200; headers := []; body := None |}).

(** A service that lists one booking, on a single page, whatever it is
    asked. *)
Definition single : json := JDict [("data", JList [booking "7"])].

Definition steady : world := world_of (fun _ _ => ok single).

(** A booking whose customer is [null], alone and on a page. *)
Definition orphan : json := JDict [("bookingNumber", JStr "13"); ("customer", JNull)].

Definition orphaned : world := world_of (fun _ _ => ok orphan).


(** A page that announces a next page and returns no cursor token; a
    service that answers with it twice and then with a last page. *)
Definition stuck : json :=
  JDict [("data", JList [booking "1"]);
         ("info", JDict [("paging", JDict [("nextPageURL", JStr "/bookings?page=2");
                                           ("currentPage", JInt 1)])])].

Definition looping : world :=
  world_of (fun t _ =>
    match List.length (gets t) with
    | O | S O => ok stuck
    | _ => ok page3
    end).


(** Two bookings with a customer, and what the customer search reads of
    them. *)
Definition booked (number first last mail : string) : json :=
  JDict [("bookingNumber", JStr number);
         ("customer", JDict [("firstName", JStr first); ("lastName", JStr last);
                             ("emailAddress", JStr mail)])].

Definition listed (number first_last mail : string) : match_view :=
  {| customer_of := {| Server.name := first_last; Server.email := JStr mail;
                       Server.phone := JStr "" |};
     mail_of := mail;
     item_of :=
       JDict [("booking_number", JStr number); ("start_time", JNull);
              ("product_name", JNull);
              ("customer", JDict [("name", JStr first_last); ("email", JStr mail);
                                  ("phone", JStr "")]);
              ("participants", JInt 0);
              ("price", JDict [("total_gross", JDict []); ("total_paid", JDict []);
                               ("balance_due", JDict [])])] |}.

End Cases.

(** * Properties *)

Import Py DateTime Net Props.
Open Scope list_scope.

(** ** The model on concrete inputs *)

Example ordinal_of_dec27 : ymd2ord 2024 12 27 = 739247.
Proof. reflexivity. Qed.

Example ymd_of_leap_day : ord2ymd (ymd2ord 2024 2 29) = (2024, 2, 29).
Proof. reflexivity. Qed.

Example ymd_of_last_day : ord2ymd 3652059 = (9999, 12, 31).
Proof. reflexivity. Qed.

Example strptime_plain : strptime_ymd "2024-12-27" = Ret (midnight 2024 12 27).
Proof. reflexivity. Qed.

Example strptime_short_fields : strptime_ymd "2024-1-5" = Ret (midnight 2024 1 5).
Proof. reflexivity. Qed.

Example strptime_no_such_day :
  strptime_ymd "2023-02-29" = Raise (ValueError "day is out of range for month").
Proof. reflexivity. Qed.

Example strptime_trailing_text :
  strptime_ymd "2024-12-277" = Raise (ValueError "unconverted data remains").
Proof. reflexivity. Qed.

Example strptime_month_13 :
  strptime_ymd "2024-13-01" = Raise (ValueError "does not match format").
Proof. reflexivity. Qed.

Example winter_midnight_in_utc :
  strftime_iso_z (astimezone_utc Los_Angeles (midnight 2024 12 27))
  = "2024-12-27T08:00:00Z".
Proof. reflexivity. Qed.

Example summer_midnight_in_utc :
  strftime_iso_z (astimezone_utc Los_Angeles (midnight 2030 7 1))
  = "2030-07-01T07:00:00Z".
Proof. reflexivity. Qed.

Example spring_forward_day :
  strftime_iso_z (astimezone_utc Los_Angeles (midnight 2024 3 10))
  = "2024-03-10T08:00:00Z"
  /\ strftime_iso_z (astimezone_utc Los_Angeles
                       (replace_hms (midnight 2024 3 10) 23 59 59))
     = "2024-03-11T06:59:59Z".
Proof. split; reflexivity. Qed.

Example fall_back_day :
  strftime_iso_z (astimezone_utc Los_Angeles (midnight 2024 11 3))
  = "2024-11-03T07:00:00Z"
  /\ strftime_iso_z (astimezone_utc Los_Angeles
                       (replace_hms (midnight 2024 11 3) 23 59 59))
     = "2024-11-04T07:59:59Z".
Proof. split; reflexivity. Qed.

Example days_are_floored :
  days_between (midnight 2024 12 27) (replace_hms (midnight 2024 12 28) 12 0 0) = -2.
Proof. reflexivity. Qed.

Example int_of_padded_text : int_of_str " 12_0 " = Some 120.
Proof. reflexivity. Qed.

Example int_of_bad_text : int_of_str "1__2" = None /\ int_of_str "1.5" = None.
Proof. split; reflexivity. Qed.

Example strip_keeps_inner_space : strip "  Ann  Lee " = "Ann  Lee".
Proof. reflexivity. Qed.

Example strip_drops_wide_spaces :
  strip (Examples.bytes [226; 128; 131] ++ "Smith"
         ++ Examples.bytes [194; 160; 32; 227; 128; 128])%string = "Smith".
Proof. reflexivity. Qed.

Example strip_keeps_other_characters :
  strip (Examples.bytes [195; 137] ++ "mile" ++ Examples.bytes [226; 128; 160])%string
  = (Examples.bytes [195; 137] ++ "mile" ++ Examples.bytes [226; 128; 160])%string.
Proof. reflexivity. Qed.

Example sums_at_the_end_of_the_calendar :
  plus_days (midnight 9999 12 30) 1 = Ret (midnight 9999 12 31)
  /\ plus_days (midnight 9999 12 31) 1 = Raise OverflowError
  /\ plus_days (midnight 9999 12 15) 30 = Raise OverflowError
  /\ plus_days Examples.noon 2912793
     = Ret (replace_hms (midnight 9999 12 31) 12 0 0)
  /\ plus_days Examples.noon 2912794 = Raise OverflowError
  /\ plus_days Examples.noon 1000000000 = Raise OverflowError.
Proof. repeat split; reflexivity. Qed.

Example stripe_is_found : contains "stripe" (lower "My STRIPE gateway") = true.
Proof. reflexivity. Qed.

Example header_ignores_case :
  BookeoClient.header "Retry-After" [("content-type", "text/plain"); ("retry-after", "7")]
  = Some "7".
Proof. reflexivity. Qed.

Example chunks_of_74_days :
  BookeoClient.chunks (midnight 2024 1 1) (midnight 2024 3 15)
  = [(midnight 2024 1 1, midnight 2024 1 31);
     (midnight 2024 1 31, midnight 2024 3 1);
     (midnight 2024 3 1, midnight 2024 3 15)].
Proof. reflexivity. Qed.

Example set_keeps_first_of_equal_numbers :
  Server.set_list [JInt 1; JBool true; JFloat 1%float; JStr "1"; JNull] []
  = Ret [JInt 1; JStr "1"; JNull].
Proof. reflexivity. Qed.

Example float_sum_rounds :
  float_sum [0x1.999999999999ap-4%float; 0x1.999999999999ap-3%float]
  = 0x1.3333333333334p-2%float.
Proof. reflexivity. Qed.

(** ** The order on [datetime] *)

Lemma ltb_true_iff a b :
  ltb a b = true <->
  (ordinal a < ordinal b \/ ordinal a = ordinal b /\
   (hour a < hour b \/ hour a = hour b /\
    (minute a < minute b \/ minute a = minute b /\
     (second a < second b \/ second a = second b /\
      microsecond a < microsecond b)))).
Proof.
  unfold ltb, time_key; simpl.
  rewrite andb_false_r, orb_false_r.
  repeat (rewrite orb_true_iff || rewrite andb_true_iff);
    rewrite !Z.ltb_lt, !Z.eqb_eq.
  tauto.
Qed.

Lemma ltb_false_iff a b : ltb a b = false <-> ~ lt a b.
Proof. unfold lt. destruct (ltb a b); split; congruence. Qed.

Lemma datetime_eq a b :
  ordinal a = ordinal b -> hour a = hour b -> minute a = minute b ->
  second a = second b -> microsecond a = microsecond b -> a = b.
Proof. destruct a, b; simpl; intros; subst; reflexivity. Qed.

(** Turns every comparison in sight into linear arithmetic on the fields. *)
Ltac order_prep :=
  unfold le, lt in *;
  repeat match goal with
         | H : ltb _ _ = false |- _ => apply ltb_false_iff in H; unfold lt in H
         | |- ltb _ _ = false => apply ltb_false_iff; unfold lt
         end;
  repeat match goal with
         | H : context [ltb _ _ = true] |- _ => rewrite ltb_true_iff in H
         | |- context [ltb _ _ = true] => rewrite ltb_true_iff
         end;
  simpl in *.

Lemma lt_irrefl a : ~ lt a a.
Proof. order_prep. lia. Qed.

Lemma lt_trans a b c : lt a b -> lt b c -> lt a c.
Proof. intros; order_prep. lia. Qed.

Lemma lt_le_trans a b c : lt a b -> le b c -> lt a c.
Proof. intros; order_prep. lia. Qed.

Lemma le_refl a : le a a.
Proof. order_prep. lia. Qed.

Lemma le_antisym a b : le a b -> le b a -> a = b.
Proof. intros; order_prep. apply datetime_eq; lia. Qed.

Lemma lt_le a b : lt a b -> le a b.
Proof. intros; order_prep. lia. Qed.

Lemma lt_ordinal a b : lt a b -> ordinal a <= ordinal b.
Proof. intros; order_prep. lia. Qed.

Lemma lt_or_le a b : lt a b \/ le b a.
Proof. unfold lt, le. destruct (ltb a b); auto. Qed.

Lemma lt_add_days a k : 0 < k -> lt a (add_days a k).
Proof. intros; order_prep. lia. Qed.

Lemma min_cases a b :
  (lt b a /\ DateTime.min a b = b) \/ (le a b /\ DateTime.min a b = a).
Proof. unfold DateTime.min, lt, le. destruct (ltb b a); auto. Qed.

(** ** The chunks of a window *)

Section Chunking.
Import BookeoClient.

Lemma chunks_from_same n a : chunks_from n a a = [].
Proof.
  destruct n; simpl; [reflexivity|].
  destruct (ltb a a) eqn:E; [|reflexivity].
  exfalso; exact (lt_irrefl a E).
Qed.

Lemma chunks_from_tiles n : forall cs e,
  lt cs e -> ordinal e - ordinal cs + 2 <= Z.of_nat n ->
  tiles cs e (chunks_from n cs e).
Proof.
  induction n as [|n IH]; intros cs e Hlt Hn.
  - apply lt_ordinal in Hlt. lia.
  - simpl. rewrite Hlt.
    destruct (min_cases (add_days cs 30) e) as [[Hm ->]|[Hm ->]].
    + rewrite chunks_from_same. apply tiles_last; [assumption|].
      apply lt_le; assumption.
    + destruct (lt_or_le (add_days cs 30) e) as [Hlt'|Hle'].
      * apply tiles_step.
        -- apply lt_add_days; lia.
        -- apply le_refl.
        -- apply IH; [assumption|]. simpl. lia.
      * assert (add_days cs 30 = e) as -> by (apply le_antisym; assumption).
        rewrite chunks_from_same. apply tiles_last; assumption.
Qed.

Lemma tiles_lt a b l : tiles a b l -> lt a b.
Proof.
  induction 1; [assumption|]. eapply lt_trans; eassumption.
Qed.

Lemma tiles_cover a b l : tiles a b l ->
  forall t, (le a t /\ lt t b) <-> exists c, In c l /\ within c t.
Proof.
  induction 1 as [a b Hab Hlen | a m b l Ham Hlen Ht IH]; intros t.
  - split.
    + intros [H1 H2]. exists (a, b). split; [left; reflexivity|split; assumption].
    + intros [c [[<-|[]] [H1 H2]]]. split; assumption.
  - split.
    + intros [H1 H2]. destruct (lt_or_le t m) as [Htm|Hmt].
      * exists (a, m). split; [left; reflexivity|split; assumption].
      * destruct (proj1 (IH t) (conj Hmt H2)) as [c [Hin Hc]].
        exists c. split; [right; assumption|assumption].
    + intros [c [[<-|Hin] [H1 H2]]]; simpl in *.
      * split; [assumption|]. eapply lt_trans; [eassumption|].
        eapply tiles_lt; eassumption.
      * destruct (proj2 (IH t) (ex_intro _ c (conj Hin (conj H1 H2)))) as [H3 H4].
        split; [|assumption]. apply lt_le. eapply lt_le_trans; eassumption.
Qed.

Lemma tiles_head a b l : tiles a b l -> exists m r, l = (a, m) :: r.
Proof. destruct 1; eauto. Qed.

Lemma tiles_contiguous a b l : tiles a b l ->
  forall i c d, nth_error l i = Some c -> nth_error l (S i) = Some d ->
  snd c = fst d.
Proof.
  induction 1 as [a b Hab Hlen | a m b l Ham Hlen Ht IH]; intros i c d Hc Hd.
  - destruct i; simpl in Hd; discriminate.
  - destruct i as [|i].
    + simpl in Hc, Hd. injection Hc as <-.
      destruct (tiles_head _ _ _ Ht) as [m' [r ->]].
      simpl in Hd. injection Hd as <-. reflexivity.
    + simpl in Hc. apply (IH i c d Hc Hd).
Qed.

Lemma tiles_disjoint a b l : tiles a b l ->
  forall i j c d t, nth_error l i = Some c -> nth_error l j = Some d ->
  within c t -> within d t -> i = j.
Proof.
  induction 1 as [a b Hab Hlen | a m b l Ham Hlen Ht IH]; intros i j c d t Hc Hd Wc Wd.
  - destruct i as [|[|i]], j as [|[|j]]; simpl in *; try discriminate; reflexivity.
  - assert (Hlow : forall k e, nth_error l k = Some e -> within e t -> le m t).
    { intros k e He We. apply nth_error_In in He.
      apply (proj2 (tiles_cover _ _ _ Ht t)). exists e; split; assumption. }
    destruct i as [|i], j as [|j]; simpl in Hc, Hd.
    + reflexivity.
    + injection Hc as <-. destruct Wc as [_ Wc]; simpl in Wc.
      pose proof (Hlow j d Hd Wd) as Hmt. exfalso.
      exact (lt_irrefl t (lt_le_trans _ _ _ Wc Hmt)).
    + injection Hd as <-. destruct Wd as [_ Wd]; simpl in Wd.
      pose proof (Hlow i c Hc Wc) as Hmt. exfalso.
      exact (lt_irrefl t (lt_le_trans _ _ _ Wd Hmt)).
    + f_equal. eapply IH; eassumption.
Qed.

Lemma tiles_lengths a b l : tiles a b l ->
  Forall (fun c => lt (fst c) (snd c) /\ le (snd c) (add_days (fst c) 30)) l.
Proof.
  induction 1; constructor; simpl; auto.
Qed.

Lemma turns_for_enough a b : ordinal b - ordinal a + 2 <= Z.of_nat (turns_for a b).
Proof. unfold turns_for. lia. Qed.

Lemma chunks_from_S n cs e :
  chunks_from (S n) cs e
  = if ltb cs e
    then (cs, DateTime.min (add_days cs 30) e)
           :: chunks_from n (DateTime.min (add_days cs 30) e) e
    else [].
Proof. reflexivity. Qed.

Lemma chunks_thirty_days a : chunks a (add_days a 30) = [(a, add_days a 30)].
Proof.
  unfold chunks.
  destruct (turns_for a (add_days a 30)) as [|n] eqn:E;
    [unfold turns_for in E; lia|].
  rewrite chunks_from_S.
  assert (H : ltb a (add_days a 30) = true) by (apply lt_add_days; lia).
  assert (H' : ltb (add_days a 30) (add_days a 30) = false) by apply le_refl.
  rewrite H. unfold DateTime.min. rewrite H'.
  rewrite chunks_from_same. reflexivity.
Qed.

Lemma bindM_ext {X Y} (m : M X) (k1 k2 : X -> M Y) s :
  (forall a s', k1 a s' = k2 a s') -> bindM m k1 s = bindM m k2 s.
Proof.
  intros E. unfold bindM. destruct (m s) as [[a| |] s']; auto.
Qed.

(** The outer loop does, chunk after chunk, what its body does. *)
Lemma chunk_loop_over_chunks (W : world) {A} (body : A -> json -> res A) self ec ic
    fuel n : forall cs e acc s,
  (1 <= n)%nat ->
  (le e cs \/ ordinal e - ordinal cs + 2 <= Z.of_nat n) ->
  chunk_loop W body self ec ic n fuel cs e acc s
  = over_chunks W body self ec ic fuel (chunks_from n cs e) acc s.
Proof.
  induction n as [|n IH]; intros cs e acc s Hn Hb; [lia|].
  simpl. destruct (ltb cs e) eqn:Hlt; [|reflexivity].
  assert (Hord : ordinal cs <= ordinal e) by (apply lt_ordinal; exact Hlt).
  destruct Hb as [Hb|Hb]; [unfold le in Hb; congruence|].
  cbn [over_chunks]. apply bindM_ext. intros acc' s'.
  destruct (min_cases (add_days cs 30) e) as [[Hm ->]|[Hm ->]].
  - apply IH; [lia|]. left; apply le_refl.
  - apply IH; [lia|].
    destruct (lt_or_le (add_days cs 30) e) as [Hlt'|Hle']; [right|left; assumption].
    simpl; lia.
Qed.

Lemma le_ordinal a b : le a b -> ordinal a <= ordinal b.
Proof. intros; order_prep. lia. Qed.

(** A sum that stays in the calendar is the sum Python computes, and a sum
    Python computes stays in the calendar. *)
Lemma plus_days_fits d n :
  Z.abs n <= MAX_DELTA_DAYS -> in_calendar (add_days d n) ->
  plus_days d n = Ret (add_days d n).
Proof.
  unfold plus_days, in_calendar. cbn [ordinal add_days]. intros Hn [Hlo Hhi].
  apply Z.leb_le in Hn, Hlo, Hhi. rewrite Hn, Hlo, Hhi. reflexivity.
Qed.

Lemma plus_days_ret d n t :
  plus_days d n = Ret t -> t = add_days d n /\ in_calendar t.
Proof.
  unfold plus_days, in_calendar.
  destruct (Z.abs n <=? MAX_DELTA_DAYS); [|discriminate].
  destruct (1 <=? ordinal d + n) eqn:Hlo; [|discriminate].
  destruct (ordinal d + n <=? MAXORDINAL) eqn:Hhi; [|discriminate].
  cbn [andb]. intros E. injection E as <-.
  apply Z.leb_le in Hlo, Hhi. cbn [ordinal add_days]. auto.
Qed.

(** In a roomy window every [current_start + timedelta(days=30)] of the
    loop is a [datetime]. *)
Lemma tiles_sums a b l :
  tiles a b l -> roomy a b ->
  Forall (fun c => plus_days (fst c) 30 = Ret (add_days (fst c) 30)) l.
Proof.
  intros T [Ha Hb]. apply Forall_forall. intros c Hin.
  pose proof (tiles_lengths _ _ _ T) as Hlen.
  rewrite Forall_forall in Hlen. destruct (Hlen c Hin) as [Hne _].
  assert (Hw : le a (fst c) /\ lt (fst c) b).
  { apply (tiles_cover _ _ _ T). exists c.
    split; [assumption|]. split; [apply le_refl|assumption]. }
  destruct Hw as [H1 H2]. apply le_ordinal in H1. apply lt_ordinal in H2.
  apply plus_days_fits; [vm_compute; discriminate|].
  unfold in_calendar in *. cbn [ordinal add_days] in *. lia.
Qed.

(** C2: for every window with [start_time < end_time] around which the
    loop can add its 30 days ([roomy]: the start is a [datetime] and 30 days
    after the end is still one), [search_bookings] runs the body of its
    outer loop on the chunks [chunks start_time end_time], one after the
    other; every instant of the window lies in a chunk and every instant of
    a chunk lies in the window; each chunk starts where the one before
    ends; no instant lies in two chunks; no chunk is empty or longer than
    30 days; a window of exactly 30 days is a single chunk; and every
    [current_start + timedelta(days=30)] the loop computes is a [datetime],
    so that no turn raises [OverflowError]. *)
Theorem chunks_partition_window (start_time end_time : datetime)
    (Hwindow : lt start_time end_time) (Hroom : roomy start_time end_time) :
  let cs := chunks start_time end_time in
  (forall (W : world) (A : Type) (body : A -> json -> res A) self ec ic fuel acc s,
      search_bookings W body self ec ic fuel start_time end_time acc s
      = over_chunks W body self ec ic fuel cs acc s)
  /\ (forall t, le start_time t /\ lt t end_time <-> exists c, In c cs /\ within c t)
  /\ (forall i c d, nth_error cs i = Some c -> nth_error cs (S i) = Some d ->
                    snd c = fst d)
  /\ (forall i j c d t, nth_error cs i = Some c -> nth_error cs j = Some d ->
                        within c t -> within d t -> i = j)
  /\ Forall (fun c => lt (fst c) (snd c) /\ le (snd c) (add_days (fst c) 30)) cs
  /\ (end_time = add_days start_time 30 -> cs = [(start_time, end_time)])
  /\ Forall (fun c => plus_days (fst c) 30 = Ret (add_days (fst c) 30)) cs.
Proof.
  intros cs.
  assert (T : tiles start_time end_time cs).
  { apply chunks_from_tiles; [assumption|apply turns_for_enough]. }
  split; [|split; [|split; [|split; [|split; [|split]]]]].
  - intros. apply chunk_loop_over_chunks.
    + unfold turns_for; lia.
    + right; apply turns_for_enough.
  - apply tiles_cover; assumption.
  - eapply tiles_contiguous; eassumption.
  - eapply tiles_disjoint; eassumption.
  - eapply tiles_lengths; eassumption.
  - intros ->. apply chunks_thirty_days.
  - eapply tiles_sums; eassumption.
Qed.

End Chunking.

(** ** Rate limiting in [_request] *)

Section RateLimit.
Import BookeoClient.
Variable W : world.

Lemma turned_away_retry r d : turned_away r d -> retry_after r = Ret d.
Proof.
  intros [_ [[E ->]|[v [E P]]]]; unfold retry_after; rewrite E; [|rewrite P];
    reflexivity.
Qed.

Lemma rounds_cons q d waits :
  rounds q (d :: waits) = Get q :: Sleep (JInt d) :: rounds q waits.
Proof. reflexivity. Qed.

Lemma request_loop_rounds q waits : forall fuel s final,
  (forall k d, nth_error waits k = Some d ->
     exists r, net W (trace s ++ rounds q (firstn k waits)) q = Answer r
               /\ turned_away r d) ->
  net W (trace s ++ rounds q waits) q = Answer final ->
  status_code final <> 429 ->
  (List.length waits < fuel)%nat ->
  request_loop W fuel q s
  = (json_or_raise final, with_trace s (trace s ++ rounds q waits ++ [Get q])).
Proof.
  induction waits as [|d waits IH]; intros fuel s final Hscript Hfinal Hstatus Hfuel.
  - destruct fuel as [|fuel]; [simpl in Hfuel; lia|].
    simpl in Hfinal. rewrite app_nil_r in Hfinal.
    simpl. unfold bindM, http_get. rewrite Hfinal.
    apply Z.eqb_neq in Hstatus. rewrite Hstatus. reflexivity.
  - destruct fuel as [|fuel]; [simpl in Hfuel; lia|].
    destruct (Hscript 0%nat d eq_refl) as [r [Hr Hturn]].
    simpl in Hr. rewrite app_nil_r in Hr.
    pose proof (turned_away_retry _ _ Hturn) as Hretry.
    destruct Hturn as [H429 _].
    simpl. unfold bindM at 1. unfold http_get. rewrite Hr.
    rewrite H429. simpl. unfold bindM at 1. unfold lift. rewrite Hretry.
    unfold bindM at 1. unfold sleep.
    set (s2 := log (Sleep (JInt d)) (log (Get q) s)).
    assert (Ht : trace s2 = trace s ++ [Get q; Sleep (JInt d)]).
    { unfold s2, log; simpl. rewrite <- app_assoc. reflexivity. }
    rewrite (IH fuel s2 final).
    + unfold with_trace. rewrite Ht. rewrite <- app_assoc. reflexivity.
    + intros k d' Hk. destruct (Hscript (S k) d' Hk) as [r' [Hr' Ht']].
      exists r'. split; [|assumption].
      rewrite Ht. simpl firstn in Hr'. rewrite rounds_cons in Hr'.
      rewrite <- app_assoc. exact Hr'.
    + rewrite Ht. rewrite rounds_cons in Hfinal. rewrite <- app_assoc. exact Hfinal.
    + assumption.
    + simpl in Hfuel. lia.
Qed.



End RateLimit.

(** ** Pagination inside a chunk *)

Section Pagination.
Import BookeoClient.
Variable W : world.
Variables (self : BookeoClient) (ec ic : bool) (su eu : datetime).

Lemma for_each_collect items : forall acc,
  for_each collect items acc = Ret (acc ++ items).
Proof.
  induction items as [|x r IH]; intros acc; simpl.
  - rewrite app_nil_r. reflexivity.
  - rewrite IH. rewrite <- app_assoc. reflexivity.
Qed.

Lemma bindM_ret {X Y} (m : M X) (k : X -> M Y) s a s' :
  m s = (Ret a, s') -> bindM m k s = k a s'.
Proof. intros E. unfold bindM. rewrite E. reflexivity. Qed.

Lemma success_not_429 r : is_success r = true -> status_code r <> 429.
Proof.
  unfold is_success. rewrite andb_true_iff, !Z.leb_le. lia.
Qed.

(** A request that is answered at once with a success. *)
Lemma request_answered fuel q s r d :
  net W (trace s) q = Answer r -> is_success r = true -> body r = Some d ->
  request_loop W (S fuel) q s = (Ret d, with_trace s (trace s ++ [Get q])).
Proof.
  intros Hnet Hok Hbody.
  rewrite (request_loop_rounds W q [] (S fuel) s r).
  - unfold json_or_raise. rewrite Hok, Hbody. reflexivity.
  - intros k d' Hk. destruct k; discriminate.
  - simpl. rewrite app_nil_r. exact Hnet.
  - apply success_not_429; assumption.
  - simpl; lia.
Qed.

Local Abbreviation asks tok num :=
  (authenticated self "/bookings" (Some (search_params ec ic su eu tok num))).

Lemma asks_first : asks JNull JNull = first_request self ec ic su eu.
Proof. destruct ec, ic; reflexivity. Qed.




End Pagination.


(** ** What a search sends *)

Section Sent.
Import BookeoClient.
Variable W : world.

Lemma appends_lift {A} Q (r : res A) : appends Q (lift r).
Proof. intros s. exists []. rewrite app_nil_r. split; [reflexivity|constructor]. Qed.

Lemma appends_ret {A} Q (a : A) : appends Q (ret a).
Proof. apply (appends_lift Q (Ret a)). Qed.

Lemma appends_bind {A B} Q (m : M A) (k : A -> M B) :
  appends Q m -> (forall a, appends Q (k a)) -> appends Q (bindM m k).
Proof.
  intros Hm Hk s. destruct (Hm s) as [t [Ht Qt]].
  unfold bindM. destruct (m s) as [[a| |] s1]; simpl in Ht.
  - destruct (Hk a s1) as [t' [Ht' Qt']].
    exists (t ++ t'). rewrite Ht', Ht, app_assoc. split; [reflexivity|].
    apply Forall_app; split; assumption.
  - exists t. split; assumption.
  - exists t. split; assumption.
Qed.

Lemma appends_sleep Q d : Q (Sleep d) -> appends Q (sleep d).
Proof.
  intros HQ s. exists [Sleep d]. split; [reflexivity|]. constructor; [assumption|constructor].
Qed.

Lemma appends_http_get Q q : Q (Get q) -> appends Q (http_get W q).
Proof.
  intros HQ s. exists [Get q]. unfold http_get.
  destruct (net W (trace s) q); (split; [reflexivity|constructor; [assumption|constructor]]).
Qed.

Lemma request_loop_appends Q q :
  Q (Get q) -> (forall d, Q (Sleep d)) -> forall fuel, appends Q (request_loop W fuel q).
Proof.
  intros HG HS. induction fuel as [|fuel IH]; simpl.
  - apply appends_lift.
  - apply appends_bind; [apply appends_http_get; assumption|]. intros r.
    destruct (status_code r =? 429).
    + apply appends_bind; [apply appends_lift|]. intros d.
      apply appends_bind; [apply appends_sleep; apply HS|]. intros _. exact IH.
    + apply appends_lift.
Qed.

(** The first thing a request does is to go out. *)
Lemma request_loop_first q fuel s :
  exists rest, trace (snd (request_loop W (S fuel) q s)) = trace s ++ Get q :: rest.
Proof.
  pose proof (request_loop_appends (fun _ => True) q I (fun _ => I) fuel) as Happ.
  simpl. unfold bindM at 1. unfold http_get.
  destruct (net W (trace s) q) as [r|e].
  - destruct (status_code r =? 429).
    + unfold bindM at 1, lift at 1. destruct (retry_after r) as [d| |].
      * unfold bindM at 1, sleep.
        destruct (Happ (log (Sleep (JInt d)) (log (Get q) s))) as [t [Ht _]].
        exists (Sleep (JInt d) :: t). rewrite Ht. simpl.
        rewrite <- !app_assoc. reflexivity.
      * exists []. reflexivity.
      * exists []. reflexivity.
    + exists []. reflexivity.
  - exists []. reflexivity.
Qed.

Lemma bindM_first {A B} (m : M A) (k : A -> M B) s e :
  (forall a, appends (fun _ => True) (k a)) ->
  (exists rest, trace (snd (m s)) = trace s ++ e :: rest) ->
  exists rest, trace (snd (bindM m k s)) = trace s ++ e :: rest.
Proof.
  intros Hk [rest Hm]. unfold bindM.
  destruct (m s) as [[a| |] s1]; simpl in Hm; try (exists rest; exact Hm).
  destruct (Hk a s1) as [t [Ht _]]. exists (rest ++ t).
  rewrite Ht, Hm, <- app_assoc. reflexivity.
Qed.

Section OneSearch.
Context {A : Type} (body : A -> json -> res A).
Variables (self : BookeoClient) (ec ic : bool) (su eu : datetime).

Local Abbreviation asks tok num :=
  (authenticated self "/bookings" (Some (search_params ec ic su eu tok num))).

Lemma asks_carries tok num :
  carries (strftime_iso_z su) (strftime_iso_z eu) (Get (asks tok num)).
Proof.
  unfold search_params. destruct (truthy tok); split; reflexivity.
Qed.

Lemma pages_appends Q :
  (forall tok num, Q (Get (asks tok num))) -> (forall d, Q (Sleep d)) ->
  forall fuel tok num acc, appends Q (pages W body self ec ic fuel su eu tok num acc).
Proof.
  intros HG HS. induction fuel as [|fuel IH]; intros tok num acc.
  - apply appends_lift.
  - cbn [pages]. apply appends_bind.
    { unfold _request. apply request_loop_appends; [apply HG|apply HS]. }
    intros data. apply appends_bind; [apply appends_lift|]. intros bookings.
    apply appends_bind; [apply appends_lift|]. intros acc'.
    apply appends_bind; [apply appends_lift|]. intros paging.
    apply appends_bind; [apply appends_lift|]. intros next.
    destruct (truthy next); [|apply appends_ret].
    apply appends_bind; [apply appends_lift|]. intros tok'.
    apply appends_bind; [apply appends_lift|]. intros num'.
    apply IH.
Qed.

Lemma pages_first fuel tok num acc s :
  exists rest, trace (snd (pages W body self ec ic (S fuel) su eu tok num acc s))
               = trace s ++ Get (asks tok num) :: rest.
Proof.
  cbn [pages]. apply bindM_first; [|apply request_loop_first].
  intros data. apply appends_bind; [apply appends_lift|]. intros bookings.
  apply appends_bind; [apply appends_lift|]. intros acc'.
  apply appends_bind; [apply appends_lift|]. intros paging.
  apply appends_bind; [apply appends_lift|]. intros next.
  destruct (truthy next); [|apply appends_ret].
  apply appends_bind; [apply appends_lift|]. intros tok'.
  apply appends_bind; [apply appends_lift|]. intros num'.
  apply pages_appends; intros; exact I.
Qed.

End OneSearch.

Lemma one_chunk_sends {A} (body : A -> json -> res A) self ec ic fuel cs ce acc s :
  exists q rest,
    trace (snd (one_chunk W body self ec ic (S fuel) cs ce acc s)) = trace s ++ Get q :: rest
    /\ Forall (carries (strftime_iso_z (window_start W cs))
                       (strftime_iso_z (window_end W ce))) (Get q :: rest).
Proof.
  set (Q := carries (strftime_iso_z (window_start W cs)) (strftime_iso_z (window_end W ce))).
  assert (Happ : appends Q (one_chunk W body self ec ic (S fuel) cs ce acc)).
  { unfold one_chunk. apply appends_bind.
    - apply pages_appends; [intros; apply asks_carries|intros; exact I].
    - intros acc'. apply appends_bind; [apply appends_sleep; exact I|].
      intros _. apply appends_ret. }
  destruct (Happ s) as [t [Ht Qt]].
  assert (Hfirst : exists rest,
    trace (snd (one_chunk W body self ec ic (S fuel) cs ce acc s))
    = trace s ++ Get (authenticated self "/bookings"
                        (Some (search_params ec ic (window_start W cs) (window_end W ce)
                                             JNull JNull))) :: rest).
  { unfold one_chunk. apply bindM_first; [|apply pages_first].
    intros acc'. apply appends_bind; [apply appends_sleep; exact I|].
    intros _. apply appends_ret. }
  destruct Hfirst as [rest Hrest].
  rewrite Hrest in Ht. apply app_inv_head in Ht. subst t.
  eexists; exists rest. split; [exact Hrest|exact Qt].
Qed.

End Sent.

(** ** The tools *)

Section ToolFacts.
Context `{Runtime} (W : world).

Lemma get_client_trace s : trace (snd (Server.get_client W s)) = trace s.
Proof.
  unfold Server.get_client. destruct (the_client s); [reflexivity|].
  destruct (BookeoClient.init W); reflexivity.
Qed.

(** C1: whatever the service answers, the call
    [search_bookings_by_date("2024-12-27", "2024-12-27")] sends at least one
    request, and every request it sends names the window from
    2024-12-27T08:00:00Z, which is 00:00:00 on Dec 27 in Los Angeles, to
    2024-12-29T07:59:59Z, which is 23:59:59 on Dec 28 there; 23:59:59 on
    Dec 27 would be 2024-12-28T07:59:59Z.  The window sent covers Dec 27 and
    Dec 28. *)
Theorem dec27_search_sends_two_day_window (fuel : nat)
    (include_canceled : bool) (s s1 : state) (c : BookeoClient) :
  local_zone W = Los_Angeles ->
  Server.get_client W s = (Ret c, s1) ->
  (0 < fuel)%nat ->
  let local day h m sec := replace_hms (midnight 2024 12 day) h m sec in
  strftime_iso_z (astimezone_utc Los_Angeles (local 27 0 0 0)) = "2024-12-27T08:00:00Z"
  /\ strftime_iso_z (astimezone_utc Los_Angeles (local 27 23 59 59)) = "2024-12-28T07:59:59Z"
  /\ strftime_iso_z (astimezone_utc Los_Angeles (local 28 23 59 59)) = "2024-12-29T07:59:59Z"
  /\ exists q rest,
       trace (snd (Server.search_bookings_by_date W fuel "2024-12-27" "2024-12-27"
                     include_canceled s))
       = trace s ++ Get q :: rest
       /\ Forall (carries "2024-12-27T08:00:00Z" "2024-12-29T07:59:59Z") (Get q :: rest).
Proof.
  intros Hzone Hclient Hfuel local.
  split; [reflexivity|]. split; [reflexivity|]. split; [reflexivity|].
  destruct fuel as [|fuel]; [lia|].
  unfold Server.search_bookings_by_date.
  change (Server.parse_window "2024-12-27" "2024-12-27")
    with (Ret (midnight 2024 12 27, add_days (midnight 2024 12 27) 1)).
  cbv iota beta.
  change (366 <? days_between (add_days (midnight 2024 12 27) 1) (midnight 2024 12 27))
    with false.
  cbv iota.
  pose proof (get_client_trace s) as Htr. rewrite Hclient in Htr. simpl in Htr.
  unfold bindM at 1. rewrite Hclient.
  unfold BookeoClient.search_bookings.
  change (BookeoClient.turns_for (midnight 2024 12 27) (add_days (midnight 2024 12 27) 1))
    with 3%nat.
  cbn [BookeoClient.chunk_loop].
  change (ltb (midnight 2024 12 27) (add_days (midnight 2024 12 27) 1)) with true.
  cbv iota.
  change (DateTime.min (add_days (midnight 2024 12 27) 30) (add_days (midnight 2024 12 27) 1))
    with (add_days (midnight 2024 12 27) 1).
  change (ltb (add_days (midnight 2024 12 27) 1) (add_days (midnight 2024 12 27) 1)) with false.
  cbv iota.
  destruct (one_chunk_sends W Server.keep c true include_canceled fuel
              (midnight 2024 12 27) (add_days (midnight 2024 12 27) 1) [] s1)
    as [q [rest [Ht Hall]]].
  unfold BookeoClient.window_start, BookeoClient.window_end in Hall.
  rewrite Hzone in Hall.
  exists q, rest. split; [|exact Hall].
  rewrite <- Htr.
  unfold bindM.
  destruct (BookeoClient.one_chunk W Server.keep c true include_canceled (S fuel)
              (midnight 2024 12 27) (add_days (midnight 2024 12 27) 1) [] s1)
    as [[a| |] s2]; exact Ht.
Qed.

(** A first request that is answered with a failure status ends the search
    with that failure. *)
Lemma search_raises {A} (body : A -> json -> res A) self ec ic fuel st en acc s r :
  lt st en -> (0 < fuel)%nat ->
  (forall q, net W (trace s) q = Answer r) ->
  BookeoClient.is_success r = false -> status_code r <> 429 ->
  fst (BookeoClient.search_bookings W body self ec ic fuel st en acc s)
  = Raise (HTTPStatusError (status_code r)).
Proof.
  intros Hlt Hfuel Hnet Hfail H429.
  destruct fuel as [|fuel]; [lia|].
  unfold BookeoClient.search_bookings, BookeoClient.turns_for.
  rewrite Nat.add_comm. cbn [Nat.add BookeoClient.chunk_loop].
  unfold lt in Hlt. rewrite Hlt.
  unfold BookeoClient.one_chunk. cbn [BookeoClient.pages].
  unfold BookeoClient._request. cbn [BookeoClient.request_loop].
  unfold bindM, http_get. rewrite Hnet.
  apply Z.eqb_neq in H429. rewrite H429.
  unfold lift, BookeoClient.json_or_raise. rewrite Hfail. reflexivity.
Qed.

(** The two look-ups turn every exception of their [try] block into a
    value. *)
Lemma try_except_total {A} (m : M A) (h : exn -> A) s :
  raises (fst (try_except m (fun e => ret (h e)) s)) = false.
Proof.
  unfold try_except. destruct (m s) as [[a| |] s']; reflexivity.
Qed.

Lemma get_booking_never_raises fuel booking_number s c s1 :
  Server.get_client W s = (Ret c, s1) ->
  raises (fst (Server.get_booking W fuel booking_number s)) = false.
Proof.
  intros Hc. unfold Server.get_booking, bindM at 1. rewrite Hc.
  apply (try_except_total _ (fun e => Server.error_payload _)).
Qed.

Lemma get_booking_payments_never_raises fuel booking_number s c s1 :
  Server.get_client W s = (Ret c, s1) ->
  raises (fst (Server.get_booking_payments W fuel booking_number s)) = false.
Proof.
  intros Hc. unfold Server.get_booking_payments, bindM at 1. rewrite Hc.
  apply (try_except_total _ (fun e => Server.error_payload _)).
Qed.

(** C5, as the code has it: the two searches have no handler around the
    iteration of the generator.  When the service answers the first request
    with a status that is neither a success nor 429, [search_bookings_by_date]
    (on any accepted, non-empty range) and [search_bookings_by_customer] (on
    any filter and any positive [days_back]) raise [HTTPStatusError] to their
    caller, where the claim has them return an error payload. *)
Theorem searches_raise_request_failure (fuel : nat) (s s1 : state)
    (c : BookeoClient) (r : response)
    (start_date end_date : string) (include_canceled : bool)
    (start_time end_time : datetime)
    (customer_name customer_email : string) (days_back : Z) :
  Server.get_client W s = (Ret c, s1) ->
  (0 < fuel)%nat ->
  (forall q, net W (trace s) q = Answer r) ->
  BookeoClient.is_success r = false ->
  status_code r <> 429 ->
  Server.parse_window start_date end_date = Ret (start_time, end_time) ->
  lt start_time end_time ->
  days_between end_time start_time <= 366 ->
  is_empty customer_name && is_empty customer_email = false ->
  0 < days_back ->
  fst (Server.search_bookings_by_date W fuel start_date end_date include_canceled s)
  = Raise (HTTPStatusError (status_code r))
  /\ fst (Server.search_bookings_by_customer W fuel customer_name customer_email
            days_back s)
     = Raise (HTTPStatusError (status_code r)).
Proof.
  intros Hc Hfuel Hnet Hfail H429 Hparse Hlt Hspan Hfilter Hdays.
  pose proof (get_client_trace s) as Htr. rewrite Hc in Htr. simpl in Htr.
  assert (Hnet1 : forall q, net W (trace s1) q = Answer r)
    by (intros q; rewrite Htr; apply Hnet).
  split.
  - unfold Server.search_bookings_by_date. rewrite Hparse.
    apply Z.ltb_ge in Hspan. rewrite Hspan.
    unfold bindM at 1. rewrite Hc.
    pose proof (search_raises Server.keep c true include_canceled fuel
                  start_time end_time [] s1 r Hlt Hfuel Hnet1 Hfail H429) as E.
    unfold bindM.
    destruct (BookeoClient.search_bookings W Server.keep c true include_canceled fuel
                start_time end_time [] s1) as [[a| |] s2]; simpl in E;
      try discriminate; injection E as ->; reflexivity.
  - unfold Server.search_bookings_by_customer. rewrite Hfilter.
    unfold bindM at 1. rewrite Hc.
    set (body := Server.keep_if_match _ _).
    assert (Hlt' : lt (add_days (now W) (- Z.min days_back 365)) (now W)).
    { order_prep. lia. }
    pose proof (search_raises body c true false fuel _ _ [] s1 r Hlt' Hfuel Hnet1
                  Hfail H429) as E.
    unfold bindM.
    destruct (BookeoClient.search_bookings W body c true false fuel
                (add_days (now W) (- Z.min days_back 365)) (now W) [] s1)
      as [[a| |] s2]; simpl in E; try discriminate; injection E as ->; reflexivity.
Qed.

(** C6: a call of [search_bookings_by_date] whose two dates parse, whose
    end date has a next day [end_time] in the calendar (every end date but
    9999-12-31, where the sum raises [OverflowError]) and whose span from
    the start date to [end_time] is more than 366 days returns the error
    payload and leaves the state as it was: nothing is sent. *)
Theorem oversized_range_is_rejected (fuel : nat) (start_date end_date : string)
    (include_canceled : bool) (s : state) (start_time end_day end_time : datetime) :
  strptime_ymd start_date = Ret start_time ->
  strptime_ymd end_date = Ret end_day ->
  plus_days end_day 1 = Ret end_time ->
  366 < days_between end_time start_time ->
  Server.search_bookings_by_date W fuel start_date end_date include_canceled s
  = (Ret (JList [JDict [("error", JStr "Date range cannot exceed 365 days")]]), s).
Proof.
  intros Hs He Hsum Hspan.
  apply plus_days_ret in Hsum. destruct Hsum as [-> _].
  unfold Server.search_bookings_by_date, Server.parse_window.
  rewrite Hs, He. cbn [Py.bind].
  apply Z.ltb_lt in Hspan. rewrite Hspan. reflexivity.
Qed.

(** C7: with neither a name nor an email, [search_bookings_by_customer]
    returns the error payload and leaves the state as it was: the client is
    not even built and nothing is sent. *)
Theorem empty_filter_is_rejected (fuel : nat) (days_back : Z) (s : state) :
  Server.search_bookings_by_customer W fuel "" "" days_back s
  = (Ret (JList [JDict [("error",
                         JStr "Must provide either customer_name or customer_email")]]),
     s).
Proof. reflexivity. Qed.

(** C10: on a window that is empty or inverted, [search_bookings] does not
    enter its loop: it yields nothing and sends nothing.  This is what
    happens in [search_bookings_by_customer] with a negative [days_back],
    which [min(days_back, 365)] leaves negative: when the start
    [end_time - timedelta(days=days_back)] is a [datetime] (it lies after
    now, and [OverflowError] is raised when it would leave the calendar),
    the window is inverted, the result is the empty list and the trace is
    unchanged. *)
Theorem empty_window_sends_nothing :
  (forall (A : Type) (body : A -> json -> res A) self ec ic fuel
          (start_time end_time : datetime) (acc : A) (s : state),
      le end_time start_time ->
      BookeoClient.search_bookings W body self ec ic fuel start_time end_time acc s
      = (Ret acc, s))
  /\ (forall fuel customer_name customer_email days_back s c s1 start_time,
      is_empty customer_name && is_empty customer_email = false ->
      days_back < 0 ->
      Server.get_client W s = (Ret c, s1) ->
      plus_days (now W) (- days_back) = Ret start_time ->
      Z.min days_back 365 = days_back
      /\ lt (now W) start_time
      /\ Server.search_bookings_by_customer W fuel customer_name customer_email
           days_back s = (Ret (JList []), s1)
      /\ trace s1 = trace s).
Proof.
  assert (Hempty : forall (A : Type) (body : A -> json -> res A) self ec ic fuel
                          (start_time end_time : datetime) (acc : A) (s : state),
             le end_time start_time ->
             BookeoClient.search_bookings W body self ec ic fuel start_time end_time acc s
             = (Ret acc, s)).
  { intros A body self ec ic fuel st en acc s Hle.
    unfold BookeoClient.search_bookings, BookeoClient.turns_for.
    rewrite Nat.add_comm. cbn [Nat.add BookeoClient.chunk_loop].
    unfold le in Hle. rewrite Hle. reflexivity. }
  split; [exact Hempty|].
  intros fuel name email days_back s c s1 start_time Hfilter Hneg Hc Hsum.
  apply plus_days_ret in Hsum. destruct Hsum as [-> _].
  split; [lia|].
  split; [apply lt_add_days; lia|].
  pose proof (get_client_trace s) as Htr. rewrite Hc in Htr. simpl in Htr.
  split; [|assumption].
  unfold Server.search_bookings_by_customer. rewrite Hfilter.
  unfold bindM at 1. rewrite Hc.
  unfold bindM. rewrite Hempty; [reflexivity|].
  order_prep. lia.
Qed.

End ToolFacts.

(** ** Projections of a booking *)

Section Projection.
Context `{Runtime}.

Lemma sum_numbers_counts cats counts :
  Forall2 (fun c n => get c "number" (JInt 0) = Ret (JInt n)) cats counts ->
  forall acc,
  Server.sum_numbers cats (JInt acc) = Ret (JInt (acc + fold_right Z.add 0 counts)).
Proof.
  induction 1 as [|c n cats counts Hc _ IH]; intros acc; simpl.
  - rewrite Z.add_0_r. reflexivity.
  - rewrite Hc. simpl. rewrite IH. rewrite Z.add_assoc. reflexivity.
Qed.

Lemma list_ascii_app (s t : string) :
  list_ascii_of_string (s ++ t)%string
  = (list_ascii_of_string s ++ list_ascii_of_string t)%list.
Proof.
  induction s as [|c s IH]; [reflexivity|]. simpl. rewrite IH. reflexivity.
Qed.

Lemma drop_spaces_space front a l :
  is_space a = true -> drop_spaces front (a :: l) = drop_spaces front l.
Proof. intros E. cbn [drop_spaces]. rewrite E. reflexivity. Qed.

(** A space added at the end of a text is not part of a wide space, so it
    does not change what is dropped at the front. *)
Lemma drop_spaces_space_end : forall (n : nat) (l : list ascii),
  (List.length l <= n)%nat ->
  drop_spaces true (l ++ [" "%char])
  = match drop_spaces true l with
    | [] => []
    | t => (t ++ [" "%char])%list
    end.
Proof.
  induction n as [|n IH]; intros l Hn.
  - destruct l; [reflexivity|simpl in Hn; lia].
  - destruct l as [|a [|b [|c r3]]].
    + reflexivity.
    + cbn [drop_spaces app]. destruct (is_space a) eqn:Ea; [reflexivity|].
      replace (is_space2 a " ") with false; [reflexivity|].
      unfold is_space2. cbn. rewrite !andb_false_r. reflexivity.
    + cbn [drop_spaces app]. destruct (is_space a) eqn:Ea.
      * apply (IH [b]). simpl in *; lia.
      * destruct (is_space2 a b) eqn:Eab; [reflexivity|].
        replace (is_space3 a b " ") with false; [reflexivity|].
        unfold is_space3. cbn. rewrite !andb_false_r. reflexivity.
    + cbn [drop_spaces app]. destruct (is_space a) eqn:Ea.
      * apply (IH (b :: c :: r3)). simpl in *; lia.
      * destruct (is_space2 a b) eqn:Eab.
        -- apply (IH (c :: r3)). simpl in *; lia.
        -- destruct (is_space3 a b c) eqn:Eabc; [|reflexivity].
           apply (IH r3). simpl in *; lia.
Qed.

Lemma strip_space_right s : strip (s ++ " ")%string = strip s.
Proof.
  unfold strip, lstrip. rewrite list_ascii_app.
  change (list_ascii_of_string " ") with [" "%char].
  rewrite (drop_spaces_space_end _ _ (Nat.le_refl _)).
  destruct (drop_spaces true (list_ascii_of_string s)) as [|c t]; [reflexivity|].
  unfold rstrip. rewrite !list_ascii_of_string_of_list_ascii.
  rewrite rev_app_distr. cbn [rev app].
  rewrite drop_spaces_space; reflexivity.
Qed.

(** C9: for a booking whose customer block holds texts for the first and
    the last name and a list of phone entries, and whose participants block
    lists categories with integer counts, the projections succeed; the name
    is the first and last name joined by a space and trimmed, so an empty
    first or last name leaves the other one, trimmed; the phone is the
    number of the first phone entry, or the empty text when there is none;
    the participant count is the sum of the counts of all categories. *)
Theorem projection_rules (booking customer participants : json)
    (first last : string) (phones : list json) (first_number : json)
    (categories : list json) (counts : list Z) :
  get booking "customer" (JDict []) = Ret customer ->
  get customer "firstName" (JStr "") = Ret (JStr first) ->
  get customer "lastName" (JStr "") = Ret (JStr last) ->
  get customer "phoneNumbers" (JList []) = Ret (JList phones) ->
  match phones with
  | [] => first_number = JStr ""
  | p :: _ => get p "number" (JStr "") = Ret first_number
  end ->
  get booking "participants" (JDict []) = Ret participants ->
  get participants "numbers" (JList []) = Ret (JList categories) ->
  Forall2 (fun c n => get c "number" (JInt 0) = Ret (JInt n)) categories counts ->
  (exists info,
      Server.format_customer booking = Ret info
      /\ Server.name info = strip (first ++ " " ++ last)%string
      /\ (first = "" -> Server.name info = strip last)
      /\ (last = "" -> Server.name info = strip first)
      /\ Server.phone info = first_number)
  /\ Server.format_participants booking = Ret (JInt (fold_right Z.add 0 counts)).
Proof.
  intros Hc Hf Hl Hp Hn Hparts Hnums Hcounts. split.
  - assert (Hdict : exists kvs, customer = JDict kvs).
    { destruct customer; try discriminate. eauto. }
    destruct Hdict as [kvs ->].
    unfold Server.format_customer. rewrite Hc. cbn [Py.bind].
    rewrite Hp. cbn [Py.bind]. rewrite Hf. cbn [Py.bind]. rewrite Hl. cbn [Py.bind].
    cbn [get Py.bind].
    destruct phones as [|p rest].
    + subst first_number. cbn [truthy Py.bind]. eexists. split; [reflexivity|].
      cbn [Server.name Server.phone to_str]. repeat split.
      * intros ->. reflexivity.
      * intros ->. apply strip_space_right.
    + cbn [truthy first_item Py.bind]. rewrite Hn. cbn [Py.bind].
      eexists. split; [reflexivity|].
      cbn [Server.name Server.phone to_str]. repeat split.
      * intros ->. reflexivity.
      * intros ->. apply strip_space_right.
  - unfold Server.format_participants. rewrite Hparts. cbn [Py.bind].
    rewrite Hnums. cbn [Py.bind iter].
    apply (sum_numbers_counts categories counts Hcounts 0).
Qed.

End Projection.

(** ** The payment report *)

Section Payments.
Context `{Runtime}.

Lemma analyze_describes p f :
  describes p f -> exists a, Server.analyze_payment p = Ret a /\ analysis_of a f.
Proof.
  intros [Hg [Hm [amount_doc [v [Ha [Hv [Hf Hc]]]]]]].
  destruct p; try discriminate.
  unfold Server.analyze_payment.
  rewrite Hg. cbn [Py.bind]. rewrite Ha. cbn [Py.bind]. rewrite Hm. cbn [Py.bind get].
  eexists. split; [reflexivity|].
  unfold analysis_of; cbn [Server.gateway Server.is_manual Server.method Server.amount].
  repeat split.
  - destruct (gateway_name f); reflexivity.
  - destruct (gateway_name f); reflexivity.
  - exists v. split; assumption.
  - assumption.
Qed.

Lemma analyze_all_describes payments facts :
  Forall2 describes payments facts ->
  exists analyzed, Server.analyze_all payments = Ret analyzed
                   /\ Forall2 analysis_of analyzed facts.
Proof.
  induction 1 as [|p f payments facts Hp _ [analyzed [E IH]]].
  - exists []. split; [reflexivity|constructor].
  - destruct (analyze_describes p f Hp) as [a [Ea Ha]].
    exists (a :: analyzed). simpl. rewrite Ea. cbn [Py.bind]. rewrite E.
    split; [reflexivity|constructor; assumption].
Qed.

Lemma sum_amounts_floats analyzed facts :
  Forall2 analysis_of analyzed facts ->
  forall x, Server.sum_amounts analyzed (JFloat x)
            = Ret (JFloat (fold_left PrimFloat.add (map paid facts) x)).
Proof.
  induction 1 as [|a f analyzed facts [_ [_ [_ [[v [Hv Hf]] _]]]] _ IH]; intros x.
  - reflexivity.
  - simpl. rewrite Hv. cbn [Py.bind]. rewrite Hf. cbn [Py.bind].
    change (add (JFloat x) (JFloat (paid f)))
      with (Ret (A:=json) (JFloat (PrimFloat.add x (paid f)))).
    cbn [Py.bind]. apply IH.
Qed.

Lemma sum_amounts_total analyzed facts :
  Forall2 analysis_of analyzed facts ->
  Server.sum_amounts analyzed (JInt 0)
  = Ret (match facts with
         | [] => JInt 0
         | _ :: _ => JFloat (float_sum (map paid facts))
         end).
Proof.
  intros Hall. destruct Hall as [|a f analyzed facts [_ [_ [_ [[v [Hv Hf]] _]]]] Hrest].
  - reflexivity.
  - simpl. rewrite Hv. cbn [Py.bind]. rewrite Hf. cbn [Py.bind].
    change (add (JInt 0) (JFloat (paid f)))
      with (Ret (A:=json) (JFloat (PrimFloat.add 0%float (paid f)))).
    cbn [Py.bind]. apply (sum_amounts_floats _ _ Hrest).
Qed.

Lemma any_stripe_names analyzed facts :
  Forall2 analysis_of analyzed facts ->
  Server.any_stripe analyzed
  = Ret (existsb (fun f => contains "stripe" (lower (gateway_name f))) facts).
Proof.
  induction 1 as [|a f analyzed facts [Hg _] _ IH]; [reflexivity|].
  simpl. rewrite Hg.
  destruct (gateway_name f) as [|c g] eqn:E.
  - simpl. exact IH.
  - cbn [is_empty truthy negb lower_of Py.bind].
    destruct (contains "stripe" (lower (String c g))); [reflexivity|exact IH].
Qed.

Lemma existsb_manual analyzed facts :
  Forall2 analysis_of analyzed facts ->
  existsb Server.is_manual analyzed
  = existsb (fun f => is_empty (gateway_name f)) facts.
Proof.
  induction 1 as [|a f analyzed facts [_ [Hm _]] _ IH]; [reflexivity|].
  simpl. rewrite Hm, IH. reflexivity.
Qed.

Lemma methods_of analyzed facts :
  Forall2 analysis_of analyzed facts ->
  map Server.method analyzed = map JStr (map method_name facts).
Proof.
  induction 1 as [|a f analyzed facts [_ [_ [Hm _]]] _ IH]; [reflexivity|].
  simpl. rewrite Hm, IH. reflexivity.
Qed.

Lemma existsb_same_key m seen :
  existsb (Server.same_key (JStr m)) (map JStr seen) = true <-> In m seen.
Proof.
  rewrite existsb_exists. split.
  - intros [x [Hin Hx]]. apply in_map_iff in Hin. destruct Hin as [t [<- Ht]].
    simpl in Hx. apply String.eqb_eq in Hx. subst. assumption.
  - intros Hin. exists (JStr m). split; [apply in_map; assumption|].
    simpl. apply String.eqb_refl.
Qed.

Lemma set_list_strings ms : forall seen,
  NoDup seen ->
  exists out, Server.set_list (map JStr ms) (map JStr seen) = Ret (map JStr out)
              /\ NoDup out /\ forall m, In m out <-> In m seen \/ In m ms.
Proof.
  induction ms as [|m ms IH]; intros seen Hnd.
  - exists seen. split; [reflexivity|]. split; [assumption|]. intros; simpl; tauto.
  - simpl. destruct (existsb (Server.same_key (JStr m)) (map JStr seen)) eqn:E.
    + apply existsb_same_key in E.
      destruct (IH seen Hnd) as [out [Eo [Ho Hin]]].
      exists out. split; [assumption|]. split; [assumption|].
      intros x. rewrite Hin. split; [tauto|]. intros [?|[<-|?]]; tauto.
    + assert (Hnot : ~ In m seen).
      { intros Hin. apply existsb_same_key in Hin. congruence. }
      destruct (IH (seen ++ [m])) as [out [Eo [Ho Hin]]].
      { apply NoDup_app; [assumption|repeat constructor; simpl; tauto|].
        intros x Hx [<-|[]]. contradiction. }
      exists out. rewrite map_app in Eo. split; [exact Eo|]. split; [assumption|].
      intros x. rewrite Hin, in_app_iff. simpl. tauto.
Qed.

(** C8: for a list of payment records with well-typed fields,
    [get_booking_payments] reports: each payment as manual exactly when its
    gateway name is empty; [has_manual_payment] exactly when some payment is
    manual; [has_stripe_payment] exactly when some gateway name, in lower
    case, contains "stripe"; as [payment_methods] the methods that occur,
    each once; as [total_paid] the binary64 sum of the amounts (the integer
    0 for no payment); as [currency] that of the first payment, "CAD" when
    there is none. *)
Theorem payment_report_summarises (W : world) (fuel : nat)
    (booking_number : string) (payments : list json) (facts : list payment_facts)
    (s s1 s2 : state) (c : BookeoClient) :
  Forall2 describes payments facts ->
  Server.get_client W s = (Ret c, s1) ->
  BookeoClient.get_booking_payments W fuel c booking_number s1
  = (Ret (JList payments), s2) ->
  exists analyzed methods,
    Server.get_booking_payments W fuel booking_number s
    = (Ret (JDict
          [("booking_number", JStr booking_number);
           ("payment_count", JInt (Z.of_nat (List.length payments)));
           ("total_paid",
            match facts with
            | [] => JInt 0
            | _ :: _ => JFloat (float_sum (map paid facts))
            end);
           ("currency",
            JStr (match facts with [] => "CAD" | f :: _ => currency_code f end));
           ("has_manual_payment",
            JBool (existsb (fun f => is_empty (gateway_name f)) facts));
           ("has_stripe_payment",
            JBool (existsb (fun f => contains "stripe" (lower (gateway_name f)))
                           facts));
           ("payment_methods", JList (map JStr methods));
           ("payments", JList (map Server.payment_json analyzed))]), s2)
    /\ Forall2 (fun a f => (Server.is_manual a = true <-> gateway_name f = "")
                           /\ Server.gateway a
                              = JStr (if is_empty (gateway_name f) then "manual"
                                      else gateway_name f))
               analyzed facts
    /\ NoDup methods
    /\ (forall m, In m methods <-> exists f, In f facts /\ method_name f = m).
Proof.
  intros Hdesc Hc Hfetch.
  destruct (analyze_all_describes _ _ Hdesc) as [analyzed [Ean Han]].
  destruct (set_list_strings (map method_name facts) [] (NoDup_nil _))
    as [methods [Eset [Hnd Hin]]].
  exists analyzed, methods. split; [|split; [|split]].
  - unfold Server.get_booking_payments, bindM at 1. rewrite Hc.
    unfold try_except, bindM. rewrite Hfetch.
    unfold lift, Server.payment_report. cbn [iter Py.bind].
    rewrite Ean. cbn [Py.bind].
    rewrite (sum_amounts_total _ _ Han). cbn [Py.bind].
    rewrite (any_stripe_names _ _ Han). cbn [Py.bind].
    rewrite (methods_of _ _ Han). change (@nil json) with (map JStr []) at 1.
    rewrite Eset. cbn [Py.bind].
    rewrite (existsb_manual _ _ Han).
    destruct Han as [|a f analyzed facts [_ [_ [_ [_ Hcur]]]] Hrest].
    + reflexivity.
    + cbn [Server.currency_of]. rewrite Hcur. reflexivity.
  - clear - Han. induction Han as [|a f analyzed facts [Hg [Hm _]] _ IH];
      constructor; [|assumption].
    split; [|assumption]. rewrite Hm. destruct (gateway_name f); simpl; split;
      congruence.
  - assumption.
  - intros m. rewrite Hin. simpl. rewrite in_map_iff.
    split; [intros [[]|[f [E Hf]]]; eauto|intros [f [Hf E]]; right; eauto].
Qed.

End Payments.

(** * Further properties of the client and of the tools *)

Import Facts.

(** ** Parameters and credentials *)

Lemma assoc_dict_set_same k v kvs : assoc k (dict_set k v kvs) = Some v.
Proof.
  induction kvs as [|[k' v'] kvs IH]; simpl.
  - rewrite String.eqb_refl. reflexivity.
  - destruct (String.eqb k k') eqn:E; simpl.
    + rewrite String.eqb_refl. reflexivity.
    + rewrite E. exact IH.
Qed.

Lemma assoc_dict_set_other k k' v kvs :
  k <> k' -> assoc k' (dict_set k v kvs) = assoc k' kvs.
Proof.
  intros Hne. induction kvs as [|[k0 v0] kvs IH]; simpl.
  - destruct (String.eqb k' k) eqn:E; [|reflexivity].
    apply String.eqb_eq in E. congruence.
  - destruct (String.eqb k k0) eqn:E; simpl.
    + apply String.eqb_eq in E. subst k0.
      destruct (String.eqb k' k) eqn:E'; [|reflexivity].
      apply String.eqb_eq in E'. congruence.
    + destruct (String.eqb k' k0); [reflexivity|exact IH].
Qed.

Lemma authenticated_signed self endpoint params :
  signed self endpoint params (Get (BookeoClient.authenticated self endpoint params)).
Proof.
  unfold signed, BookeoClient.authenticated. cbn [url Net.params].
  assert (Hgiven : match params with Some (kv :: r) => kv :: r | _ => [] end
                   = given params).
  { destruct params as [[|kv r]|]; reflexivity. }
  rewrite Hgiven. split; [reflexivity|]. split; [|split].
  - rewrite assoc_dict_set_other by discriminate. apply assoc_dict_set_same.
  - apply assoc_dict_set_same.
  - intros k Hk Hs. rewrite !assoc_dict_set_other by congruence. reflexivity.
Qed.

(** X1: whatever the service does, every request [_request] sends goes to
    the base address followed by the endpoint and carries the [apiKey] and
    [secretKey] of the client, in place of any the caller gave under these
    names; every other parameter is as the caller gave it. *)
Theorem request_carries_credentials (W : world) (fuel : nat) (self : BookeoClient)
    (endpoint : string) (params : option (list (string * json))) :
  appends (signed self endpoint params)
          (BookeoClient._request W fuel self endpoint params).
Proof.
  unfold BookeoClient._request.
  apply request_loop_appends.
  - apply authenticated_signed.
  - intros d. exact I.
Qed.

(** ** What [_request] does not retry *)


(** X3: only the status 429 is retried.  When the transport itself raises,
    or when a response with a success status has a body that is not JSON,
    [_request] raises after a single send. *)
Theorem other_failures_are_not_retried (W : world) (fuel : nat) (self : BookeoClient)
    (endpoint : string) (params : option (list (string * json))) (s : state) :
  let q := BookeoClient.authenticated self endpoint params in
  (forall e, net W (trace s) q = Broken e ->
     BookeoClient._request W (S fuel) self endpoint params s
     = (Raise e, with_trace s (trace s ++ [Get q])))
  /\ (forall r, net W (trace s) q = Answer r ->
        BookeoClient.is_success r = true -> body r = None ->
        BookeoClient._request W (S fuel) self endpoint params s
        = (Raise JSONDecodeError, with_trace s (trace s ++ [Get q]))).
Proof.
  intros q. split.
  - intros e Hnet. unfold BookeoClient._request. fold q.
    cbn [BookeoClient.request_loop]. unfold bindM, http_get. rewrite Hnet.
    reflexivity.
  - intros r Hnet Hok Hbody. unfold BookeoClient._request. fold q.
    cbn [BookeoClient.request_loop]. unfold bindM, http_get. rewrite Hnet.
    pose proof (success_not_429 r Hok) as H429. apply Z.eqb_neq in H429.
    rewrite H429. unfold lift, BookeoClient.json_or_raise. rewrite Hok, Hbody.
    reflexivity.
Qed.

(** ** The shared client and the credentials *)

Section SharedClient.
Context `{Runtime}.


(** X4: [get_client] builds the client once.  After a call that returned a
    client, every later call returns that same client and changes nothing,
    whatever the environment holds by then; a call that failed has changed
    nothing either, so the next call tries again.  No call sends
    anything. *)
Theorem get_client_builds_once (W : world) (s : state) :
  (forall c s1, Server.get_client W s = (Ret c, s1) ->
     trace s1 = trace s
     /\ forall W', Server.get_client W' s1 = (Ret c, s1))
  /\ (forall e s1, Server.get_client W s = (Raise e, s1) ->
        s1 = s /\ the_client s = None).
Proof.
  unfold Server.get_client. split.
  - intros c s1 E. destruct (the_client s) as [c0|] eqn:Ec.
    + injection E as <- <-. split; [reflexivity|]. intros W'. rewrite Ec. reflexivity.
    + destruct (BookeoClient.init W) as [c0| |]; try discriminate.
      injection E as <- <-. split; [reflexivity|]. intros W'. reflexivity.
  - intros e s1 E. destruct (the_client s) as [c0|] eqn:Ec; [discriminate|].
    destruct (BookeoClient.init W) as [c0| |]; try discriminate.
    injection E as <- <-. split; reflexivity.
Qed.


(** X6: once the client is there, the two look-ups turn every exception of
    the fetch into a value: the result is the payload made of the fixed
    prefix and the text of the exception, and the state is the one the
    failed fetch left. *)
Theorem lookups_return_fetch_failures (W : world) (fuel : nat) (s s1 : state)
    (c : BookeoClient) (booking_number : string) :
  Server.get_client W s = (Ret c, s1) ->
  (forall e s2,
      BookeoClient.get_booking W fuel c booking_number s1 = (Raise e, s2) ->
      Server.get_booking W fuel booking_number s
      = (Ret (JDict [("error",
                      JStr ("Booking not found or API error: " ++ exn_message e))]),
         s2))
  /\ (forall e s2,
      BookeoClient.get_booking_payments W fuel c booking_number s1 = (Raise e, s2) ->
      Server.get_booking_payments W fuel booking_number s
      = (Ret (JDict [("error",
                      JStr ("Could not fetch payments: " ++ exn_message e))]),
         s2)).
Proof.
  intros Hc. split; intros e s2 Hfetch.
  - unfold Server.get_booking, bindM at 1. rewrite Hc.
    unfold try_except, bindM. rewrite Hfetch. reflexivity.
  - unfold Server.get_booking_payments, bindM at 1. rewrite Hc.
    unfold try_except, bindM. rewrite Hfetch. reflexivity.
Qed.

End SharedClient.

(** ** Looking the same booking up twice *)

Section Idempotence.
Context `{Runtime} (W : world).

Lemma request_loop_S fuel q s :
  BookeoClient.request_loop W (S fuel) q s
  = match net W (trace s) q with
    | Broken e => (Raise e, log (Get q) s)
    | Answer r =>
        if status_code r =? 429 then
          match BookeoClient.retry_after r with
          | Ret d =>
              BookeoClient.request_loop W fuel q
                (log (Sleep (JInt d)) (log (Get q) s))
          | Raise e => (Raise e, log (Get q) s)
          | OutOfFuel => (OutOfFuel, log (Get q) s)
          end
        else (BookeoClient.json_or_raise r, log (Get q) s)
    end.
Proof.
  cbn [BookeoClient.request_loop]. unfold bindM, http_get, lift, sleep.
  destruct (net W (trace s) q) as [r|e]; [|reflexivity].
  destruct (status_code r =? 429); [|reflexivity].
  destruct (BookeoClient.retry_after r); reflexivity.
Qed.

Lemma request_loop_stateless q : stateless W ->
  forall fuel s s', fst (BookeoClient.request_loop W fuel q s)
                    = fst (BookeoClient.request_loop W fuel q s').
Proof.
  intros Hst. induction fuel as [|fuel IH]; intros s s'; [reflexivity|].
  rewrite !request_loop_S. rewrite (Hst (trace s) (trace s') q).
  destruct (net W (trace s') q) as [r|e]; [|reflexivity].
  destruct (status_code r =? 429); [|reflexivity].
  destruct (BookeoClient.retry_after r) as [d| |]; try reflexivity.
  apply IH.
Qed.

Lemma request_loop_keeps_client q : forall fuel s,
  the_client (snd (BookeoClient.request_loop W fuel q s)) = the_client s.
Proof.
  induction fuel as [|fuel IH]; intros s; [reflexivity|].
  rewrite request_loop_S.
  destruct (net W (trace s) q) as [r|e]; [|reflexivity].
  destruct (status_code r =? 429); [|reflexivity].
  destruct (BookeoClient.retry_after r) as [d| |]; try reflexivity.
  rewrite IH. reflexivity.
Qed.

Lemma get_client_after c s s1 s2 :
  Server.get_client W s = (Ret c, s1) -> the_client s2 = the_client s1 ->
  Server.get_client W s2 = (Ret c, s2).
Proof.
  intros Hc Hsame. unfold Server.get_client in *. rewrite Hsame.
  destruct (the_client s) as [c0|] eqn:E.
  - injection Hc as <- <-. rewrite E. reflexivity.
  - destruct (BookeoClient.init W) as [c0| |]; try discriminate.
    injection Hc as <- <-. reflexivity.
Qed.

(** Reading an answer without sending, and catching what was raised, keep
    what matters here: the value as a function of the value, the client. *)
Lemma bind_lift_fst {A B} (m : M A) (f : A -> res B) s s' :
  fst (m s) = fst (m s') ->
  fst (bindM m (fun a => lift (f a)) s) = fst (bindM m (fun a => lift (f a)) s').
Proof.
  intros E. unfold bindM, lift.
  destruct (m s) as [[a| |] t]; destruct (m s') as [[a'| |] t'];
    simpl in E; try discriminate; try reflexivity.
  - injection E as ->. reflexivity.
  - injection E as ->. reflexivity.
Qed.

Lemma bind_lift_client {A B} (m : M A) (f : A -> res B) s :
  the_client (snd (m s)) = the_client s ->
  the_client (snd (bindM m (fun a => lift (f a)) s)) = the_client s.
Proof.
  intros E. unfold bindM, lift. destruct (m s) as [[a| |] t]; exact E.
Qed.

Lemma try_except_fst {A} (m : M A) (h : exn -> A) s s' :
  fst (m s) = fst (m s') ->
  fst (try_except m (fun e => ret (h e)) s)
  = fst (try_except m (fun e => ret (h e)) s').
Proof.
  intros E. unfold try_except, ret.
  destruct (m s) as [[a| |] t]; destruct (m s') as [[a'| |] t'];
    simpl in E; try discriminate; try reflexivity.
  - injection E as ->. reflexivity.
  - injection E as ->. reflexivity.
Qed.

Lemma try_except_client {A} (m : M A) (h : exn -> A) s :
  the_client (snd (m s)) = the_client s ->
  the_client (snd (try_except m (fun e => ret (h e)) s)) = the_client s.
Proof.
  intros E. unfold try_except, ret. destruct (m s) as [[a| |] t]; exact E.
Qed.

(** X7: against a service whose answers do not depend on the past, looking
    a booking up a second time gives the value the first look-up gave; the
    same holds for its payments.  (The second call finds the client built
    and sends its requests again.) *)
Theorem lookups_are_repeatable (fuel : nat) (booking_number : string)
    (s s1 : state) (c : BookeoClient) :
  stateless W ->
  Server.get_client W s = (Ret c, s1) ->
  fst (Server.get_booking W fuel booking_number
         (snd (Server.get_booking W fuel booking_number s)))
  = fst (Server.get_booking W fuel booking_number s)
  /\ fst (Server.get_booking_payments W fuel booking_number
            (snd (Server.get_booking_payments W fuel booking_number s)))
     = fst (Server.get_booking_payments W fuel booking_number s).
Proof.
  intros Hst Hc.
  pose proof (get_client_after c s s1 s1 Hc eq_refl) as H1.
  split.
  - assert (Hfirst : Server.get_booking W fuel booking_number s
                     = Server.get_booking W fuel booking_number s1).
    { unfold Server.get_booking.
      rewrite (bindM_ret _ _ _ _ _ Hc), (bindM_ret _ _ _ _ _ H1). reflexivity. }
    rewrite Hfirst.
    set (s2 := snd (Server.get_booking W fuel booking_number s1)).
    assert (H2 : Server.get_client W s2 = (Ret c, s2)).
    { apply (get_client_after c s s1 s2 Hc). unfold s2, Server.get_booking.
      rewrite (bindM_ret _ _ _ _ _ H1).
      apply try_except_client, bind_lift_client, request_loop_keeps_client. }
    unfold Server.get_booking.
    rewrite (bindM_ret _ _ _ _ _ H2), (bindM_ret _ _ _ _ _ H1).
    apply try_except_fst, bind_lift_fst, request_loop_stateless. exact Hst.
  - assert (Hfirst : Server.get_booking_payments W fuel booking_number s
                     = Server.get_booking_payments W fuel booking_number s1).
    { unfold Server.get_booking_payments.
      rewrite (bindM_ret _ _ _ _ _ Hc), (bindM_ret _ _ _ _ _ H1). reflexivity. }
    rewrite Hfirst.
    set (s2 := snd (Server.get_booking_payments W fuel booking_number s1)).
    assert (H2 : Server.get_client W s2 = (Ret c, s2)).
    { apply (get_client_after c s s1 s2 Hc). unfold s2, Server.get_booking_payments.
      rewrite (bindM_ret _ _ _ _ _ H1).
      apply try_except_client, bind_lift_client.
      unfold BookeoClient.get_booking_payments.
      apply bind_lift_client, request_loop_keeps_client. }
    unfold Server.get_booking_payments.
    rewrite (bindM_ret _ _ _ _ _ H2), (bindM_ret _ _ _ _ _ H1).
    apply try_except_fst, bind_lift_fst.
    unfold BookeoClient.get_booking_payments.
    apply bind_lift_fst, request_loop_stateless. exact Hst.
Qed.

End Idempotence.

(** ** The dates of [search_bookings_by_date] *)

Section Dates.
Context `{Runtime} (W : world).

(** [strptime] gives the midnight of a day or raises [ValueError]. *)
Lemma strptime_outcome s :
  (exists y m d, strptime_ymd s = Ret (midnight y m d))
  \/ (exists msg, strptime_ymd s = Raise (ValueError msg)).
Proof.
  unfold strptime_ymd.
  destruct (parse_year s) as [[y s1]|]; [|right; eauto].
  destruct (expect_dash s1) as [s2|]; [|right; eauto].
  destruct (parse_month s2) as [[m s3]|]; [|right; eauto].
  destruct (expect_dash s3) as [s4|]; [|right; eauto].
  destruct (parse_day s4) as [[d [|c r]]|]; try solve [right; eauto].
  destruct (y <? 1); [right; eauto|].
  destruct (days_in_month y m <? d); [right; eauto|].
  left; eauto.
Qed.

Lemma strptime_midnight s d :
  strptime_ymd s = Ret d ->
  hour d = 0 /\ minute d = 0 /\ second d = 0 /\ microsecond d = 0.
Proof.
  intros E. destruct (strptime_outcome s) as [[y [m [dd E']]]|[msg E']];
    rewrite E' in E; [|discriminate].
  injection E as <-. repeat split.
Qed.

(** The span the range check looks at, in whole days. *)
Lemma span_of_days st en :
  hour st = 0 -> minute st = 0 -> second st = 0 -> microsecond st = 0 ->
  hour en = 0 -> minute en = 0 -> second en = 0 -> microsecond en = 0 ->
  days_between (add_days en 1) st = ordinal en + 1 - ordinal st.
Proof.
  intros Hh Hm Hs Hu Hh' Hm' Hs' Hu'.
  unfold days_between, total_us, US_PER_DAY. simpl.
  rewrite Hh, Hm, Hs, Hu, Hh', Hm', Hs', Hu'.
  match goal with
  | |- ?a / ?b = ?c => replace a with (c * b) by lia
  end.
  apply Z.div_mul. lia.
Qed.

Lemma search_bookings_empty {A} (body : A -> json -> res A) self ec ic fuel
    st en acc s :
  le en st ->
  BookeoClient.search_bookings W body self ec ic fuel st en acc s = (Ret acc, s).
Proof.
  intros Hle. unfold BookeoClient.search_bookings, BookeoClient.turns_for.
  rewrite Nat.add_comm. cbn [Nat.add BookeoClient.chunk_loop].
  unfold le in Hle. rewrite Hle. reflexivity.
Qed.

(** X8: when either date is an ASCII text that is not a date in the form
    year-month-day (the start date is read first),
    [search_bookings_by_date] returns the format-error payload; the client
    is not built, nothing is sent, and the state is as it was.  (Beyond
    ASCII, [strptime] also reads the other decimal digits of Unicode, which
    [strptime_ymd] does not.) *)
Theorem unreadable_dates_are_rejected (fuel : nat) (start_date end_date : string)
    (include_canceled : bool) (s : state) :
  (is_ascii start_date = true /\ forall d, strptime_ymd start_date <> Ret d)
  \/ (is_ascii end_date = true /\ forall d, strptime_ymd end_date <> Ret d) ->
  Server.search_bookings_by_date W fuel start_date end_date include_canceled s
  = (Ret (JList [JDict [("error", JStr "Invalid date format. Use YYYY-MM-DD")]]), s).
Proof.
  intros Hbad. unfold Server.search_bookings_by_date, Server.parse_window.
  destruct (strptime_outcome start_date) as [[y [m [d E]]]|[msg E]]; rewrite E.
  - destruct Hbad as [[_ Hbad]|[_ Hbad]]; [exfalso; exact (Hbad _ E)|].
    destruct (strptime_outcome end_date) as [[y' [m' [d' E']]]|[msg' E']];
      [exfalso; exact (Hbad _ E')|].
    cbn [Py.bind]. rewrite E'. reflexivity.
  - reflexivity.
Qed.

(** X9: a range whose end date is before its start date is not an error:
    the window is empty or inverted, so the result is the empty list and
    nothing is sent. *)
Theorem inverted_range_gives_nothing (fuel : nat) (start_date end_date : string)
    (include_canceled : bool) (s s1 : state) (c : BookeoClient)
    (start_time end_day : datetime) :
  strptime_ymd start_date = Ret start_time ->
  strptime_ymd end_date = Ret end_day ->
  ordinal end_day < ordinal start_time ->
  Server.get_client W s = (Ret c, s1) ->
  Server.search_bookings_by_date W fuel start_date end_date include_canceled s
  = (Ret (JList []), s1).
Proof.
  intros Hs He Hbefore Hc.
  destruct (strptime_midnight _ _ Hs) as [Hh [Hm [Hsec Hus]]].
  destruct (strptime_midnight _ _ He) as [Hh' [Hm' [Hsec' Hus']]].
  unfold Server.search_bookings_by_date, Server.parse_window.
  rewrite Hs, He. cbn [Py.bind].
  rewrite span_of_days by assumption.
  assert (Hguard : (366 <? ordinal end_day + 1 - ordinal start_time) = false)
    by (apply Z.ltb_ge; lia).
  rewrite Hguard. rewrite (bindM_ret _ _ _ _ _ Hc).
  unfold bindM. rewrite search_bookings_empty; [reflexivity|].
  order_prep. lia.
Qed.

End Dates.

(** ** How many chunks, and what their request windows share *)

Section ChunkFacts.
Import BookeoClient.

Lemma chunks_from_count fuel : forall cs n,
  0 <= n -> n + 2 <= Z.of_nat fuel ->
  List.length (chunks_from fuel cs (add_days cs n)) = Z.to_nat ((n + 29) / 30).
Proof.
  induction fuel as [|fuel IH]; intros cs n Hn Hfuel; [lia|].
  rewrite chunks_from_S.
  destruct (Z.eq_dec n 0) as [->|Hpos].
  - assert (E : ltb cs (add_days cs 0) = false) by (order_prep; lia).
    rewrite E. reflexivity.
  - assert (E : ltb cs (add_days cs n) = true) by (apply lt_add_days; lia).
    rewrite E.
    destruct (min_cases (add_days cs 30) (add_days cs n)) as [[Hm ->]|[Hm ->]].
    + rewrite chunks_from_same. cbn [List.length].
      assert (n < 30) by (order_prep; lia).
      replace ((n + 29) / 30) with 1; [reflexivity|].
      apply Z.div_unique with (r := n - 1); lia.
    + assert (30 <= n) by (order_prep; lia).
      assert (Hshift : add_days cs n = add_days (add_days cs 30) (n - 30)).
      { apply datetime_eq; simpl; lia. }
      rewrite Hshift at 1. cbn [List.length].
      rewrite IH by lia.
      replace (n + 29) with ((n - 30 + 29) + 1 * 30) by lia.
      rewrite Z.div_add by lia.
      rewrite Z2Nat.inj_add; [|apply Z.div_pos; lia|lia].
      rewrite Nat.add_comm. reflexivity.
Qed.

(** In a roomy window, empty or not, every sum of the loop is a
    [datetime]. *)
Lemma chunks_sums start_time end_time :
  roomy start_time end_time ->
  Forall (fun c => plus_days (fst c) 30 = Ret (add_days (fst c) 30))
         (chunks start_time end_time).
Proof.
  intros Hroom.
  destruct (lt_or_le start_time end_time) as [Hlt|Hle].
  - apply (tiles_sums start_time end_time); [|assumption].
    apply chunks_from_tiles; [assumption|apply turns_for_enough].
  - unfold chunks, turns_for. rewrite Nat.add_comm. cbn [Nat.add].
    rewrite chunks_from_S. unfold le in Hle. rewrite Hle. constructor.
Qed.

(** X10: a window of [n] whole days around which the loop can add its 30
    days ([roomy]) is cut into [n / 30] chunks, rounded up, and none of
    the sums [current_start + timedelta(days=30)] raises [OverflowError];
    the windows that [search_bookings_by_date] lets through, of at most
    366 days, are cut into at most 13. *)
Theorem chunk_count (start_time : datetime) (n : Z) :
  0 < n ->
  roomy start_time (add_days start_time n) ->
  List.length (chunks start_time (add_days start_time n))
  = Z.to_nat ((n + 29) / 30)
  /\ Forall (fun c => plus_days (fst c) 30 = Ret (add_days (fst c) 30))
            (chunks start_time (add_days start_time n))
  /\ (n <= 366 ->
      (List.length (chunks start_time (add_days start_time n)) <= 13)%nat).
Proof.
  intros Hn Hroom.
  assert (E : List.length (chunks start_time (add_days start_time n))
              = Z.to_nat ((n + 29) / 30)).
  { unfold chunks. apply chunks_from_count; [lia|].
    unfold turns_for. simpl. lia. }
  split; [exact E|]. split; [apply chunks_sums; exact Hroom|].
  intros Hmax. rewrite E.
  assert ((n + 29) / 30 < 14).
  { apply Z.div_lt_upper_bound; lia. }
  set (k := (n + 29) / 30) in *. clearbody k. lia.
Qed.

Lemma astimezone_lt (tz : tzinfo) a b :
  microsecond a = microsecond b ->
  ((ordinal a * 24 + hour a) * 60 + minute a) * 60 + second a - tz a
  < ((ordinal b * 24 + hour b) * 60 + minute b) * 60 + second b - tz b ->
  lt (astimezone_utc tz a) (astimezone_utc tz b).
Proof.
  intros Hus Hlt. unfold lt. rewrite ltb_true_iff. unfold astimezone_utc. simpl.
  set (x := ((ordinal a * 24 + hour a) * 60 + minute a) * 60 + second a - tz a) in *.
  set (y := ((ordinal b * 24 + hour b) * 60 + minute b) * 60 + second b - tz b) in *.
  clearbody x y. Z.to_euclidean_division_equations. lia.
Qed.

Lemma chunks_tiles start_time end_time i c :
  nth_error (chunks start_time end_time) i = Some c ->
  tiles start_time end_time (chunks start_time end_time).
Proof.
  intros Hc. apply chunks_from_tiles; [|apply turns_for_enough].
  destruct (lt_or_le start_time end_time) as [Hlt|Hle]; [assumption|].
  exfalso. unfold chunks, turns_for in Hc. rewrite Nat.add_comm in Hc.
  cbn [Nat.add] in Hc. rewrite chunks_from_S in Hc.
  unfold le in Hle. rewrite Hle in Hc. destruct i; discriminate.
Qed.

(** X11: the request windows of two chunks that follow one another
    overlap.  The later chunk starts at the instant the earlier one ends,
    but its request window starts at 00:00:00 of that day and the request
    window of the earlier chunk ends at 23:59:59 of the same day; so, in
    any zone whose offset does not fall by a whole day within that day, the
    later request window starts before the earlier one ends. *)
Theorem consecutive_windows_overlap (W : world) (start_time end_time : datetime)
    (i : nat) (c d : datetime * datetime) :
  nth_error (chunks start_time end_time) i = Some c ->
  nth_error (chunks start_time end_time) (S i) = Some d ->
  local_zone W (replace_hms (snd c) 23 59 59)
  - local_zone W (replace_hms (snd c) 0 0 0) < 86399 ->
  fst d = snd c
  /\ lt (window_start W (fst d)) (window_end W (snd c)).
Proof.
  intros Hc Hd Hzone.
  pose proof (chunks_tiles _ _ _ _ Hc) as T.
  pose proof (tiles_contiguous _ _ _ T i c d Hc Hd) as Hjoin.
  split; [symmetry; exact Hjoin|].
  rewrite <- Hjoin. unfold window_start, window_end.
  apply astimezone_lt; [reflexivity|]. simpl. lia.
Qed.

End ChunkFacts.

(** ** What a search can return *)

Section Shape.
Context `{Runtime} (W : world).

Lemma returns_only_lift {A} (P : A -> Prop) (r : res A) :
  (forall a, r = Ret a -> P a) -> returns_only P (lift r).
Proof. intros Hr s a E. apply Hr. exact E. Qed.

Lemma returns_only_ret {A} (P : A -> Prop) (a : A) : P a -> returns_only P (ret a).
Proof. intros Ha s b E. injection E as <-. exact Ha. Qed.

Lemma returns_only_bind {A B} (Q : A -> Prop) (P : B -> Prop) (m : M A) (k : A -> M B) :
  returns_only Q m -> (forall a, Q a -> returns_only P (k a)) ->
  returns_only P (bindM m k).
Proof.
  intros Hm Hk s b. unfold bindM.
  pose proof (Hm s) as Hq.
  destruct (m s) as [[a| |] s1]; simpl in *; try discriminate.
  intros E. exact (Hk a (Hq a eq_refl) s1 b E).
Qed.

Lemma returns_only_any {A} (m : M A) : returns_only (fun _ => True) m.
Proof. intros s a _. exact I. Qed.

Lemma for_each_invariant {A} (P : A -> Prop) (body : A -> json -> res A) :
  (forall acc b acc', P acc -> body acc b = Ret acc' -> P acc') ->
  forall items acc out, P acc -> BookeoClient.for_each body items acc = Ret out -> P out.
Proof.
  intros Hbody. induction items as [|x r IH]; intros acc out Hacc E; simpl in E.
  - injection E as <-. exact Hacc.
  - destruct (body acc x) as [acc'| |] eqn:Ex; try discriminate.
    simpl in E. apply (IH acc' out); [|exact E]. exact (Hbody _ _ _ Hacc Ex).
Qed.

Section Accumulator.
Context {A : Type} (P : A -> Prop) (body : A -> json -> res A).
Hypothesis body_keeps : forall acc b acc', P acc -> body acc b = Ret acc' -> P acc'.
Variables (self : BookeoClient) (ec ic : bool).

Lemma pages_invariant : forall fuel su eu tok num acc,
  P acc -> returns_only P (BookeoClient.pages W body self ec ic fuel su eu tok num acc).
Proof.
  induction fuel as [|fuel IH]; intros su eu tok num acc Hacc.
  - intros s a E. discriminate.
  - cbn [BookeoClient.pages].
    apply (returns_only_bind (fun _ => True)); [apply returns_only_any|]. intros data _.
    apply (returns_only_bind (fun _ => True)); [apply returns_only_any|].
    intros bookings _.
    apply (returns_only_bind P).
    { apply returns_only_lift. intros out E.
      exact (for_each_invariant P body body_keeps _ _ _ Hacc E). }
    intros acc' Hacc'.
    apply (returns_only_bind (fun _ => True)); [apply returns_only_any|]. intros paging _.
    apply (returns_only_bind (fun _ => True)); [apply returns_only_any|]. intros next _.
    destruct (truthy next); [|apply returns_only_ret; exact Hacc'].
    apply (returns_only_bind (fun _ => True)); [apply returns_only_any|]. intros tok' _.
    apply (returns_only_bind (fun _ => True)); [apply returns_only_any|]. intros num' _.
    apply IH. exact Hacc'.
Qed.

Lemma chunk_loop_invariant fuel : forall turns cs e acc,
  P acc -> returns_only P (BookeoClient.chunk_loop W body self ec ic turns fuel cs e acc).
Proof.
  induction turns as [|turns IH]; intros cs e acc Hacc.
  - intros s a E. discriminate.
  - cbn [BookeoClient.chunk_loop].
    destruct (ltb cs e); [|apply returns_only_ret; exact Hacc].
    apply (returns_only_bind P).
    + unfold BookeoClient.one_chunk.
      apply (returns_only_bind P); [apply pages_invariant; exact Hacc|].
      intros acc' Hacc'.
      apply (returns_only_bind (fun _ => True)); [apply returns_only_any|].
      intros _ _. apply returns_only_ret. exact Hacc'.
    + intros acc' Hacc'. apply IH. exact Hacc'.
Qed.

(** What the consumer keeps true of its accumulator holds of the value of
    the search. *)
Lemma search_invariant fuel st en acc :
  P acc ->
  returns_only P (BookeoClient.search_bookings W body self ec ic fuel st en acc).
Proof. intros Hacc. apply chunk_loop_invariant. exact Hacc. Qed.

End Accumulator.

Lemma summary_is_summary booking customer item :
  Server.summary booking customer = Ret item -> is_summary item.
Proof.
  unfold Server.summary. intros E.
  destruct (get booking "bookingNumber" JNull) as [number| |]; try discriminate.
  cbn [Py.bind] in E.
  destruct (get booking "startTime" JNull) as [start| |]; try discriminate.
  cbn [Py.bind] in E.
  destruct (get booking "productName" JNull) as [product| |]; try discriminate.
  cbn [Py.bind] in E.
  destruct (Server.format_participants booking) as [participants| |]; try discriminate.
  cbn [Py.bind] in E.
  destruct (Server.format_price booking) as [price| |]; try discriminate.
  cbn [Py.bind] in E. injection E as <-.
  exists number, start, product, customer, participants, price. reflexivity.
Qed.

Lemma keep_summaries acc b acc' :
  Forall is_summary acc -> Server.keep acc b = Ret acc' -> Forall is_summary acc'.
Proof.
  unfold Server.keep. intros Hacc E.
  destruct (Server.format_customer b) as [customer| |]; try discriminate.
  cbn [Py.bind] in E.
  destruct (Server.summary b customer) as [item| |] eqn:Ei; try discriminate.
  cbn [Py.bind] in E. injection E as <-.
  apply Forall_app. split; [assumption|].
  constructor; [|constructor]. exact (summary_is_summary _ _ _ Ei).
Qed.

Lemma keep_if_match_summaries n e acc b acc' :
  Forall is_summary acc -> Server.keep_if_match n e acc b = Ret acc' ->
  Forall is_summary acc'.
Proof.
  unfold Server.keep_if_match. intros Hacc E.
  destruct (Server.format_customer b) as [customer| |]; try discriminate.
  cbn [Py.bind] in E.
  destruct (Server.fragment_match n _) as [nm| |]; try discriminate.
  cbn [Py.bind] in E.
  destruct (Server.fragment_match e _) as [em| |]; try discriminate.
  cbn [Py.bind] in E.
  destruct (nm || em).
  - destruct (Server.summary b customer) as [item| |] eqn:Ei; try discriminate.
    cbn [Py.bind] in E. injection E as <-.
    apply Forall_app. split; [assumption|].
    constructor; [|constructor]. exact (summary_is_summary _ _ _ Ei).
  - injection E as <-. assumption.
Qed.

Lemma listed_summaries (body : list json -> json -> res (list json))
    ec ic fuel st en :
  (forall acc b acc', Forall is_summary acc -> body acc b = Ret acc' ->
                      Forall is_summary acc') ->
  returns_only (fun out => exists items, out = JList items /\ Forall is_summary items)
    (bindM (Server.get_client W)
       (fun client =>
          bindM (BookeoClient.search_bookings W body client ec ic fuel st en [])
                (fun results => ret (JList results)))).
Proof.
  intros Hbody.
  apply (returns_only_bind (fun _ => True)); [apply returns_only_any|].
  intros c _.
  apply (returns_only_bind (Forall is_summary)).
  - apply search_invariant; [exact Hbody|constructor].
  - intros items Hitems. apply returns_only_ret. eauto.
Qed.

(** X12: what the two searches return is a list, and it is either a single
    error payload (a validation error) or a list in which every element is
    the summary of a booking, with its six keys; an error payload never
    stands among summaries. *)
Theorem searches_return_errors_or_summaries (fuel : nat)
    (start_date end_date customer_name customer_email : string)
    (include_canceled : bool) (days_back : Z) :
  returns_only
    (fun out =>
       out = JList [JDict [("error", JStr "Invalid date format. Use YYYY-MM-DD")]]
       \/ out = JList [JDict [("error", JStr "Date range cannot exceed 365 days")]]
       \/ exists items, out = JList items /\ Forall is_summary items)
    (Server.search_bookings_by_date W fuel start_date end_date include_canceled)
  /\ returns_only
       (fun out =>
          out = JList [JDict [("error",
                 JStr "Must provide either customer_name or customer_email")]]
          \/ exists items, out = JList items /\ Forall is_summary items)
       (Server.search_bookings_by_customer W fuel customer_name customer_email
          days_back).
Proof.
  split.
  - unfold Server.search_bookings_by_date.
    destruct (Server.parse_window start_date end_date) as [[st en]|e|].
    + destruct (366 <? days_between en st).
      * apply returns_only_ret. right; left; reflexivity.
      * intros s a E. right; right.
        exact (listed_summaries Server.keep true include_canceled fuel st en
                 keep_summaries s a E).
    + destruct e; try (intros s a E; discriminate).
      apply returns_only_ret. left; reflexivity.
    + intros s a E; discriminate.
  - unfold Server.search_bookings_by_customer.
    destruct (is_empty customer_name && is_empty customer_email).
    + apply returns_only_ret. left; reflexivity.
    + intros s a E. right.
      exact (listed_summaries _ true false fuel _ _
               (keep_if_match_summaries _ _) s a E).
Qed.

(** X13: for two dates that parse, the end date having a next day
    [end_time] in the calendar (every end date but 9999-12-31), the span
    the range check measures is one more than the number of days from the
    start date to the end date, so that the range-error payload is returned
    exactly when the end date is more than 365 days after the start date.
    A range of 366 days counted with both ends, a whole leap year,
    passes. *)
Theorem range_is_rejected_beyond_365_days (fuel : nat) (start_date end_date : string)
    (include_canceled : bool) (s : state) (start_time end_day end_time : datetime) :
  strptime_ymd start_date = Ret start_time ->
  strptime_ymd end_date = Ret end_day ->
  plus_days end_day 1 = Ret end_time ->
  days_between end_time start_time = ordinal end_day - ordinal start_time + 1
  /\ (fst (Server.search_bookings_by_date W fuel start_date end_date
             include_canceled s)
      = Ret (JList [JDict [("error", JStr "Date range cannot exceed 365 days")]])
      <-> 365 < ordinal end_day - ordinal start_time).
Proof.
  intros Hs He Hsum.
  apply plus_days_ret in Hsum. destruct Hsum as [-> _].
  destruct (strptime_midnight _ _ Hs) as [Hh [Hm [Hsec Hus]]].
  destruct (strptime_midnight _ _ He) as [Hh' [Hm' [Hsec' Hus']]].
  pose proof (span_of_days start_time end_day Hh Hm Hsec Hus Hh' Hm' Hsec' Hus')
    as Hspan.
  split; [lia|].
  split.
  - intros E.
    destruct (Z.lt_ge_cases 365 (ordinal end_day - ordinal start_time)) as [|Hsmall];
      [assumption|exfalso].
    assert (Hguard : (366 <? days_between (add_days end_day 1) start_time) = false)
      by (apply Z.ltb_ge; lia).
    assert (Hshape : exists items,
               JList [JDict [("error", JStr "Date range cannot exceed 365 days")]]
               = JList items /\ Forall is_summary items).
    { revert E. unfold Server.search_bookings_by_date, Server.parse_window.
      rewrite Hs, He. cbn [Py.bind]. rewrite Hguard. intros E.
      exact (listed_summaries Server.keep true include_canceled fuel _ _
               keep_summaries s _ E). }
    destruct Hshape as [items [Eitems Hall]]. injection Eitems as <-.
    inversion Hall as [|x l [n [st [p [cu [pa [pr Ex]]]]]] _]. discriminate.
  - intros Hbig.
    unfold Server.search_bookings_by_date, Server.parse_window.
    rewrite Hs, He. cbn [Py.bind].
    assert (Hguard : (366 <? days_between (add_days end_day 1) start_time) = true)
      by (apply Z.ltb_lt; lia).
    rewrite Hguard. reflexivity.
Qed.

End Shape.

(** ** A whole search *)

Section WholeSearch.
Context (W : world) {A : Type} (consume : A -> json -> res A).
Variables (self : BookeoClient) (ec ic : bool).

Local Abbreviation asks su eu tok num :=
  (BookeoClient.authenticated self "/bookings"
     (Some (BookeoClient.search_params ec ic su eu tok num))).

Lemma for_each_app (l1 l2 : list json) : forall acc,
  BookeoClient.for_each consume (l1 ++ l2) acc
  = Py.bind (BookeoClient.for_each consume l1 acc)
            (BookeoClient.for_each consume l2).
Proof.
  induction l1 as [|x l1 IH]; intros acc; [reflexivity|].
  simpl. destruct (consume acc x); simpl; [apply IH|reflexivity|reflexivity].
Qed.

(** The first page of a window, up to the consumer. *)
Lemma pages_first_page fuel su eu tok num acc s r d rs :
  net W (trace s) (asks su eu tok num) = Answer r ->
  BookeoClient.is_success r = true -> body r = Some d ->
  records_of d = Ret rs ->
  BookeoClient.pages W consume self ec ic (S fuel) su eu tok num acc s
  = match BookeoClient.for_each consume rs acc with
    | Ret acc1 =>
        bindM (lift (Py.bind (get d "info" (JDict []))
                             (fun info => get info "paging" (JDict []))))
          (fun paging =>
             bindM (lift (get paging "nextPageURL" JNull))
               (fun next =>
                  if truthy next then
                    bindM (lift (get paging "pageNavigationToken" JNull))
                      (fun page_token =>
                         bindM (lift (Py.bind (get paging "currentPage" (JInt 1))
                                              (fun current => add current (JInt 1))))
                           (fun page_number =>
                              BookeoClient.pages W consume self ec ic fuel su eu
                                page_token page_number acc1))
                  else ret acc1))
          (with_trace s (trace s ++ [Get (asks su eu tok num)]))
    | Raise e => (Raise e, with_trace s (trace s ++ [Get (asks su eu tok num)]))
    | OutOfFuel => (OutOfFuel, with_trace s (trace s ++ [Get (asks su eu tok num)]))
    end.
Proof.
  intros Hnet Hok Hbody Hrec.
  cbn [BookeoClient.pages]. unfold BookeoClient._request.
  rewrite (bindM_ret _ _ _ _ _ (request_answered W fuel _ s r d Hnet Hok Hbody)).
  unfold records_of, Py.bind in Hrec.
  unfold bindM at 1, lift at 1, Py.bind at 1. rewrite Hrec.
  unfold bindM at 1, lift at 1.
  destruct (BookeoClient.for_each consume rs acc); reflexivity.
Qed.

Lemma one_chunk_single fuel c acc acc1 s r d rs :
  net W (trace s)
      (first_request self ec ic (BookeoClient.window_start W (fst c))
                     (BookeoClient.window_end W (snd c))) = Answer r ->
  BookeoClient.is_success r = true -> body r = Some d ->
  records_of d = Ret rs -> ends_listing d ->
  BookeoClient.for_each consume rs acc = Ret acc1 ->
  BookeoClient.one_chunk W consume self ec ic (S fuel) (fst c) (snd c) acc s
  = (Ret acc1, with_trace s (trace s ++ chunk_events W self ec ic c)).
Proof.
  intros Hnet Hok Hbody Hrec [paging [next [Hpaging [Hnext Hfalse]]]] Heach.
  rewrite <- asks_first in Hnet.
  unfold BookeoClient.one_chunk. unfold bindM at 1.
  rewrite (pages_first_page fuel _ _ JNull JNull acc s r d rs Hnet Hok Hbody Hrec).
  rewrite Heach. unfold paging_of, Py.bind in Hpaging.
  unfold bindM, lift, Py.bind, sleep, ret. rewrite Hpaging, Hnext, Hfalse.
  unfold chunk_events, with_trace, log. cbn [trace the_client].
  rewrite asks_first, <- app_assoc. reflexivity.
Qed.

Lemma over_chunks_single fuel : forall cs (docs : list (json * list json)) acc out s,
  List.length docs = List.length cs ->
  Forall (fun d => records_of (fst d) = Ret (snd d) /\ ends_listing (fst d)) docs ->
  (forall k c d, nth_error cs k = Some c -> nth_error docs k = Some d ->
     exists r,
       net W (trace s ++ flat_map (chunk_events W self ec ic) (firstn k cs))
           (first_request self ec ic (BookeoClient.window_start W (fst c))
                          (BookeoClient.window_end W (snd c))) = Answer r
       /\ BookeoClient.is_success r = true /\ body r = Some (fst d)) ->
  BookeoClient.for_each consume (flat_map snd docs) acc = Ret out ->
  BookeoClient.over_chunks W consume self ec ic (S fuel) cs acc s
  = (Ret out, with_trace s (trace s ++ flat_map (chunk_events W self ec ic) cs)).
Proof.
  induction cs as [|c cs IH]; intros docs acc out s Hlen Hdocs Hscript Heach.
  - destruct docs; [|discriminate]. simpl in Heach. injection Heach as <-.
    simpl. unfold ret, with_trace. rewrite app_nil_r. destruct s; reflexivity.
  - destruct docs as [|d docs]; [discriminate|].
    inversion Hdocs as [|d' docs' [Hrec Hend] Hrest]; subst.
    destruct (Hscript 0%nat c d eq_refl eq_refl) as [r [Hnet [Hok Hbody]]].
    simpl in Hnet. rewrite app_nil_r in Hnet.
    cbn [flat_map] in Heach. rewrite for_each_app in Heach.
    destruct (BookeoClient.for_each consume (snd d) acc) as [acc1| |] eqn:E1;
      try discriminate.
    cbn [Py.bind] in Heach.
    destruct c as [a b]. cbn [BookeoClient.over_chunks].
    rewrite (bindM_ret _ _ _ _ _
               (one_chunk_single fuel (a, b) acc acc1 s r (fst d) (snd d)
                  Hnet Hok Hbody Hrec Hend E1)).
    rewrite (IH docs acc1 out).
    + unfold with_trace. cbn [trace the_client flat_map].
      rewrite <- app_assoc. reflexivity.
    + simpl in Hlen. lia.
    + assumption.
    + intros k c' d' Hc' Hd'.
      destruct (Hscript (S k) c' d' Hc' Hd') as [r' [Hnet' H']].
      exists r'. split; [|exact H'].
      cbn [with_trace trace]. cbn [firstn flat_map] in Hnet'.
      rewrite <- app_assoc. exact Hnet'.
    + exact Heach.
Qed.

(** X14: in a window around which the loop can add its 30 days ([roomy]:
    none of its sums raises [OverflowError]), when every chunk has a
    single page, the search sends one request per chunk, in the order of the chunks and each
    followed by the courtesy pause, and nothing else; what it hands to the
    consumer is the bookings of the first chunk, then those of the second,
    and so on. *)
Theorem search_of_single_pages (fuel : nat) (start_time end_time : datetime)
    (docs : list (json * list json)) (acc out : A) (s : state) :
  let cs := BookeoClient.chunks start_time end_time in
  roomy start_time end_time ->
  List.length docs = List.length cs ->
  Forall (fun d => records_of (fst d) = Ret (snd d) /\ ends_listing (fst d)) docs ->
  (forall k c d, nth_error cs k = Some c -> nth_error docs k = Some d ->
     exists r,
       net W (trace s ++ flat_map (chunk_events W self ec ic) (firstn k cs))
           (first_request self ec ic (BookeoClient.window_start W (fst c))
                          (BookeoClient.window_end W (snd c))) = Answer r
       /\ BookeoClient.is_success r = true /\ body r = Some (fst d)) ->
  BookeoClient.for_each consume (flat_map snd docs) acc = Ret out ->
  (0 < fuel)%nat ->
  Forall (fun c => plus_days (fst c) 30 = Ret (add_days (fst c) 30)) cs
  /\ BookeoClient.search_bookings W consume self ec ic fuel start_time end_time acc s
     = (Ret out, with_trace s (trace s ++ flat_map (chunk_events W self ec ic) cs)).
Proof.
  intros cs Hroom Hlen Hdocs Hscript Heach Hfuel.
  split; [apply chunks_sums; exact Hroom|].
  destruct fuel as [|fuel]; [lia|].
  unfold BookeoClient.search_bookings.
  rewrite chunk_loop_over_chunks.
  - apply (over_chunks_single fuel cs docs); assumption.
  - unfold BookeoClient.turns_for; lia.
  - right; apply turns_for_enough.
Qed.


End WholeSearch.

(** ** A next page without a cursor *)

Section NoCursor.
Variables (W : world) (self : BookeoClient) (ec ic : bool) (su eu : datetime).

Local Abbreviation asks tok num :=
  (BookeoClient.authenticated self "/bookings"
     (Some (BookeoClient.search_params ec ic su eu tok num))).

Lemma asks_without_token tok num :
  truthy tok = false -> asks tok num = first_request self ec ic su eu.
Proof.
  intros Hf. unfold BookeoClient.search_params. rewrite Hf.
  destruct ec, ic; reflexivity.
Qed.

Lemma pages_without_cursor (q := first_request self ec ic su eu) d rs dl rl :
  records_of d = Ret rs -> announces_without_token d ->
  records_of dl = Ret rl -> ends_listing dl ->
  forall n fuel tok num acc s,
  truthy tok = false ->
  (forall k, (k < n)%nat ->
     exists r, net W (trace s ++ repeat (Get q) k) q = Answer r
               /\ BookeoClient.is_success r = true /\ body r = Some d) ->
  (exists r, net W (trace s ++ repeat (Get q) n) q = Answer r
             /\ BookeoClient.is_success r = true /\ body r = Some dl) ->
  (n < fuel)%nat ->
  BookeoClient.pages W collect self ec ic fuel su eu tok num acc s
  = (Ret (acc ++ List.concat (repeat rs n) ++ rl),
     with_trace s (trace s ++ repeat (Get q) (S n))).
Proof.
  subst q.
  intros Hrec Hann Hrecl [pagingl [nextl [Hpagingl [Hnextl Hfalsel]]]].
  destruct Hann as [paging [next [tok' [current [number
                      [Hpaging [Hnext [Htrue [Htok [Hnotok [Hcur Hnum]]]]]]]]]]].
  unfold paging_of, Py.bind in Hpaging, Hpagingl.
  induction n as [|n IH]; intros fuel tok num acc s Htokf Hsame Hlast Hfuel.
  - destruct fuel as [|fuel]; [lia|].
    destruct Hlast as [r [Hnet [Hok Hbody]]].
    simpl in Hnet. rewrite app_nil_r in Hnet.
    rewrite <- (asks_without_token tok num Htokf) in Hnet.
    rewrite (pages_first_page W collect self ec ic fuel su eu tok num acc s r dl rl
               Hnet Hok Hbody Hrecl).
    rewrite for_each_collect. unfold bindM, lift, Py.bind, ret.
    rewrite Hpagingl, Hnextl, Hfalsel.
    rewrite (asks_without_token tok num Htokf). reflexivity.
  - destruct fuel as [|fuel]; [lia|].
    destruct (Hsame 0%nat) as [r [Hnet [Hok Hbody]]]; [lia|].
    simpl in Hnet. rewrite app_nil_r in Hnet.
    rewrite <- (asks_without_token tok num Htokf) in Hnet.
    rewrite (pages_first_page W collect self ec ic fuel su eu tok num acc s r d rs
               Hnet Hok Hbody Hrec).
    rewrite for_each_collect.
    unfold bindM at 1, lift at 1, Py.bind at 1. rewrite Hpaging.
    unfold bindM at 1, lift at 1. rewrite Hnext, Htrue.
    unfold bindM at 1, lift at 1. rewrite Htok.
    unfold bindM at 1, lift at 1, Py.bind at 1. rewrite Hcur. rewrite Hnum.
    rewrite (asks_without_token tok num Htokf).
    rewrite (IH fuel tok' number (acc ++ rs)); [| exact Hnotok | | | lia].
    + unfold with_trace. cbn [trace the_client List.concat repeat].
      rewrite <- !app_assoc. reflexivity.
    + intros k Hk. destruct (Hsame (S k)) as [r' [Hnet' H']]; [lia|].
      exists r'. split; [|exact H']. cbn [with_trace trace].
      cbn [repeat] in Hnet'. rewrite <- app_assoc. exact Hnet'.
    + destruct Hlast as [r' [Hnet' H']].
      exists r'. split; [|exact H']. cbn [with_trace trace].
      cbn [repeat] in Hnet'. rewrite <- app_assoc. exact Hnet'.
Qed.

(** X16: a page that announces a next page but returns no cursor token
    makes the client ask for the first page again: the request that follows
    carries neither token nor page number and is the very request that
    opened the chunk.  As long as the service answers it with that page,
    the bookings of the page are handed out again, once per answer; the
    chunk ends at the first answer that announces no next page. *)
Theorem page_without_cursor_is_fetched_again (fuel n : nat)
    (d dl : json) (rs rl acc : list json) (s : state) :
  let q := first_request self ec ic su eu in
  records_of d = Ret rs -> announces_without_token d ->
  records_of dl = Ret rl -> ends_listing dl ->
  (forall k, (k < n)%nat ->
     exists r, net W (trace s ++ repeat (Get q) k) q = Answer r
               /\ BookeoClient.is_success r = true /\ body r = Some d) ->
  (exists r, net W (trace s ++ repeat (Get q) n) q = Answer r
             /\ BookeoClient.is_success r = true /\ body r = Some dl) ->
  (n < fuel)%nat ->
  BookeoClient.pages W collect self ec ic fuel su eu JNull JNull acc s
  = (Ret (acc ++ List.concat (repeat rs n) ++ rl),
     with_trace s (trace s ++ repeat (Get q) (S n))).
Proof.
  intros q Hrec Hann Hrecl Hend Hsame Hlast Hfuel.
  apply (pages_without_cursor d rs dl rl Hrec Hann Hrecl Hend n fuel JNull JNull acc s);
    [reflexivity|assumption|assumption|assumption].
Qed.

End NoCursor.

(** ** The customer search *)

Section CustomerSearch.
Context `{Runtime} (W : world).

Lemma lower_ascii_idem c : lower_ascii (lower_ascii c) = lower_ascii c.
Proof.
  destruct c as [[] [] [] [] [] [] [] []]; reflexivity.
Qed.

Lemma lower_idem s : lower (lower s) = lower s.
Proof.
  induction s as [|c s IH]; [reflexivity|].
  simpl. rewrite lower_ascii_idem, IH. reflexivity.
Qed.

Lemma is_empty_lower s : is_empty (lower s) = is_empty s.
Proof. destruct s; reflexivity. Qed.

(** X17: the customer search does not see the case of what it is asked
    for: a name and an email written in any mix of upper and lower case
    give the run that their lower-case forms give. *)
Theorem customer_search_ignores_query_case (fuel : nat)
    (customer_name customer_email : string) (days_back : Z) (s : state) :
  Server.search_bookings_by_customer W fuel (lower customer_name)
    (lower customer_email) days_back s
  = Server.search_bookings_by_customer W fuel customer_name customer_email
      days_back s.
Proof.
  unfold Server.search_bookings_by_customer.
  rewrite !is_empty_lower, !lower_idem.
  destruct customer_name, customer_email; reflexivity.
Qed.

Lemma fragment_match_text fragment text :
  Server.fragment_match fragment (JStr text) = Ret (fragment_in fragment text).
Proof.
  unfold Server.fragment_match, fragment_in.
  destruct (is_empty fragment); reflexivity.
Qed.

(** X18: over bookings that project and whose projected name and email
    address are ASCII texts (on which [lower] is [str.lower()]), the body
    of the customer search is a filter: it lists, in the order in which the
    bookings come, the summary of each booking whose projected name or
    whose email address, in lower case, contains the fragment asked for,
    and leaves the others out; an empty fragment matches nothing. *)
Theorem customer_search_filters (name_lower email_lower : string)
    (bookings : list json) (views : list match_view) (acc : list json) :
  Forall2 (fun b v =>
             Server.format_customer b = Ret (customer_of v)
             /\ Server.email (customer_of v) = JStr (mail_of v)
             /\ is_ascii (Server.name (customer_of v)) = true
             /\ is_ascii (mail_of v) = true
             /\ Server.summary b (customer_of v) = Ret (item_of v))
          bookings views ->
  BookeoClient.for_each (Server.keep_if_match name_lower email_lower) bookings acc
  = Ret (acc ++ map item_of (filter (is_match name_lower email_lower) views)).
Proof.
  intros Hall. revert acc.
  induction Hall as [|b v bookings views [Hc [Hm [_ [_ Hi]]]] _ IH]; intros acc.
  - simpl. rewrite app_nil_r. reflexivity.
  - cbn [BookeoClient.for_each]. unfold Server.keep_if_match at 1.
    rewrite Hc. cbn [Py.bind]. rewrite Hm, !fragment_match_text. cbn [Py.bind].
    cbn [filter].
    destruct (is_match name_lower email_lower v) eqn:E; unfold is_match in E;
      rewrite E.
    + rewrite Hi. cbn [Py.bind]. rewrite IH. cbn [map].
      rewrite <- app_assoc. reflexivity.
    + cbn [Py.bind]. apply IH.
Qed.

End CustomerSearch.

(** ** The parameters of a search request *)

Section SearchRequests.
Context `{Runtime} (W : world).

Lemma get_client_appends Q : appends Q (Server.get_client W).
Proof.
  intros s. exists []. rewrite app_nil_r. split; [|constructor].
  apply get_client_trace.
Qed.

Lemma asks_flags self ec ic su eu tok num :
  search_flags ec ic
    (Get (BookeoClient.authenticated self "/bookings"
            (Some (BookeoClient.search_params ec ic su eu tok num)))).
Proof.
  unfold BookeoClient.search_params.
  destruct (truthy tok), ec, ic; repeat split; reflexivity.
Qed.

Lemma chunk_loop_appends {A} (consume : A -> json -> res A) self ec ic fuel :
  forall turns cs e acc,
  appends (search_flags ec ic)
          (BookeoClient.chunk_loop W consume self ec ic turns fuel cs e acc).
Proof.
  induction turns as [|turns IH]; intros cs e acc.
  - apply appends_lift.
  - cbn [BookeoClient.chunk_loop]. destruct (ltb cs e); [|apply appends_ret].
    apply appends_bind; [|intros acc'; apply IH].
    unfold BookeoClient.one_chunk. apply appends_bind.
    + apply pages_appends; [intros; apply asks_flags|intros; exact I].
    + intros acc'. apply appends_bind; [apply appends_sleep; exact I|].
      intros _. apply appends_ret.
Qed.

(** X19: whatever the service answers, every request the two searches send
    goes to the bookings endpoint with [itemsPerPage] 100 and with the two
    flags as the texts "true" and "false": the date search asks for
    expanded customers and passes [include_canceled] on, the customer
    search asks for expanded customers and never for canceled bookings. *)
Theorem search_requests_carry_the_flags (fuel : nat)
    (start_date end_date customer_name customer_email : string)
    (include_canceled : bool) (days_back : Z) :
  appends (search_flags true include_canceled)
          (Server.search_bookings_by_date W fuel start_date end_date include_canceled)
  /\ appends (search_flags true false)
             (Server.search_bookings_by_customer W fuel customer_name
                customer_email days_back).
Proof.
  split.
  - unfold Server.search_bookings_by_date.
    destruct (Server.parse_window start_date end_date) as [[st en]|e|].
    + destruct (366 <? days_between en st); [apply appends_ret|].
      apply appends_bind; [apply get_client_appends|]. intros c.
      apply appends_bind; [apply chunk_loop_appends|]. intros r. apply appends_ret.
    + destruct e; first [apply appends_ret | apply appends_lift].
    + apply appends_lift.
  - unfold Server.search_bookings_by_customer.
    destruct (is_empty customer_name && is_empty customer_email);
      [apply appends_ret|].
    apply appends_bind; [apply get_client_appends|]. intros c.
    apply appends_bind; [apply chunk_loop_appends|]. intros r. apply appends_ret.
Qed.

End SearchRequests.

(** ** Payments and bookings that are not as expected *)

Section OddAnswers.
Context `{Runtime} (W : world).

(** X20: when the answer to the payments request has no ["data"] entry, or
    an empty one, the tool returns the report of a booking without
    payments after that one request: count 0, total the integer 0 (not a
    float), currency "CAD", both flags false and empty lists. *)
Theorem no_payments_gives_the_empty_report (fuel : nat) (booking_number : string)
    (s s1 : state) (c : BookeoClient) (r : response) (answer : json) :
  let q := BookeoClient.authenticated c
             ("/bookings/" ++ booking_number ++ "/payments") None in
  Server.get_client W s = (Ret c, s1) ->
  net W (trace s1) q = Answer r ->
  BookeoClient.is_success r = true ->
  body r = Some answer ->
  get answer "data" (JList []) = Ret (JList []) ->
  Server.get_booking_payments W (S fuel) booking_number s
  = (Ret (empty_report booking_number), with_trace s1 (trace s1 ++ [Get q])).
Proof.
  intros q Hc Hnet Hok Hbody Hdata.
  unfold Server.get_booking_payments. rewrite (bindM_ret _ _ _ _ _ Hc).
  unfold try_except, BookeoClient.get_booking_payments, BookeoClient._request.
  fold q. unfold bindM at 1. unfold bindM at 1.
  rewrite (request_answered W fuel q s1 r answer Hnet Hok Hbody).
  unfold lift. rewrite Hdata. reflexivity.
Qed.

(** X21: a fetched booking whose ["customer"] entry is [null] cannot be
    projected ([None] has no [get]): the lookup tool returns the error
    payload built from that [AttributeError], and the consumer of the date
    search raises it. *)
Theorem null_customer_is_reported_as_failure (fuel : nat) (booking_number : string)
    (s s1 s2 : state) (c : BookeoClient) (booking : json) :
  Server.get_client W s = (Ret c, s1) ->
  BookeoClient.get_booking W fuel c booking_number s1 = (Ret booking, s2) ->
  get booking "customer" (JDict []) = Ret JNull ->
  Server.format_customer booking = Raise AttributeError
  /\ Server.get_booking W fuel booking_number s
     = (Ret (JDict [("error",
                     JStr ("Booking not found or API error: "
                           ++ exn_message AttributeError))]), s2)
  /\ Server.keep [] booking = Raise AttributeError.
Proof.
  intros Hc Hfetch Hnull.
  assert (Hcust : Server.format_customer booking = Raise AttributeError).
  { unfold Server.format_customer. rewrite Hnull. reflexivity. }
  split; [exact Hcust|]. split.
  - destruct booking; try discriminate.
    unfold Server.get_booking. rewrite (bindM_ret _ _ _ _ _ Hc).
    unfold try_except, bindM. rewrite Hfetch. unfold lift.
    cbn [get Py.bind]. rewrite Hcust. reflexivity.
  - unfold Server.keep. rewrite Hcust. reflexivity.
Qed.

End OddAnswers.

(** ** A chunk whose request is turned away first *)

Section Throttled.
Context `{Runtime} (W : world) {A : Type} (consume : A -> json -> res A).
Variables (self : BookeoClient) (ec ic : bool).


End Throttled.

(** ** The connection of the client *)

Section Lifecycle.
Import Connection.

Lemma sound_initial : sound initial.
Proof.
  repeat split; cbn; try discriminate; try contradiction; constructor.
Qed.

Lemma sound_step st c : sound st -> sound (step st c).
Proof.
  intros (Hheld & Hrel & Hnd & Hcount).
  destruct st as [h n rel]; cbn in *.
  destruct c, h as [h|]; unfold sound; cbn.
  - repeat split; auto; apply Hheld; assumption.
  - split; [|split; [|split]].
    + intros k E. injection E as <-. split; [lia|].
      intros Hin. apply Hrel in Hin. lia.
    + intros k Hin. apply Hrel in Hin. lia.
    + exact Hnd.
    + lia.
  - destruct (Hheld h eq_refl) as [Hlt Hnot]. split; [|split; [|split]].
    + discriminate.
    + intros k [<-|Hin]; [exact Hlt|apply Hrel, Hin].
    + constructor; assumption.
    + lia.
  - split; [|split; [|split]]; auto.
Qed.

Lemma sound_run calls : sound (run calls).
Proof.
  unfold run. generalize sound_initial. generalize initial.
  induction calls as [|c calls IH]; intros st Hst; [exact Hst|].
  cbn. apply IH, sound_step, Hst.
Qed.

Lemma created_bound calls : forall st,
  (created (fold_left step calls st)
   <= created st + match held st with Some _ => 0 | None => 1 end
      + List.length (filter (fun c => match c with Close => true | Send => false end)
                            calls))%nat.
Proof.
  induction calls as [|c calls IH]; intros st; [cbn; lia|].
  cbn [fold_left]. specialize (IH (step st c)).
  destruct st as [h n rel]. destruct c, h as [h|]; cbn in *; lia.
Qed.

(** X23: after any sequence of sends and [close()] calls on a new client,
    the connection the next send uses is one that has never been closed,
    and it is the one the client then holds; no connection is closed
    twice; every connection created has been closed except the one held;
    and the client has created at most one connection more than it has
    been closed. *)
Theorem sends_never_use_a_closed_connection (calls : list call) :
  let st := run calls in
  (~ In (fst (_get_client st)) (released (snd (_get_client st)))
   /\ held (snd (_get_client st)) = Some (fst (_get_client st)))
  /\ NoDup (released st)
  /\ created st
     = (List.length (released st) + match held st with Some _ => 1 | None => 0 end)%nat
  /\ (created st
      <= 1 + List.length (filter (fun c => match c with Close => true | Send => false end)
                                calls))%nat.
Proof.
  intros st.
  destruct (sound_step _ Send (sound_run calls)) as (Hheld & _).
  destruct (sound_run calls) as (_ & _ & Hnd & Hcount).
  fold st in Hheld, Hnd, Hcount.
  assert (Hh : held (snd (_get_client st)) = Some (fst (_get_client st))).
  { unfold _get_client. destruct (held st) eqn:E; cbn; [exact E|reflexivity]. }
  repeat split.
  - apply (Hheld _ Hh).
  - exact Hh.
  - exact Hnd.
  - exact Hcount.
  - subst st. unfold run. pose proof (created_bound calls initial) as B.
    cbn in B. exact B.
Qed.

End Lifecycle.

(** ** The theorems at concrete inputs *)

Section Instances.
Import Examples.
#[local] Existing Instance Examples.runtime.

(** The Dec 27 search against a service with no booking. *)
Lemma dec27_search_sends_two_day_window_witness :
  local_zone quiet = Los_Angeles
  /\ Server.get_client quiet fresh = (Ret client, ready)
  /\ (0 < 1)%nat
  /\ strftime_iso_z (astimezone_utc Los_Angeles (replace_hms (midnight 2024 12 27) 0 0 0))
     = "2024-12-27T08:00:00Z"
  /\ strftime_iso_z (astimezone_utc Los_Angeles (replace_hms (midnight 2024 12 27) 23 59 59))
     = "2024-12-28T07:59:59Z"
  /\ strftime_iso_z (astimezone_utc Los_Angeles (replace_hms (midnight 2024 12 28) 23 59 59))
     = "2024-12-29T07:59:59Z"
  /\ exists q rest,
       trace (snd (Server.search_bookings_by_date quiet 1 "2024-12-27" "2024-12-27"
                     false fresh))
       = trace fresh ++ Get q :: rest
       /\ Forall (carries "2024-12-27T08:00:00Z" "2024-12-29T07:59:59Z") (Get q :: rest).
Proof.
  split; [reflexivity|]. split; [reflexivity|]. split; [lia|].
  apply (dec27_search_sends_two_day_window quiet 1 false fresh ready client);
    [reflexivity|reflexivity|lia].
Defined.

(** The 74 days from 2024-01-01 to 2024-03-15. *)
Lemma chunks_partition_window_witness :
  lt (midnight 2024 1 1) (midnight 2024 3 15)
  /\ roomy (midnight 2024 1 1) (midnight 2024 3 15)
  /\ (forall t, le (midnight 2024 1 1) t /\ lt t (midnight 2024 3 15)
                <-> exists c, In c (BookeoClient.chunks (midnight 2024 1 1)
                                                        (midnight 2024 3 15))
                              /\ within c t)
  /\ Forall (fun c => lt (fst c) (snd c) /\ le (snd c) (add_days (fst c) 30))
            (BookeoClient.chunks (midnight 2024 1 1) (midnight 2024 3 15))
  /\ Forall (fun c => plus_days (fst c) 30 = Ret (add_days (fst c) 30))
            (BookeoClient.chunks (midnight 2024 1 1) (midnight 2024 3 15)).
Proof.
  assert (Hroom : roomy (midnight 2024 1 1) (midnight 2024 3 15)).
  { split; split; vm_compute; discriminate. }
  split; [reflexivity|]. split; [exact Hroom|].
  pose proof (chunks_partition_window (midnight 2024 1 1) (midnight 2024 3 15)
                eq_refl Hroom)
    as [_ [Hcover [_ [_ [Hlen [_ Hsums]]]]]].
  split; [exact Hcover|]. split; [exact Hlen|exact Hsums].
Defined.



(** Both searches against a service that answers 500. *)
Lemma searches_raise_request_failure_witness :
  Server.get_client down fresh = (Ret client, ready)
  /\ (0 < 1)%nat
  /\ (forall q, net down (trace fresh) q = Answer (failure 500))
  /\ BookeoClient.is_success (failure 500) = false
  /\ status_code (failure 500) <> 429
  /\ Server.parse_window "2024-12-27" "2024-12-27"
     = Ret (midnight 2024 12 27, midnight 2024 12 28)
  /\ lt (midnight 2024 12 27) (midnight 2024 12 28)
  /\ days_between (midnight 2024 12 28) (midnight 2024 12 27) <= 366
  /\ is_empty "smith" && is_empty "" = false
  /\ 0 < 90
  /\ fst (Server.search_bookings_by_date down 1 "2024-12-27" "2024-12-27" false fresh)
     = Raise (HTTPStatusError 500)
  /\ fst (Server.search_bookings_by_customer down 1 "smith" "" 90 fresh)
     = Raise (HTTPStatusError 500).
Proof.
  assert (Hstatus : status_code (failure 500) <> 429) by (simpl; lia).
  assert (Hspan : days_between (midnight 2024 12 28) (midnight 2024 12 27) <= 366)
    by (vm_compute; discriminate).
  repeat (split; [first [reflexivity | lia | assumption | intros; reflexivity]|]).
  apply (searches_raise_request_failure down 1 fresh ready client (failure 500)
           "2024-12-27" "2024-12-27" false (midnight 2024 12 27) (midnight 2024 12 28)
           "smith" "" 90);
    first [reflexivity | lia | assumption | intros; reflexivity].
Defined.

(** A span of 400 days. *)
Lemma oversized_range_is_rejected_witness :
  strptime_ymd "2024-01-01" = Ret (midnight 2024 1 1)
  /\ strptime_ymd "2025-02-03" = Ret (midnight 2025 2 3)
  /\ plus_days (midnight 2025 2 3) 1 = Ret (midnight 2025 2 4)
  /\ days_between (midnight 2025 2 4) (midnight 2024 1 1) = 400
  /\ Server.search_bookings_by_date quiet 1 "2024-01-01" "2025-02-03" false fresh
     = (Ret (JList [JDict [("error", JStr "Date range cannot exceed 365 days")]]),
        fresh).
Proof.
  split; [reflexivity|]. split; [reflexivity|]. split; [reflexivity|].
  split; [reflexivity|].
  apply (oversized_range_is_rejected quiet 1 "2024-01-01" "2025-02-03" false fresh
           (midnight 2024 1 1) (midnight 2025 2 3) (midnight 2025 2 4));
    reflexivity.
Defined.

(** One payment taken by hand and one through Stripe. *)
Lemma payment_report_summarises_witness :
  Forall2 describes [cash; card] [cash_facts; card_facts]
  /\ Server.get_client paying fresh = (Ret client, ready)
  /\ exists analyzed methods,
       Server.get_booking_payments paying 1 "42" fresh
       = (Ret (JDict
             [("booking_number", JStr "42");
              ("payment_count", JInt 2);
              ("total_paid", JFloat (float_sum [25.5%float; 10%float]));
              ("currency", JStr "CAD");
              ("has_manual_payment", JBool true);
              ("has_stripe_payment", JBool true);
              ("payment_methods", JList (map JStr methods));
              ("payments", JList (map Server.payment_json analyzed))]),
          with_trace ready
            [Get (BookeoClient.authenticated client "/bookings/42/payments" None)])
       /\ NoDup methods
       /\ (forall m, In m methods <-> m = "cash" \/ m = "creditCard").
Proof.
  assert (Hdesc : Forall2 describes [cash; card] [cash_facts; card_facts]).
  { repeat constructor.
    - exists (JDict [("amount", JFloat 25.5%float); ("currency", JStr "CAD")]),
             (JFloat 25.5%float).
      repeat split; reflexivity.
    - exists (JDict [("amount", JInt 10); ("currency", JStr "CAD")]), (JInt 10).
      repeat split; reflexivity. }
  split; [exact Hdesc|]. split; [reflexivity|].
  destruct (payment_report_summarises paying 1 "42" [cash; card]
              [cash_facts; card_facts] fresh ready
              (with_trace ready
                 [Get (BookeoClient.authenticated client "/bookings/42/payments" None)])
              client Hdesc eq_refl eq_refl)
    as [analyzed [methods [Hrun [_ [Hnd Hin]]]]].
  exists analyzed, methods. split; [exact Hrun|]. split; [exact Hnd|].
  intros m. rewrite Hin. split.
  - intros [f [[<-|[<-|[]]] <-]]; [left|right]; reflexivity.
  - intros [->| ->]; [exists cash_facts|exists card_facts]; simpl; tauto.
Defined.

(** A booking for five people by a customer without a first name. *)
Lemma projection_rules_witness :
  get smith_booking "customer" (JDict []) = Ret smith
  /\ get smith "firstName" (JStr "") = Ret (JStr "")
  /\ get smith "lastName" (JStr "") = Ret (JStr "Smith ")
  /\ Forall2 (fun c n => get c "number" (JInt 0) = Ret (JInt n))
             [JDict [("peopleCategoryId", JStr "Cadults"); ("number", JInt 2)];
              JDict [("peopleCategoryId", JStr "Cchildren"); ("number", JInt 3)]]
             [2; 3]
  /\ (exists info,
        Server.format_customer smith_booking = Ret info
        /\ Server.name info = "Smith"
        /\ Server.phone info = JStr "6045550123")
  /\ Server.format_participants smith_booking = Ret (JInt 5).
Proof.
  assert (Hcounts : Forall2 (fun c n => get c "number" (JInt 0) = Ret (JInt n))
             [JDict [("peopleCategoryId", JStr "Cadults"); ("number", JInt 2)];
              JDict [("peopleCategoryId", JStr "Cchildren"); ("number", JInt 3)]]
             [2; 3]).
  { repeat constructor. }
  split; [reflexivity|]. split; [reflexivity|]. split; [reflexivity|].
  split; [exact Hcounts|].
  destruct (projection_rules smith_booking smith family "" "Smith "
              [JDict [("number", JStr "6045550123")]] (JStr "6045550123")
              _ [2; 3] eq_refl eq_refl eq_refl eq_refl eq_refl eq_refl eq_refl Hcounts)
    as [[info [Hrun [Hname [_ [_ Hphone]]]]] Hsum].
  split; [|exact Hsum].
  exists info. split; [exact Hrun|]. split; [exact Hname|exact Hphone].
Defined.

(** An inverted window, and a search seven days into the future. *)
Lemma empty_window_sends_nothing_witness :
  le (midnight 2024 12 27) (midnight 2024 12 28)
  /\ BookeoClient.search_bookings quiet collect client true false 1
       (midnight 2024 12 28) (midnight 2024 12 27) [] ready
     = (Ret [], ready)
  /\ is_empty "smith" && is_empty "" = false
  /\ -7 < 0
  /\ Server.get_client quiet fresh = (Ret client, ready)
  /\ plus_days (now quiet) 7 = Ret (replace_hms (midnight 2025 1 22) 12 0 0)
  /\ Z.min (-7) 365 = -7
  /\ lt (now quiet) (replace_hms (midnight 2025 1 22) 12 0 0)
  /\ Server.search_bookings_by_customer quiet 1 "smith" "" (-7) fresh
     = (Ret (JList []), ready)
  /\ trace ready = trace fresh.
Proof.
  destruct (empty_window_sends_nothing quiet) as [Hempty Hnegative].
  split; [reflexivity|].
  split; [apply Hempty; reflexivity|].
  split; [reflexivity|]. split; [lia|]. split; [reflexivity|].
  split; [reflexivity|].
  apply (Hnegative 1%nat "smith" "" (-7) fresh client ready
           (replace_hms (midnight 2025 1 22) 12 0 0));
    [reflexivity|lia|reflexivity|reflexivity].
Defined.

(** The request windows of two chunks that follow one another share the
    day on which the first ends: for the chunks 2024-01-01 to 2024-01-31 and
    2024-01-31 to 2024-03-01, the first request window ends when Jan 31 ends
    in Los Angeles, the second starts when Jan 31 starts there. *)
Example consecutive_request_windows_share_a_day :
  strftime_iso_z (BookeoClient.window_end quiet (midnight 2024 1 31))
  = "2024-02-01T07:59:59Z"
  /\ strftime_iso_z (BookeoClient.window_start quiet (midnight 2024 1 31))
     = "2024-01-31T08:00:00Z".
Proof. split; reflexivity. Qed.

(** A last name that ends with a no-break space (C2 A0) is trimmed as
    [str.strip()] trims it. *)
Example name_with_no_break_space_is_trimmed :
  match Server.format_customer
          (JDict [("customer",
                   JDict [("firstName", JStr "");
                          ("lastName", JStr ("Smith" ++ bytes [194; 160]))])])
  with
  | Ret info => Server.name info = "Smith"
  | _ => False
  end.
Proof. reflexivity. Qed.

End Instances.

(** ** More theorems at concrete inputs *)

Section MoreInstances.
Import Examples Cases Connection.
#[local] Existing Instance Examples.runtime.


(** A refused connection, and a 200 whose body is not JSON. *)
Lemma other_failures_are_not_retried_witness :
  BookeoClient._request unreachable 5 client "/bookings/42" None ready
  = (Raise (TransportError "connection refused"),
     with_trace ready [Get (BookeoClient.authenticated client "/bookings/42" None)])
  /\ BookeoClient._request garbled 5 client "/bookings/42" None ready
     = (Raise JSONDecodeError,
        with_trace ready [Get (BookeoClient.authenticated client "/bookings/42" None)]).
Proof.
  split.
  - apply (proj1 (other_failures_are_not_retried unreachable 4 client "/bookings/42"
                    None ready)). reflexivity.
  - apply (proj2 (other_failures_are_not_retried garbled 4 client "/bookings/42"
                    None ready) {| status_code := 200; headers := []; body := None |});
      reflexivity.
Defined.

(** The client built at the first call is there when the credentials are
    gone; without credentials every call fails anew. *)
Lemma get_client_builds_once_witness :
  Server.get_client quiet fresh = (Ret client, ready)
  /\ Server.get_client unconfigured ready = (Ret client, ready)
  /\ Server.get_client unconfigured fresh
     = (Raise (ValueError "API_KEY and API_SECRET must be set in .env"), fresh)
  /\ the_client fresh = None.
Proof.
  split; [reflexivity|].
  split.
  - apply (proj1 (get_client_builds_once quiet fresh) client ready eq_refl).
  - split; [reflexivity|].
    apply (proj2 (get_client_builds_once unconfigured fresh) _ fresh eq_refl).
Defined.


(** The two look-ups against a service that answers 500. *)
Lemma lookups_return_fetch_failures_witness :
  Server.get_client down fresh = (Ret client, ready)
  /\ Server.get_booking down 1 "42" fresh
     = (Ret (JDict [("error", JStr "Booking not found or API error: request failed")]),
        with_trace ready
          [Get (BookeoClient.authenticated client "/bookings/42"
                  (Some [("expandCustomer", JStr "true")]))])
  /\ Server.get_booking_payments down 1 "42" fresh
     = (Ret (JDict [("error", JStr "Could not fetch payments: request failed")]),
        with_trace ready
          [Get (BookeoClient.authenticated client "/bookings/42/payments" None)]).
Proof.
  split; [reflexivity|].
  destruct (lookups_return_fetch_failures down 1 fresh ready client "42" eq_refl)
    as [Hbooking Hpayments].
  split.
  - apply (Hbooking (HTTPStatusError 500)). reflexivity.
  - apply (Hpayments (HTTPStatusError 500)). reflexivity.
Defined.

(** Two look-ups of booking 42 and of its payments. *)
Lemma lookups_are_repeatable_witness :
  stateless paying
  /\ Server.get_client paying fresh = (Ret client, ready)
  /\ fst (Server.get_booking paying 1 "42"
            (snd (Server.get_booking paying 1 "42" fresh)))
     = fst (Server.get_booking paying 1 "42" fresh)
  /\ fst (Server.get_booking_payments paying 1 "42"
            (snd (Server.get_booking_payments paying 1 "42" fresh)))
     = fst (Server.get_booking_payments paying 1 "42" fresh).
Proof.
  assert (Hstateless : stateless paying) by (intros t t' q; reflexivity).
  split; [exact Hstateless|]. split; [reflexivity|].
  apply (lookups_are_repeatable paying 1 "42" fresh ready client Hstateless eq_refl).
Defined.

(** A start date written day first. *)
Lemma unreadable_dates_are_rejected_witness :
  is_ascii "27/12/2024" = true
  /\ strptime_ymd "27/12/2024" = Raise (ValueError "does not match format")
  /\ Server.search_bookings_by_date quiet 1 "27/12/2024" "2024-12-28" false fresh
     = (Ret (JList [JDict [("error", JStr "Invalid date format. Use YYYY-MM-DD")]]),
        fresh).
Proof.
  split; [reflexivity|]. split; [reflexivity|].
  apply (unreadable_dates_are_rejected quiet 1 "27/12/2024" "2024-12-28" false fresh).
  left. split; [reflexivity|]. intros d. discriminate.
Defined.

(** From Dec 28 back to Dec 20. *)
Lemma inverted_range_gives_nothing_witness :
  strptime_ymd "2024-12-28" = Ret (midnight 2024 12 28)
  /\ strptime_ymd "2024-12-20" = Ret (midnight 2024 12 20)
  /\ ordinal (midnight 2024 12 20) < ordinal (midnight 2024 12 28)
  /\ Server.search_bookings_by_date quiet 1 "2024-12-28" "2024-12-20" false fresh
     = (Ret (JList []), ready).
Proof.
  split; [reflexivity|]. split; [reflexivity|]. split; [reflexivity|].
  apply (inverted_range_gives_nothing quiet 1 "2024-12-28" "2024-12-20" false fresh
           ready client (midnight 2024 12 28) (midnight 2024 12 20));
    reflexivity.
Defined.

(** The 74 days from 2024-01-01 are three chunks; a whole leap year with
    the day added to the end date is thirteen. *)
Lemma chunk_count_witness :
  add_days (midnight 2024 1 1) 74 = midnight 2024 3 15
  /\ roomy (midnight 2024 1 1) (midnight 2024 3 15)
  /\ roomy (midnight 2024 1 1) (add_days (midnight 2024 1 1) 366)
  /\ List.length (BookeoClient.chunks (midnight 2024 1 1) (midnight 2024 3 15)) = 3%nat
  /\ List.length (BookeoClient.chunks (midnight 2024 1 1)
                    (add_days (midnight 2024 1 1) 366)) = 13%nat.
Proof.
  assert (Hroom : roomy (midnight 2024 1 1) (midnight 2024 3 15)).
  { split; split; vm_compute; discriminate. }
  assert (Hyear : roomy (midnight 2024 1 1) (add_days (midnight 2024 1 1) 366)).
  { split; split; vm_compute; discriminate. }
  split; [reflexivity|]. split; [exact Hroom|]. split; [exact Hyear|]. split.
  - exact (proj1 (chunk_count (midnight 2024 1 1) 74 eq_refl Hroom)).
  - exact (proj1 (chunk_count (midnight 2024 1 1) 366 eq_refl Hyear)).
Defined.

(** The first two chunks of the window from 2024-01-01 to 2024-03-15, in
    Los Angeles: the first request window ends at 07:59:59 UTC on Feb 1,
    the second starts at 08:00:00 UTC on Jan 31. *)
Lemma consecutive_windows_overlap_witness :
  nth_error (BookeoClient.chunks (midnight 2024 1 1) (midnight 2024 3 15)) 0
  = Some (midnight 2024 1 1, midnight 2024 1 31)
  /\ nth_error (BookeoClient.chunks (midnight 2024 1 1) (midnight 2024 3 15)) 1
     = Some (midnight 2024 1 31, midnight 2024 3 1)
  /\ lt (BookeoClient.window_start quiet (midnight 2024 1 31))
        (BookeoClient.window_end quiet (midnight 2024 1 31)).
Proof.
  split; [reflexivity|]. split; [reflexivity|].
  apply (consecutive_windows_overlap quiet (midnight 2024 1 1) (midnight 2024 3 15) 0
           (midnight 2024 1 1, midnight 2024 1 31)
           (midnight 2024 1 31, midnight 2024 3 1));
    reflexivity.
Defined.

(** The whole of 2024 passes; one day more does not. *)
Lemma range_is_rejected_beyond_365_days_witness :
  strptime_ymd "2024-01-01" = Ret (midnight 2024 1 1)
  /\ strptime_ymd "2025-01-01" = Ret (midnight 2025 1 1)
  /\ plus_days (midnight 2025 1 1) 1 = Ret (midnight 2025 1 2)
  /\ ordinal (midnight 2025 1 1) - ordinal (midnight 2024 1 1) = 366
  /\ fst (Server.search_bookings_by_date quiet 1 "2024-01-01" "2025-01-01" false fresh)
     = Ret (JList [JDict [("error", JStr "Date range cannot exceed 365 days")]])
  /\ ordinal (midnight 2024 12 31) - ordinal (midnight 2024 1 1) <= 365.
Proof.
  split; [reflexivity|]. split; [reflexivity|]. split; [reflexivity|].
  split; [reflexivity|].
  split.
  - apply (proj2 (proj2 (range_is_rejected_beyond_365_days quiet 1
                           "2024-01-01" "2025-01-01" false fresh
                           (midnight 2024 1 1) (midnight 2025 1 1) (midnight 2025 1 2)
                           eq_refl eq_refl eq_refl))).
    reflexivity.
  - vm_compute. discriminate.
Defined.

(** The window from 2024-01-01 to 2024-03-15 against a service that lists
    one booking per request: three requests, three pauses, three
    bookings. *)
Lemma search_of_single_pages_witness :
  BookeoClient.chunks (midnight 2024 1 1) (midnight 2024 3 15)
  = [(midnight 2024 1 1, midnight 2024 1 31);
     (midnight 2024 1 31, midnight 2024 3 1);
     (midnight 2024 3 1, midnight 2024 3 15)]
  /\ roomy (midnight 2024 1 1) (midnight 2024 3 15)
  /\ records_of single = Ret [booking "7"]
  /\ ends_listing single
  /\ BookeoClient.search_bookings steady collect client true false 1
       (midnight 2024 1 1) (midnight 2024 3 15) [] ready
     = (Ret [booking "7"; booking "7"; booking "7"],
        with_trace ready
          (flat_map (chunk_events steady client true false)
             (BookeoClient.chunks (midnight 2024 1 1) (midnight 2024 3 15)))).
Proof.
  assert (Hend : ends_listing single).
  { exists (JDict []), JNull. repeat split; reflexivity. }
  assert (Hroom : roomy (midnight 2024 1 1) (midnight 2024 3 15)).
  { split; split; vm_compute; discriminate. }
  split; [reflexivity|]. split; [exact Hroom|]. split; [reflexivity|].
  split; [exact Hend|].
  refine (proj2 (search_of_single_pages steady collect client true false 1
           (midnight 2024 1 1) (midnight 2024 3 15)
           [(single, [booking "7"]); (single, [booking "7"]); (single, [booking "7"])]
           [] [booking "7"; booking "7"; booking "7"] ready _ _ _ _ _ _)).
  - exact Hroom.
  - reflexivity.
  - repeat constructor; exact Hend.
  - intros k c d _ Hd. eexists. split; [reflexivity|]. split; [reflexivity|].
    destruct k as [|[|[|k]]]; simpl in Hd.
    + injection Hd as <-. reflexivity.
    + injection Hd as <-. reflexivity.
    + injection Hd as <-. reflexivity.
    + destruct k; discriminate.
  - reflexivity.
  - lia.
Defined.


(** A service that answers twice with a page announcing a next page
    without a token: the booking of that page is listed twice. *)
Lemma page_without_cursor_is_fetched_again_witness :
  records_of stuck = Ret [booking "1"]
  /\ announces_without_token stuck
  /\ records_of page3 = Ret [booking "4"]
  /\ ends_listing page3
  /\ BookeoClient.pages looping collect client true false 3
       (midnight 2024 12 27) (midnight 2024 12 28) JNull JNull [] ready
     = (Ret [booking "1"; booking "1"; booking "4"],
        with_trace ready
          (repeat (Get (first_request client true false
                          (midnight 2024 12 27) (midnight 2024 12 28))) 3)).
Proof.
  assert (Hstuck : announces_without_token stuck).
  { exists (JDict [("nextPageURL", JStr "/bookings?page=2"); ("currentPage", JInt 1)]),
           (JStr "/bookings?page=2"), JNull, (JInt 1), (JInt 2).
    repeat split; reflexivity. }
  assert (Hend : ends_listing page3).
  { exists (JDict []), JNull. repeat split; reflexivity. }
  split; [reflexivity|]. split; [exact Hstuck|]. split; [reflexivity|].
  split; [exact Hend|].
  apply (page_without_cursor_is_fetched_again looping client true false
           (midnight 2024 12 27) (midnight 2024 12 28) 3 2 stuck page3
           [booking "1"] [booking "4"] [] ready eq_refl Hstuck eq_refl Hend).
  - intros k Hk. destruct k as [|[|k]].
    + eexists. split; [reflexivity|]. split; reflexivity.
    + eexists. split; [reflexivity|]. split; reflexivity.
    + lia.
  - eexists. split; [reflexivity|]. split; reflexivity.
  - lia.
Defined.

(** A search for "smi" over three bookings: Ann Smith and SMITHERS are
    listed, Bob Jones is not. *)
Lemma customer_search_filters_witness :
  is_match "smi" "" (listed "1" "Ann Smith" "ann@example.com") = true
  /\ is_match "smi" "" (listed "2" "Bob Jones" "bob@example.com") = false
  /\ is_match "smi" "" (listed "3" "SMITHERS" "s@example.com") = true
  /\ BookeoClient.for_each (Server.keep_if_match "smi" "")
       [booked "1" "Ann" "Smith" "ann@example.com";
        booked "2" "Bob" "Jones" "bob@example.com";
        booked "3" "" "SMITHERS" "s@example.com"] []
     = Ret [item_of (listed "1" "Ann Smith" "ann@example.com");
            item_of (listed "3" "SMITHERS" "s@example.com")].
Proof.
  split; [reflexivity|]. split; [reflexivity|]. split; [reflexivity|].
  apply (customer_search_filters "smi" ""
           [booked "1" "Ann" "Smith" "ann@example.com";
            booked "2" "Bob" "Jones" "bob@example.com";
            booked "3" "" "SMITHERS" "s@example.com"]
           [listed "1" "Ann Smith" "ann@example.com";
            listed "2" "Bob Jones" "bob@example.com";
            listed "3" "SMITHERS" "s@example.com"] []).
  repeat constructor.
Defined.

(** The payments of a booking that has none. *)
Lemma no_payments_gives_the_empty_report_witness :
  Server.get_client quiet fresh = (Ret client, ready)
  /\ get (JDict [("data", JList [])]) "data" (JList []) = Ret (JList [])
  /\ Server.get_booking_payments quiet 1 "42" fresh
     = (Ret (empty_report "42"),
        with_trace ready
          [Get (BookeoClient.authenticated client "/bookings/42/payments" None)]).
Proof.
  split; [reflexivity|]. split; [reflexivity|].
  apply (no_payments_gives_the_empty_report quiet 0 "42" fresh ready client
           {| status_code := 200; headers := [];
              body := Some (JDict [("data", JList [])]) |}
           (JDict [("data", JList [])])); reflexivity.
Defined.

(** Looking up a booking whose customer is [null]. *)
Lemma null_customer_is_reported_as_failure_witness :
  BookeoClient.get_booking orphaned 1 client "13" ready
  = (Ret orphan,
     with_trace ready
       [Get (BookeoClient.authenticated client "/bookings/13"
               (Some [("expandCustomer", JStr "true")]))])
  /\ get orphan "customer" (JDict []) = Ret JNull
  /\ Server.get_booking orphaned 1 "13" fresh
     = (Ret (JDict [("error", JStr "Booking not found or API error: request failed")]),
        with_trace ready
          [Get (BookeoClient.authenticated client "/bookings/13"
                  (Some [("expandCustomer", JStr "true")]))]).
Proof.
  split; [reflexivity|]. split; [reflexivity|].
  refine (proj1 (proj2 (null_customer_is_reported_as_failure orphaned 1 "13" fresh ready
           (with_trace ready
              [Get (BookeoClient.authenticated client "/bookings/13"
                      (Some [("expandCustomer", JStr "true")]))])
           client orphan eq_refl eq_refl eq_refl))).
Defined.


End MoreInstances.
